(** * Terra Forest Monitor: data-source resolution, fallback and caching

    A shallow embedding of the worker ([cloudflare/worker.ts]), of the
    browser-side facade ([services/enhancedForestDataService.ts]), of the
    proxy client ([services/serverSideDataService.ts]) and of the cache
    constants ([services/apiConfig.ts]), followed by the properties of the
    specification that concern them.

    Conventions of the embedding.
    - A JavaScript [number] is [NaN], an infinity, or an exact rational:
      comparisons are those of IEEE doubles; arithmetic is exact, so the
      rounding of doubles is not represented. White space is ASCII white
      space.
    - [Date.now()], [Math.random()], date formatting and parsing, and every
      upstream HTTP answer are inputs, gathered in a record ([World] for the
      worker, [Services.Client] for the browser).
    - An [async] function is run to completion in a state-and-exception
      monad: the worker's state is its edge cache, the log of its upstream
      calls and the position in the random stream; the services' state is
      their two in-memory caches and the trace of the data sources they
      tried. A [while] loop takes fuel, and running out of it is a
      divergence.
    - Text built from templates (identifiers, descriptions, tile URLs) is
      kept structured or left out; it decides nothing below. *)

From Stdlib Require Import ZArith QArith Qminmax Qabs Qround Sorted List Ascii String Bool Lia.
From stdpp Require Import base option list gmap strings pretty.

Open Scope string_scope.
Open Scope Z_scope.

(* ================================================================== *)
(** ** JavaScript values used by the services *)
(* ================================================================== *)

Module JS.

(** [number]: IEEE special values and exact rationals. *)
Inductive number : Type :=
| NaN
| Num (q : Q)
| Infty (negative : bool).

Definition of_Z (z : Z) : number := Num (inject_Z z).

(** [a > b] and [a < b]: false as soon as one side is [NaN]. *)
Definition gt (a b : number) : bool :=
  match a, b with
  | NaN, _ | _, NaN => false
  | Num x, Num y => negb (Qle_bool x y)
  | Num _, Infty s => s
  | Infty s, Num _ => negb s
  | Infty s, Infty t => negb s && t
  end.

Definition lt (a b : number) : bool := gt b a.

(** [a >= b], [a <= b]. *)
Definition ge (a b : number) : bool :=
  match a, b with
  | NaN, _ | _, NaN => false
  | Num x, Num y => Qle_bool y x
  | Num _, Infty s => s
  | Infty s, Num _ => negb s
  | Infty s, Infty t => negb s || t
  end.

Definition le (a b : number) : bool := ge b a.

Definition neg (a : number) : number :=
  match a with
  | NaN => NaN
  | Num x => Num (- x)
  | Infty s => Infty (negb s)
  end.

Definition add (a b : number) : number :=
  match a, b with
  | NaN, _ | _, NaN => NaN
  | Num x, Num y => Num (x + y)
  | Num _, Infty s => Infty s
  | Infty s, Num _ => Infty s
  | Infty s, Infty t => if Bool.eqb s t then Infty s else NaN
  end.

Definition sub (a b : number) : number := add a (neg b).

(** Multiplication by a positive finite constant. *)
Definition mul_const (a : number) (c : Q) : number :=
  match a with
  | NaN => NaN
  | Num x => Num (x * c)
  | Infty s => Infty s
  end.

(** [Math.abs] *)
Definition Math_abs (a : number) : number :=
  match a with
  | NaN => NaN
  | Num x => Num (Qabs x)
  | Infty _ => Infty false
  end.

(** Division by a positive finite constant, the only division in the code. *)
Definition div_const (a : number) (c : Q) : number :=
  match a with
  | NaN => NaN
  | Num x => Num (x / c)
  | Infty s => Infty s
  end.

(** [Math.max], [Math.min] of two arguments. *)
Definition Math_max (a b : number) : number :=
  match a, b with
  | NaN, _ | _, NaN => NaN
  | _, _ => if ge a b then a else b
  end.

Definition Math_min (a b : number) : number :=
  match a, b with
  | NaN, _ | _, NaN => NaN
  | _, _ => if le a b then a else b
  end.

(** Truthiness of a number: [0] and [NaN] are falsy. *)
Definition truthy (a : number) : bool :=
  match a with
  | NaN => false
  | Num x => negb (Qeq_bool x 0)
  | Infty _ => true
  end.

(** [x || d] where [x] is a possibly absent number. *)
Definition or_num (x : option number) (d : number) : number :=
  match x with
  | Some n => if truthy n then n else d
  | None => d
  end.

(** [x || d] where [x] is a possibly absent (null/undefined) string. *)
Definition or_str (x : option string) (d : string) : string :=
  match x with
  | Some s => if String.eqb s "" then d else s
  | None => d
  end.

(** [!x] for a possibly absent string. *)
Definition falsy_str (x : option string) : bool :=
  match x with
  | Some s => String.eqb s ""
  | None => true
  end.

(** *** Strings *)

Definition is_ws (c : ascii) : bool :=
  let n := nat_of_ascii c in
  ((9 <=? n) && (n <=? 13))%nat || (n =? 32)%nat.

Definition is_digit (c : ascii) : bool :=
  let n := nat_of_ascii c in ((48 <=? n) && (n <=? 57))%nat.

Fixpoint drop_ws (cs : list ascii) : list ascii :=
  match cs with
  | c :: r => if is_ws c then drop_ws r else cs
  | [] => []
  end.

(** [s.trim()] *)
Definition trim (s : string) : string :=
  string_of_list_ascii
    (rev (drop_ws (rev (drop_ws (list_ascii_of_string s))))).

(** [s.split(c)] for a one-character separator: never the empty array. *)
Fixpoint split_chars (sep : ascii) (cur : list ascii) (cs : list ascii)
  : list string :=
  match cs with
  | [] => [string_of_list_ascii (rev cur)]
  | c :: r =>
      if Ascii.eqb c sep
      then string_of_list_ascii (rev cur) :: split_chars sep [] r
      else split_chars sep (c :: cur) r
  end.

Definition split (sep : ascii) (s : string) : list string :=
  split_chars sep [] (list_ascii_of_string s).

Fixpoint span_digits (cs : list ascii) : list ascii * list ascii :=
  match cs with
  | c :: r =>
      if is_digit c
      then let '(ds, rest) := span_digits r in (c :: ds, rest)
      else ([], cs)
  | [] => ([], [])
  end.

Definition digit_val (c : ascii) : Z := Z.of_nat (nat_of_ascii c) - 48.

Definition digits_val (ds : list ascii) : Z :=
  fold_left (fun acc c => 10 * acc + digit_val c) ds 0.

Definition split_sign (cs : list ascii) : bool * list ascii :=
  match cs with
  | "-"%char :: r => (true, r)
  | "+"%char :: r => (false, r)
  | _ => (false, cs)
  end.

Fixpoint starts_with (p cs : list ascii) : bool :=
  match p, cs with
  | [], _ => true
  | a :: p', c :: cs' => Ascii.eqb a c && starts_with p' cs'
  | _ :: _, [] => false
  end.

Definition upper_char (c : ascii) : ascii :=
  let n := nat_of_ascii c in
  if ((97 <=? n) && (n <=? 122))%nat then ascii_of_nat (n - 32) else c.

Definition lower_char (c : ascii) : ascii :=
  let n := nat_of_ascii c in
  if ((65 <=? n) && (n <=? 90))%nat then ascii_of_nat (n + 32) else c.

(** [s.toUpperCase()], [s.toLowerCase()] on ASCII letters. *)
Definition toUpperCase (s : string) : string :=
  string_of_list_ascii (map upper_char (list_ascii_of_string s)).
Definition toLowerCase (s : string) : string :=
  string_of_list_ascii (map lower_char (list_ascii_of_string s)).

(** [s.includes(p)] *)
Fixpoint includes_chars (p cs : list ascii) : bool :=
  starts_with p cs ||
  match cs with
  | [] => false
  | _ :: r => includes_chars p r
  end.

Definition includes (s p : string) : bool :=
  includes_chars (list_ascii_of_string p) (list_ascii_of_string s).

(** [s.startsWith(p)] *)
Definition startsWith (s p : string) : bool :=
  starts_with (list_ascii_of_string p) (list_ascii_of_string s).

(** [s.replace(' ', '_')]: the first occurrence only. *)
Fixpoint replace_first (a b : ascii) (cs : list ascii) : list ascii :=
  match cs with
  | [] => []
  | c :: r => if Ascii.eqb c a then b :: r else c :: replace_first a b r
  end.

(** [s.replace(/\/?$/, '')]: drops one trailing slash when there is one. *)
Definition drop_trailing_slash (s : string) : string :=
  match rev (list_ascii_of_string s) with
  | "/"%char :: r => string_of_list_ascii (rev r)
  | _ => s
  end.

(** [s.slice(n)] for [0 <= n]. *)
Definition str_slice_from (n : nat) (s : string) : string :=
  string_of_list_ascii (drop n (list_ascii_of_string s)).

(** Exponent part [e[+-]ddd]: counted only when a digit follows. *)
Definition exponent (cs : list ascii) : Z :=
  match cs with
  | c :: r =>
      if Ascii.eqb c "e" || Ascii.eqb c "E" then
        let '(sg, r') := split_sign r in
        match span_digits r' with
        | ([], _) => 0
        | (ds, _) => if sg then - digits_val ds else digits_val ds
        end
      else 0
  | [] => 0
  end.

Definition pow10 (e : Z) : Q :=
  if 0 <=? e then inject_Z (10 ^ e) else 1 / inject_Z (10 ^ (- e)).

(** [parseFloat(s)]: the longest decimal-literal prefix after leading
    white space, [NaN] when there is none. *)
Definition parseFloat (s : string) : number :=
  let cs := drop_ws (list_ascii_of_string s) in
  let '(sg, cs1) := split_sign cs in
  if starts_with (list_ascii_of_string "Infinity") cs1 then Infty sg
  else
    let '(ip, r1) := span_digits cs1 in
    let '(fp, r2) :=
      match r1 with
      | "."%char :: r => span_digits r
      | _ => ([], r1)
      end in
    match ip, fp with
    | [], [] => NaN
    | _, _ =>
        let m := digits_val (ip ++ fp) in
        let e := exponent r2 - Z.of_nat (length fp) in
        let v := (inject_Z m * pow10 e)%Q in
        Num (Qred (if sg then - v else v))
    end.

(** An integer-valued number or [NaN] ([None]), as [parseInt] returns. *)
Definition int := option Z.

(** [parseInt(s, 10)] *)
Definition parseInt (s : string) : int :=
  let cs := drop_ws (list_ascii_of_string s) in
  let '(sg, cs1) := split_sign cs in
  match span_digits cs1 with
  | ([], _) => None
  | (ds, _) => Some (if sg then - digits_val ds else digits_val ds)
  end.

(** [Math.min(a, b)] and [Math.max(a, b)] with an integer constant. *)
Definition int_min (a : int) (b : Z) : int := (fun x => Z.min x b) <$> a.
Definition int_max (b : Z) (a : int) : int := (fun x => Z.max b x) <$> a.

(** [n < m] for an array length [n]: false when [m] is [NaN]. *)
Definition length_lt (n : nat) (m : int) : bool :=
  match m with
  | Some z => Z.of_nat n <? z
  | None => false
  end.

(** [String(n)] for an integer-valued number. *)
Definition int_to_string (a : int) : string :=
  match a with
  | Some z => pretty z
  | None => "NaN"
  end.

(** [arr.slice(start, end)] with integer arguments (negative indices count
    from the end, [NaN] is [0]). *)
Definition rel_index {A} (l : list A) (i : int) : nat :=
  match i with
  | None => 0%nat
  | Some z =>
      if z <? 0 then Z.to_nat (Z.max (Z.of_nat (length l) + z) 0)
      else Nat.min (Z.to_nat z) (length l)
  end.

Definition slice {A} (l : list A) (s e : int) : list A :=
  let i := rel_index l s in
  let j := rel_index l e in
  take (j - i) (drop i l).

End JS.

Import JS.

(* ================================================================== *)
(** ** Canonical records (the interfaces shared by the three services) *)
(* ================================================================== *)

Inductive Severity := low | medium | high | critical.
Inductive AlertType := fire | deforestation | biodiversity | weather.
Inductive ConservationStatus :=
  stable | declining | critically_endangered | recovering.

#[global] Instance Severity_eq_dec : EqDecision Severity.
Proof. solve_decision. Defined.
#[global] Instance AlertType_eq_dec : EqDecision AlertType.
Proof. solve_decision. Defined.

(** A timestamp is either produced from the clock
    ([new Date(ms).toISOString()]) or copied from an upstream string. *)
Inductive Timestamp :=
| TsAt (ms : Z)
| TsRaw (s : string).

(** [getLocationName] answers a fixed name or the formatted coordinates. *)
Inductive Location :=
| LocName (s : string)
| LocCoords (lat lng : number).

(** Identifiers built from templates are kept structured. *)
Inductive AlertId :=
| IdText (s : string)
| IdFire (lat lng : number) (at_ms : Z)
| IdDeforest (index : nat) (at_ms : Z).

(** Upstream deforestation item: every field may be absent. *)
Record GladAlert := {
  g_date : option string;
  g_iso : option string;
  g_admin : option string;
  g_alerts : option number;
  g_area : option number;
  g_confidence : option number;
  g_lat : option number;
  g_lng : option number
}.

Inductive Description :=
| DescText (s : string)
| DescFire (frp : number)                 (* `Fire detected with ${frp} MW ...` *)
| DescDeforest (count : option number).    (* `${alerts || area || 'area'} alerts` *)

Inductive Metadata :=
| MetaNone
| MetaFrp (frp : number)
| MetaFire (brightness frp : number)
| MetaGlad (raw : GladAlert).

Record ForestAlert := {
  a_id : AlertId;
  a_timestamp : Timestamp;
  a_location : Location;
  a_type : AlertType;
  a_severity : Severity;
  a_confidence : number;
  a_description : Description;
  a_coordinates : number * number;
  a_metadata : Metadata
}.

Record ForestRegion := {
  r_id : string;
  r_name : string;
  r_lat : Q;
  r_lng : Q;
  r_healthScore : Q;
  r_deforestationRate : Q;
  r_biodiversityIndex : Q;
  r_alertLevel : Severity;
  r_lastUpdate : Timestamp;
  r_area : Q;
  r_forestCover : Q;
  r_fireRisk : Q;
  r_temperature : Q;
  r_precipitation : Q
}.

Record BiodiversityData := {
  s_id : option string;
  s_name : string;
  s_scientificName : option string;
  s_status : ConservationStatus;
  s_population : Z;
  s_trend : Q;
  s_habitat : string;
  s_lastSeen : Timestamp;
  s_confidence : Q;
  s_threatLevel : Z;
  s_conservationStatus : string
}.

Record WeatherData := {
  w_temperature : number;
  w_humidity : number;
  w_precipitation : number;
  w_windSpeed : number;
  w_pressure : number;
  w_cloudCover : number;
  w_uvIndex : number;
  w_fireWeatherIndex : number;
  w_location : option Location;
  w_country : string;
  w_description : option string
}.

Record SatelliteData := {
  sat_timestamp : Timestamp;
  sat_coordinates : number * number;
  sat_coverage : Q;
  sat_cloudCover : Q;
  sat_resolution : Z;
  sat_layer : string
}.

(** Upstream payloads. *)
Record OpenWeatherJson := {
  ow_temp : number;
  ow_humidity : number;
  ow_pressure : number;
  ow_rain_1h : option number;
  ow_snow_1h : option number;
  ow_wind_speed : number;
  ow_clouds_all : number;
  ow_name : string;
  ow_country : string;
  ow_description : option string
}.

Record GbifResult := {
  gb_key : option string;
  gb_scientificName : option string;
  gb_vernacularName : option string;
  gb_canonicalName : option string;
  gb_threatStatus : option string;
  gb_habitat : option string
}.

(** Outcome of one [fetch]: a network failure, or a status and a body. *)
Inductive FetchResult (A : Type) :=
| NetFail (msg : string)
| Http (status : Z) (body : A).
Arguments NetFail {A} msg.
Arguments Http {A} status body.

Definition http_ok (status : Z) : bool := (200 <=? status) && (status <=? 299).

(** The upstream calls a handler can issue, as logged. *)
Inductive UpstreamCall :=
| CallFirms (apiKey dataset region days date : string)
| CallGfw (region startStr endStr : string) (limit : int)
| CallOpenWeather (lat lng apiKey : string)
| CallGbif (q : string).

(** Everything a run reads from outside the program. A body of [None]
    stands for a body that cannot be read as the expected JSON. *)
Record World := {
  now : Z;                          (* [Date.now()] *)
  isoDate : Z -> string;
  parseDate : string -> option Z;
  random : nat -> Q;
  firms : string -> string -> string -> string -> string -> FetchResult string;
  gfw : string -> string -> string -> int ->
        FetchResult (option (option (list GladAlert)));
  openweather : string -> string -> string ->
                FetchResult (option OpenWeatherJson);
  gbif : string -> FetchResult (option (list GbifResult))
}.

(* ================================================================== *)
(** ** Effects: state, exceptions, divergence *)
(* ================================================================== *)

(** An [async] function body is run to completion over a state [S]; it
    returns, throws (the message of the error is kept), or does not
    terminate within its fuel. *)
Inductive outcome (A : Type) :=
| Ret (a : A)
| Throw (msg : string)
| Diverge.
Arguments Ret {A} a.
Arguments Throw {A} msg.
Arguments Diverge {A}.

Definition SE (S A : Type) : Type := S -> outcome A * S.

#[global] Instance SE_ret {S} : MRet (SE S) := fun A a st => (Ret a, st).
#[global] Instance SE_bind {S} : MBind (SE S) := fun A B f m st =>
  match m st with
  | (Ret a, st') => f a st'
  | (Throw e, st') => (Throw e, st')
  | (Diverge, st') => (Diverge, st')
  end.

Definition throw {S A} (msg : string) : SE S A := fun st => (Throw msg, st).
Definition diverge {S A} : SE S A := fun st => (Diverge, st).

(** [try { body } catch (e) { handler(e) }] *)
Definition try_catch {S A} (body : SE S A) (handler : string -> SE S A)
  : SE S A :=
  fun st =>
    match body st with
    | (Throw e, st') => handler e st'
    | r => r
    end.

(* ================================================================== *)
(** ** The worker ([cloudflare/worker.ts]) *)
(* ================================================================== *)

Module Worker.

Record Env := {
  NASA_FIRMS_API_KEY : option string;
  OPENWEATHER_API_KEY : option string
}.

Record URL := {
  pathname : string;
  searchParams : list (string * string)
}.

Record Request := {
  method : string;
  url : URL;
  authorization : option string
}.

(** [url.searchParams.get(name)]: the first value of that name, or null. *)
Fixpoint searchParams_get (ps : list (string * string)) (name : string)
  : option string :=
  match ps with
  | [] => None
  | (k, v) :: r => if String.eqb k name then Some v else searchParams_get r name
  end.

Definition get (u : URL) (name : string) : option string :=
  searchParams_get (searchParams u) name.

(** [url.searchParams.get('no_mock') === '1'] *)
Definition no_mock (u : URL) : bool :=
  match get u "no_mock" with
  | Some v => String.eqb v "1"
  | None => false
  end.

Inductive Data :=
| DAlerts (l : list ForestAlert)
| DWeather (w : WeatherData)
| DRegions (l : list ForestRegion)
| DSpecies (l : list BiodiversityData)
| DSatellite (s : SatelliteData)
| DProfile.

Record JsonBody := {
  success : bool;
  data : option Data;
  source : option string;
  error : option string
}.

Inductive Body :=
| BodyText (s : string)
| BodyHealth (timestamp : Z) (nasa_firms openweather : bool)
| BodyJson (j : JsonBody).

Record Response := {
  status : Z;
  body : Body
}.

(** [json(body, status = 200)] for the two shapes the handlers build. *)
Definition json_ok (d : Data) (src : string) (err : option string) : Response :=
  {| status := 200;
     body := BodyJson {| success := true; data := Some d; source := Some src;
                         error := err |} |}.

Definition json_error (msg : string) (st : Z) : Response :=
  {| status := st;
     body := BodyJson {| success := false; data := None; source := None;
                         error := Some msg |} |}.

(** *** State, exceptions and divergence *)

Record WState := {
  cache : gmap string Response;
  calls : list UpstreamCall;
  rand_next : nat
}.

Abbreviation M := (SE WState).

(** [await cache.match(key)] and [await cache.put(key, res.clone())] *)
Definition cache_match (key : string) : M (option Response) :=
  fun st => (Ret (cache st !! key), st).

Definition cache_put (key : string) (res : Response) : M unit :=
  fun st => (Ret tt, {| cache := <[key := res]> (cache st);
                        calls := calls st; rand_next := rand_next st |}).

(** [Math.random()] *)
Definition Math_random (w : World) : M Q :=
  fun st => (Ret (random w (rand_next st)),
             {| cache := cache st; calls := calls st;
                rand_next := S (rand_next st) |}).

(** [await fetch(...)]: logs the call; a network failure is an exception. *)
Definition do_fetch {A} (c : UpstreamCall) (r : FetchResult A) : M (Z * A) :=
  fun st =>
    let st' := {| cache := cache st; calls := (calls st ++ [c])%list;
                  rand_next := rand_next st |} in
    match r with
    | NetFail msg => (Throw msg, st')
    | Http s b => (Ret (s, b), st')
    end.

(** *** Helpers *)

Definition calculateFireWeatherIndex (temp humidity precipitation : number)
  : number :=
  let dryness := Math_max (of_Z 0) (sub (of_Z 100) humidity) in
  let heat := Math_max (of_Z 0) (sub temp (of_Z 20)) in
  let dryPeriod := Math_max (of_Z 0) (sub (of_Z 30) precipitation) in
  Math_min (of_Z 100) (div_const (add (add dryness heat) dryPeriod) 3).

Definition calculateFireSeverity (frp confidence : number) : Severity :=
  if gt frp (of_Z 50) && gt confidence (of_Z 80) then critical
  else if gt frp (of_Z 25) && gt confidence (of_Z 70) then high
  else if gt frp (of_Z 10) && gt confidence (of_Z 60) then medium
  else low.

Definition getDeforestationSeverity (alertCount : number) : Severity :=
  if gt alertCount (of_Z 100) then critical
  else if gt alertCount (of_Z 50) then high
  else if gt alertCount (of_Z 10) then medium
  else low.

Definition getLocationName (lat lng : number) : Location :=
  if lt lat (of_Z (-3)) && gt lat (of_Z (-5)) && lt lng (of_Z (-60))
     && gt lng (of_Z (-65)) then LocName "Amazon Basin, Brazil"
  else if lt lat (of_Z 2) && gt lat (of_Z (-2)) && gt lng (of_Z 14)
          && lt lng (of_Z 17) then LocName "Congo Basin, DRC"
  else if gt lat (of_Z 60) && lt lng (of_Z (-150))
       then LocName "Boreal Forest, Canada"
  else if gt lat (of_Z 0) && lt lat (of_Z 5) && gt lng (of_Z 100)
          && lt lng (of_Z 110) then LocName "Southeast Asian Rainforest"
  else LocCoords lat lng.

(** *** Provider adapters: parsing *)

Definition newline : ascii := ascii_of_nat 10.

(** One pass of the loop body of [parseFireCsvData]. *)
Definition parseFireLine (w : World) (raw : string) : option ForestAlert :=
  let line := trim raw in
  if String.eqb line "" then None
  else
    let fields := split "," line in
    if (13 <=? length fields)%nat then
      let lat := parseFloat (nth 0 fields "") in
      let lng := parseFloat (nth 1 fields "") in
      let confidence := parseFloat (nth 8 fields "") in
      let frp := parseFloat (nth 11 fields "") in
      Some {| a_id := IdFire lat lng (now w);
              a_timestamp := TsAt (now w);
              a_location := getLocationName lat lng;
              a_type := fire;
              a_severity := calculateFireSeverity frp confidence;
              a_confidence := confidence;
              a_description := DescFire frp;
              a_coordinates := (lat, lng);
              a_metadata := MetaFrp frp |}
    else None.

(** [for (let i = 1; i < Math.min(lines.length, 51); i++)] *)
Definition parseFireCsvData (w : World) (csvData : string) : list ForestAlert :=
  omap (parseFireLine w) (take 50 (drop 1 (split newline csvData))).

(** [x || y] on possibly absent strings, keeping absence. *)
Definition or_opt_str (x y : option string) : option string :=
  if falsy_str x then y else x.

Definition or_opt_num (x y : option number) : option number :=
  match x with
  | Some n => if truthy n then x else y
  | None => y
  end.

(** [alert.lat || (Math.random() * k - c)]: the random draw happens only when
    the left operand is falsy. *)
Definition or_random (w : World) (x : option number) (k c : Q) : M number :=
  match or_opt_num x None with
  | Some n => mret n
  | None => r ← Math_random w; mret (Num (r * k - c))
  end.

Definition parseGladAlert (w : World) (index : nat) (alert : GladAlert)
  : M ForestAlert :=
  lat ← or_random w (g_lat alert) 10 5;
  lng ← or_random w (g_lng alert) 20 10;
  mret {| a_id := IdDeforest index (now w);
          a_timestamp :=
            (if falsy_str (g_date alert) then TsAt (now w)
             else TsRaw (or_str (g_date alert) ""));
          a_location :=
            LocName (or_str (g_iso alert) (or_str (g_admin alert) "Forest Region"));
          a_type := deforestation;
          a_severity :=
            getDeforestationSeverity
              (or_num (g_alerts alert) (or_num (g_area alert) (of_Z 1)));
          a_confidence := or_num (g_confidence alert) (of_Z 85);
          a_description :=
            DescDeforest (or_opt_num (g_alerts alert) (or_opt_num (g_area alert) None));
          a_coordinates := (lat, lng);
          a_metadata := MetaGlad alert |}.

Fixpoint parseGladItems (w : World) (index : nat) (items : list GladAlert)
  : M (list ForestAlert) :=
  match items with
  | [] => mret []
  | alert :: rest =>
      a ← parseGladAlert w index alert;
      l ← parseGladItems w (S index) rest;
      mret (a :: l)
  end.

(** [data?.data && Array.isArray(data.data)]: [None] when that test fails. *)
Definition parseGladAlertsData (w : World) (data : option (list GladAlert))
  : M (list ForestAlert) :=
  match data with
  | Some items => parseGladItems w 0 (take 25 items)
  | None => mret []
  end.

Definition parseOpenWeatherData (d : OpenWeatherJson) : WeatherData :=
  {| w_temperature := ow_temp d;
     w_humidity := ow_humidity d;
     w_precipitation := or_num (ow_rain_1h d) (or_num (ow_snow_1h d) (of_Z 0));
     w_windSpeed := ow_wind_speed d;
     w_pressure := ow_pressure d;
     w_cloudCover := ow_clouds_all d;
     w_uvIndex := of_Z 0;
     w_fireWeatherIndex :=
       calculateFireWeatherIndex (ow_temp d) (ow_humidity d)
         (or_num (ow_rain_1h d) (of_Z 0));
     w_location := Some (LocName (ow_name d));
     w_country := ow_country d;
     w_description := ow_description d |}.

Definition determineConservationStatus (g : GbifResult) : ConservationStatus :=
  let status := toLowerCase (or_str (gb_threatStatus g) "") in
  if includes status "critically endangered" then critically_endangered
  else if includes status "endangered" || includes status "vulnerable"
       then declining
  else if includes status "recovering" || includes status "improving"
       then recovering
  else stable.

(** Truncation of a time value toward zero, as [new Date(t)] does. *)
Definition Qtrunc (q : Q) : Z :=
  if Qle_bool 0 q then Qfloor q else Qceiling q.

Definition day_ms : Z := 24 * 60 * 60 * 1000.

Definition parseGBIFSpeciesData (w : World) (g : GbifResult)
  : M BiodiversityData :=
  r1 ← Math_random w;
  r2 ← Math_random w;
  r3 ← Math_random w;
  r4 ← Math_random w;
  r5 ← Math_random w;
  mret {| s_id :=
            (if falsy_str (gb_key g)
             then (fun s => string_of_list_ascii
                              (replace_first " " "_"
                                 (list_ascii_of_string (toLowerCase s))))
                    <$> gb_scientificName g
             else gb_key g);
          s_name :=
            or_str (gb_vernacularName g)
                   (or_str (gb_canonicalName g) "Unknown Species");
          s_scientificName := or_opt_str (gb_scientificName g) (gb_canonicalName g);
          s_status := determineConservationStatus g;
          s_population := Qfloor (r1 * 100000) + 1000;
          s_trend := (r2 - 0.5) * 6;
          s_habitat := or_str (gb_habitat g) "Forest";
          s_lastSeen :=
            TsAt (Qtrunc (inject_Z (now w) - r3 * inject_Z (30 * day_ms)));
          s_confidence := 85 + r4 * 10;
          s_threatLevel := Qfloor (r5 * 100);
          s_conservationStatus := or_str (gb_threatStatus g) "Data Deficient" |}.

(** *** Mock generators *)

Definition generateMockFireAlerts (w : World) : list ForestAlert :=
  [ {| a_id := IdText "fire_server_1";
       a_timestamp := TsAt (now w);
       a_location := LocName "Amazon Basin, Brazil";
       a_type := fire; a_severity := high; a_confidence := of_Z 85;
       a_description := DescText "Fire detected with 25.3 MW radiative power";
       a_coordinates := (Num (-3.2), Num (-61.8));
       a_metadata := MetaFire (Num 320.5) (Num 25.3) |};
    {| a_id := IdText "fire_server_2";
       a_timestamp := TsAt (now w - 3600000);
       a_location := LocName "Southeast Asia";
       a_type := fire; a_severity := critical; a_confidence := of_Z 92;
       a_description :=
         DescText "High-intensity fire detected with 47.8 MW radiative power";
       a_coordinates := (Num 1.5, Num 104.2);
       a_metadata := MetaFire (Num 340.2) (Num 47.8) |} ].

Definition generateMockDeforestationAlerts (w : World) : list ForestAlert :=
  [ {| a_id := IdText "deforest_server_1";
       a_timestamp := TsAt (now w - 7200000);
       a_location := LocName "Congo Basin, DRC";
       a_type := deforestation; a_severity := high; a_confidence := of_Z 78;
       a_description := DescText "Deforestation alert detected by GLAD system";
       a_coordinates := (Num (-0.3), Num 15.9);
       a_metadata := MetaNone |};
    {| a_id := IdText "deforest_server_2";
       a_timestamp := TsAt (now w - 10800000);
       a_location := LocName "Brazilian Amazon";
       a_type := deforestation; a_severity := critical; a_confidence := of_Z 89;
       a_description :=
         DescText "Large-scale clearing detected via satellite imagery";
       a_coordinates := (Num (-4.1), Num (-63.2));
       a_metadata := MetaNone |} ].

Definition generateMockBiodiversityData (w : World) : list BiodiversityData :=
  [ {| s_id := Some "orangutan_server"; s_name := "Sumatran Orangutan";
       s_scientificName := Some "Pongo abelii";
       s_status := critically_endangered; s_population := 14000;
       s_trend := -2.3; s_habitat := "Tropical Rainforest";
       s_lastSeen := TsAt (now w - 5 * day_ms);
       s_confidence := 92; s_threatLevel := 85;
       s_conservationStatus := "Critically Endangered" |};
    {| s_id := Some "jaguar_server"; s_name := "Jaguar";
       s_scientificName := Some "Panthera onca";
       s_status := declining; s_population := 64000;
       s_trend := -1.8; s_habitat := "Amazon Rainforest";
       s_lastSeen := TsAt (now w - 2 * day_ms);
       s_confidence := 88; s_threatLevel := 72;
       s_conservationStatus := "Near Threatened" |} ].

Definition generateEnhancedForestRegions (w : World) : list ForestRegion :=
  [ {| r_id := "amazon"; r_name := "Amazon Basin";
       r_lat := -3.4653; r_lng := -62.2159; r_healthScore := 75;
       r_deforestationRate := 2.3; r_biodiversityIndex := 94;
       r_alertLevel := high; r_lastUpdate := TsAt (now w);
       r_area := 6700000; r_forestCover := 83; r_fireRisk := 65;
       r_temperature := 26.5; r_precipitation := 2300 |};
    {| r_id := "congo"; r_name := "Congo Basin";
       r_lat := -0.228; r_lng := 15.8277; r_healthScore := 82;
       r_deforestationRate := 1.8; r_biodiversityIndex := 87;
       r_alertLevel := medium; r_lastUpdate := TsAt (now w);
       r_area := 3700000; r_forestCover := 89; r_fireRisk := 45;
       r_temperature := 25.2; r_precipitation := 1800 |} ].

Definition mockWeather (w : World) (lat lng : number) : M WeatherData :=
  r1 ← Math_random w;
  let temp := add (sub (of_Z 30) (mul_const (Math_abs lat) 0.6))
                  (Num ((r1 - 0.5) * 10)) in
  r2 ← Math_random w;
  let humidity := Num (60 + r2 * 30) in
  r3 ← Math_random w;
  let precipitation :=
    add (Math_max (of_Z 0) (sub (of_Z 20) (mul_const (Math_abs lat) 0.2)))
        (Num (r3 * 5)) in
  r4 ← Math_random w;
  r5 ← Math_random w;
  r6 ← Math_random w;
  mret {| w_temperature := temp;
          w_humidity := humidity;
          w_precipitation := precipitation;
          w_windSpeed := Num (5 + r4 * 15);
          w_pressure := Num (1013 + (r5 - 0.5) * 20);
          w_cloudCover := Num (r6 * 100);
          w_uvIndex :=
            Math_max (of_Z 0) (sub (of_Z 11) (div_const (Math_abs lat) 10));
          w_fireWeatherIndex :=
            calculateFireWeatherIndex temp humidity precipitation;
          w_location := Some (getLocationName lat lng);
          w_country := "Unknown";
          w_description := Some "Clear sky" |}.

(** *** Handlers *)

Definition FIRMS_PLACEHOLDER : string := "YOUR_NASA_FIRMS_API_KEY_HERE".
Definition OPENWEATHER_PLACEHOLDER : string := "YOUR_OPENWEATHER_API_KEY_HERE".

(** Message of the exception raised when a body is not the expected JSON. *)
Definition JSON_ERROR : string := "Unexpected token in JSON".

Definition handleHealth (w : World) (env : Env) : M Response :=
  mret {| status := 200;
          body := BodyHealth (now w)
            (negb (falsy_str (NASA_FIRMS_API_KEY env)) &&
             negb (String.eqb (or_str (NASA_FIRMS_API_KEY env) "") FIRMS_PLACEHOLDER))
            (negb (falsy_str (OPENWEATHER_API_KEY env)) &&
             negb (String.eqb (or_str (OPENWEATHER_API_KEY env) "")
                     OPENWEATHER_PLACEHOLDER)) |}.

(** The [for (const dataset of datasets)] loop of [handleFireAlerts], ending
    in [throw lastError || new Error(...)]. *)
Fixpoint tryDatasets (w : World) (apiKey region days dateToUse cacheKey : string)
    (datasets : list string) (lastError : option string) : M Response :=
  match datasets with
  | [] =>
      throw (match lastError with
             | Some e => e
             | None => "NASA FIRMS datasets unavailable"
             end)
  | dataset :: rest =>
      try_catch
        ('(st, csv) ← do_fetch (CallFirms apiKey dataset region days dateToUse)
                         (firms w apiKey dataset region days dateToUse);
         if negb (http_ok st)
         then throw ("NASA FIRMS API error: " +:+ pretty st)
         else
           let data := parseFireCsvData w csv in
           let res := json_ok (DAlerts data)
                        ("nasa-firms:" +:+ toLowerCase dataset) None in
           _ ← cache_put cacheKey res;
           mret res)
        (fun err => tryDatasets w apiKey region days dateToUse cacheKey rest
                      (Some err))
  end.

Definition handleFireAlerts (w : World) (u : URL) (env : Env) : M Response :=
  let region := or_str (get u "region") (or_str (get u "area") "world") in
  let days := or_str (get u "days") "1" in
  let forcedDataset := toUpperCase (or_str (get u "dataset") "") in
  let forcedDate := or_str (get u "date") "" in
  let cacheKey := "https://cache.fire-alerts/" +:+ region +:+ "/" +:+ days in
  cached ← cache_match cacheKey;
  match cached with
  | Some r => mret r
  | None =>
      let overrideKey := or_str (get u "key") (or_str (get u "mapKey") "") in
      let apiKey :=
        or_str (Some overrideKey)
               (or_str (NASA_FIRMS_API_KEY env) FIRMS_PLACEHOLDER) in
      try_catch
        (if String.eqb apiKey FIRMS_PLACEHOLDER then
           if no_mock u
           then mret (json_error "NASA FIRMS key not configured" 502)
           else
             let res := json_ok (DAlerts (generateMockFireAlerts w)) "mock" None in
             _ ← cache_put cacheKey res;
             mret res
         else
           let yesterday := isoDate w (now w - day_ms) in
           let datasets :=
             if String.eqb forcedDataset ""
             then ["MODIS_NRT"; "VIIRS_SNPP_NRT"; "VIIRS_NOAA20_NRT"]
             else [forcedDataset] in
           let dateToUse := or_str (Some forcedDate) yesterday in
           tryDatasets w apiKey region days dateToUse cacheKey datasets None)
        (fun e =>
           if no_mock u
           then mret (json_error (or_str (Some e) "Fire alerts failed") 502)
           else mret (json_ok (DAlerts (generateMockFireAlerts w))
                        "mock-fallback" (Some e)))
  end.

(** A time value a [Date] can hold; [toISOString] throws otherwise. *)
Definition valid_time (t : Z) : bool := Z.abs t <=? 8640000000000000.

Definition handleDeforestationAlerts (w : World) (u : URL) : M Response :=
  let region := or_str (get u "region") "BRA" in
  let days := parseInt (or_str (get u "days") "90") in
  let limit := parseInt (or_str (get u "limit") "50") in
  let start := (fun d => now w - Z.max 1 d * day_ms) <$> days in
  match start with
  | None => throw "Invalid time value"
  | Some start_ms =>
      if negb (valid_time start_ms) then throw "Invalid time value"
      else
        let endStr := isoDate w (now w) in
        let startStr := isoDate w start_ms in
        let cacheKey :=
          "https://cache.deforestation-alerts/" +:+ region +:+ "/"
            +:+ int_to_string days +:+ "/" +:+ endStr +:+ "/"
            +:+ int_to_string limit in
        cached ← cache_match cacheKey;
        match cached with
        | Some r => mret r
        | None =>
            try_catch
              ('(st, j) ← do_fetch (CallGfw region startStr endStr limit)
                             (gfw w region startStr endStr limit);
               if negb (http_ok st)
               then throw ("GFW API error: " +:+ pretty st)
               else
                 match j with
                 | None => throw JSON_ERROR
                 | Some jsonData =>
                     data ← parseGladAlertsData w jsonData;
                     let res := json_ok (DAlerts data) "global-forest-watch" None in
                     _ ← cache_put cacheKey res;
                     mret res
                 end)
              (fun e =>
                 if no_mock u
                 then mret (json_error
                              (or_str (Some e) "Deforestation alerts failed") 502)
                 else
                   let res := json_ok (DAlerts (generateMockDeforestationAlerts w))
                                "mock-fallback" (Some e) in
                   _ ← cache_put cacheKey res;
                   mret res)
        end
  end.

Definition handleWeather (w : World) (u : URL) (env : Env) : M Response :=
  let lat := get u "lat" in
  let lng := get u "lng" in
  if falsy_str lat || falsy_str lng
  then mret (json_error "Latitude and longitude required" 400)
  else
    let lat := or_str lat "" in
    let lng := or_str lng "" in
    let cacheKey := "https://cache.weather/" +:+ lat +:+ "/" +:+ lng in
    cached ← cache_match cacheKey;
    match cached with
    | Some r => mret r
    | None =>
        let apiKey := or_str (OPENWEATHER_API_KEY env) OPENWEATHER_PLACEHOLDER in
        try_catch
          (if String.eqb apiKey OPENWEATHER_PLACEHOLDER then
             if no_mock u
             then mret (json_error "OpenWeather key not configured" 502)
             else
               d ← mockWeather w (parseFloat lat) (parseFloat lng);
               let res := json_ok (DWeather d) "mock" None in
               _ ← cache_put cacheKey res;
               mret res
           else
             '(st, j) ← do_fetch (CallOpenWeather lat lng apiKey)
                           (openweather w lat lng apiKey);
             if negb (http_ok st)
             then throw ("OpenWeather API error: " +:+ pretty st)
             else
               match j with
               | None => throw JSON_ERROR
               | Some d =>
                   let res := json_ok (DWeather (parseOpenWeatherData d))
                                "openweather" None in
                   _ ← cache_put cacheKey res;
                   mret res
               end)
          (fun e =>
             if no_mock u
             then mret (json_error (or_str (Some e) "Weather failed") 502)
             else
               d ← mockWeather w (parseFloat lat) (parseFloat lng);
               mret (json_ok (DWeather d) "mock-fallback" (Some e)))
    end.

Definition handleForestRegions (w : World) : M Response :=
  let cacheKey := "https://cache.forest-regions" in
  cached ← cache_match cacheKey;
  match cached with
  | Some r => mret r
  | None =>
      let data := generateEnhancedForestRegions w in
      let res := json_ok (DRegions data) "server-generated" None in
      _ ← cache_put cacheKey res;
      mret res
  end.

Definition speciesQueries : list string :=
  ["Pongo abelii"; "Panthera onca"; "Gorilla beringei"; "Harpia harpyja";
   "Ara macao"].

(** The [for (const q of speciesQueries)] loop: one search per name, every
    failure ignored. *)
Fixpoint collectSpecies (w : World) (qs : list string)
    (results : list BiodiversityData) : M (list BiodiversityData) :=
  match qs with
  | [] => mret results
  | q :: rest =>
      results' ←
        try_catch
          ('(st, j) ← do_fetch (CallGbif q) (gbif w q);
           if http_ok st then
             match j with
             | None => throw JSON_ERROR
             | Some [] => mret results
             | Some (g :: _) =>
                 s ← parseGBIFSpeciesData w g;
                 mret (results ++ [s])%list
             end
           else mret results)
          (fun _ => mret results);
      collectSpecies w rest results'
  end.

(** The backfill loop
    [while (results.length < Math.min(limit, speciesQueries.length))]:
    [None] when the fuel runs out before the loop exits. *)
Fixpoint backfill (fuel : nat) (w : World) (noMock : bool) (limit : int)
    (results : list BiodiversityData) : option (list BiodiversityData) :=
  match fuel with
  | O => None
  | S fuel' =>
      if length_lt (length results)
                   (int_min limit (Z.of_nat (length speciesQueries)))
      then
        if noMock then Some results
        else
          let n := Z.of_nat (length results) in
          backfill fuel' w noMock limit
            (results ++ slice (generateMockBiodiversityData w)
                              (Some n) (Some (n + 1)))%list
      else Some results
  end.

Definition handleBiodiversity (fuel : nat) (w : World) (u : URL) : M Response :=
  let region := or_str (get u "region") "global" in
  let limit := parseInt (or_str (get u "limit") "20") in
  let cacheKey :=
    "https://cache.biodiversity/" +:+ region +:+ "/" +:+ int_to_string limit in
  cached ← cache_match cacheKey;
  match cached with
  | Some r => mret r
  | None =>
      live ← collectSpecies w speciesQueries [];
      match backfill fuel w (no_mock u) limit live with
      | None => diverge
      | Some results =>
          let res :=
            json_ok (DSpecies (slice results (Some 0) limit))
              (if (length speciesQueries <=? length results)%nat
               then "gbif-enhanced" else "mock") None in
          _ ← cache_put cacheKey res;
          mret res
      end
  end.

Definition handleSatelliteData (w : World) (u : URL) : M Response :=
  let lat := get u "lat" in
  let lng := get u "lng" in
  let layer := or_str (get u "layer") "MODIS_Terra_CorrectedReflectance_TrueColor" in
  if falsy_str lat || falsy_str lng
  then mret (json_error "Latitude and longitude required" 400)
  else
    r1 ← Math_random w;
    r2 ← Math_random w;
    let data :=
      {| sat_timestamp := TsAt (now w);
         sat_coordinates := (parseFloat (or_str lat ""), parseFloat (or_str lng ""));
         sat_coverage := 85 + r1 * 10;
         sat_cloudCover := r2 * 30;
         sat_resolution := if includes layer "MODIS" then 250 else 375;
         sat_layer := layer |} in
    mret (json_ok (DSatellite data) "nasa-gibs" None).

Definition handleUserProfile (request : Request) : M Response :=
  if falsy_str (authorization request)
  then mret (json_error "No authorization header" 401)
  else mret (json_ok DProfile "worker-profile" None).

(** [url.pathname.replace(...)], then the [/api] prefix is dropped. *)
Definition route_path (u : URL) : string :=
  let path := drop_trailing_slash (pathname u) in
  if startsWith path "/api/" then str_slice_from 4 path
  else if String.eqb path "/api" then "/"
  else path.

(** The exported [fetch(request, env)]. Its [try] block holds no [await]:
    [return handleX(...)] hands the handler's promise back, so a rejection
    of a handler is the rejection of [fetch] and never reaches the [catch]
    (which answers 500 and can only be entered by [new URL(request.url)],
    taken here as already parsed). *)
Definition fetch (fuel : nat) (w : World) (request : Request) (env : Env)
  : M Response :=
  if String.eqb (method request) "OPTIONS"
  then mret {| status := 200; body := BodyText "ok" |}
  else
    let u := url request in
    let path := route_path u in
    if String.eqb path "/health" then handleHealth w env
    else if String.eqb path "/fire-alerts" then handleFireAlerts w u env
    else if String.eqb path "/deforestation-alerts"
         then handleDeforestationAlerts w u
    else if String.eqb path "/weather" then handleWeather w u env
    else if String.eqb path "/forest-regions" then handleForestRegions w
    else if String.eqb path "/biodiversity" then handleBiodiversity fuel w u
    else if String.eqb path "/satellite-data" then handleSatelliteData w u
    else if String.eqb path "/user-profile" then handleUserProfile request
    else mret (json_error "Endpoint not found" 404).

Definition empty_state : WState :=
  {| cache := ∅; calls := []; rand_next := 0 |}.

End Worker.

(* ================================================================== *)
(** ** Cache constants ([services/apiConfig.ts]) *)
(* ================================================================== *)

Module ApiConfig.

(** [CACHE_DURATIONS], in milliseconds. *)
Module CACHE_DURATIONS.
Definition SATELLITE_DATA : Z := 30 * 60 * 1000.
Definition FIRE_DATA : Z := 15 * 60 * 1000.
Definition FOREST_DATA : Z := 24 * 60 * 60 * 1000.
Definition SPECIES_DATA : Z := 24 * 60 * 60 * 1000.
End CACHE_DURATIONS.

End ApiConfig.

(* ================================================================== *)
(** ** The in-memory cache of the services *)
(* ================================================================== *)

(** Every service owns a [Map<string, { data, timestamp }>] and the same pair
    of accessors. The clock is an argument. *)
Module ServiceCache.

Record Entry (A : Type) := { data : A; timestamp : Z }.
Arguments data {A} e.
Arguments timestamp {A} e.

Section Accessors.
Context {A : Type}.

(** [getCachedData(key, duration)]: [null] is [None]. *)
Definition getCachedData (cache : gmap string (Entry A)) (date_now : Z)
    (key : string) (duration : Z) : option A :=
  match cache !! key with
  | Some cached =>
      if date_now - timestamp cached <? duration
      then Some (data cached)
      else None
  | None => None
  end.

(** [setCachedData(key, data, duration)]: [duration] is accepted and not
    used. *)
Definition setCachedData (cache : gmap string (Entry A)) (date_now : Z)
    (key : string) (d : A) (duration : Z) : gmap string (Entry A) :=
  <[key := {| data := d; timestamp := date_now |}]> cache.

(** [this.cache.clear()] *)
Definition clearCache (cache : gmap string (Entry A)) : gmap string (Entry A) :=
  ∅.
End Accessors.

(** The enhanced service gives both accessors a default duration. *)
Definition DEFAULT_DURATION : Z := ApiConfig.CACHE_DURATIONS.FOREST_DATA.

End ServiceCache.

(* ================================================================== *)
(** ** The browser-side services *)
(* ================================================================== *)

Module Services.

Import ServiceCache.
Import ApiConfig.

(** The three kinds of route of the specification. *)
Inductive Route := Direct | Proxy | Mock.

#[global] Instance Route_eq_dec : EqDecision Route.
Proof. solve_decision. Defined.

Inductive Endpoint :=
| EpHealth
| EpFireAlerts
| EpDeforestationAlerts
| EpForestRegions
| EpBiodiversity
| EpWeather.

Inductive MockGenerator :=
| EnhancedMockFireAlerts            (* this.getMockFireAlerts() *)
| EnhancedMockDeforestationAlerts   (* this.getMockDeforestationAlerts() *)
| EnhancedMockBiodiversityAlerts    (* this.getMockBiodiversityAlerts() *)
| ServerMockForestAlerts            (* serverSide getMockForestAlerts() *)
| ServerMockBiodiversityAlerts
| ServerMockDeforestationAlerts
| ServerMockForestRegions
| ServerMockBiodiversityData
| ServerMockWeatherData             (* serverSide generateMockWeatherData() *)
| MockDataServiceForestAlerts.      (* mockDataService.getForestAlerts() *)

(** What a run does to reach data, in program order. *)
Inductive Event :=
| EvFirms (dataset : string)                       (* fetch of NASA FIRMS *)
| EvGfw                                            (* fetch of GFW glad-alerts *)
| EvGfwLossGain                                    (* fetch of GFW umd-loss-gain *)
| EvWorker (ep : Endpoint) (query : list (string * string))
| EvMock (g : MockGenerator).

Definition route_of (e : Event) : Route :=
  match e with
  | EvFirms _ | EvGfw | EvGfwLossGain => Direct
  | EvWorker _ _ => Proxy
  | EvMock _ => Mock
  end.

(** The alert categories an event can supply. *)
Definition serves (e : Event) (c : AlertType) : bool :=
  match e, c with
  | EvFirms _, fire => true
  | (EvGfw | EvGfwLossGain), deforestation => true
  | EvWorker EpFireAlerts _, fire => true
  | EvWorker EpDeforestationAlerts _, deforestation => true
  | EvMock EnhancedMockFireAlerts, fire => true
  | EvMock (EnhancedMockDeforestationAlerts | ServerMockDeforestationAlerts),
    deforestation => true
  | EvMock (EnhancedMockBiodiversityAlerts | ServerMockBiodiversityAlerts),
    biodiversity => true
  | EvMock ServerMockForestAlerts, (fire | deforestation) => true
  | EvMock MockDataServiceForestAlerts, _ => true
  | _, _ => false
  end.

(** The chain of one category: the routes of the events that serve it. *)
Definition chain (c : AlertType) (t : list Event) : list Route :=
  route_of <$> filter (fun e => serves e c = true) t.

(** What the proxy client holds where the source says [T[]]: the [data]
    of an answer is stored and returned as it came, be it an array or a
    value that is no array, has no [length] and cannot be spread: an object
    ([{}], say), which is truthy, or a number or a boolean, which may be
    falsy. The elements of an array are those of the endpoint's schema;
    strings are left out. *)
Inductive Payload (A : Type) :=
| Arr (l : list A)
| NotArr (truthy : bool).
Arguments Arr {A} l.
Arguments NotArr {A} truthy.

Abbreviation Alerts := (Payload ForestAlert).

(** Truthiness of what a cache holds: arrays and objects are truthy,
    [undefined] is not. *)
Class Truthy (A : Type) := is_truthy : A -> bool.

#[global] Instance Payload_Truthy {A} : Truthy (Payload A) :=
  fun x => match x with Arr _ => true | NotArr t => t end.
#[global] Instance list_Truthy {A} : Truthy (list A) := fun _ => true.
#[global] Instance option_Truthy {A} : Truthy (option A) :=
  fun x => match x with Some _ => true | None => false end.

(** [if (cached) return cached]: what is served of the answer of
    [getCachedData]. *)
Definition if_cached {A} `{Truthy A} (cached : option A) : option A :=
  match cached with
  | Some x => if is_truthy x then Some x else None
  | None => None
  end.

(** [{ success, data, error, source }] as the proxy answers: an absent
    [success] reads as [false], [data] and [error] may be absent. *)
Record ServerApiResponse (A : Type) := {
  success : bool;
  data : option A;
  error : option string;
  source : option string
}.
Arguments success {A} _.
Arguments data {A} _.
Arguments error {A} _.
Arguments source {A} _.

(** The JSON value of an answer of the proxy: [null], or an object, read
    as a [ServerApiResponse]. A number, a string, a boolean or an array
    has none of the four fields and reads as the object without them. *)
Inductive ProxyJson (A : Type) :=
| JNull
| JObject (r : ServerApiResponse A).
Arguments JNull {A}.
Arguments JObject {A} r.

(** [apiConfigManager]: the stored keys and the no-mock flag. *)
Record Config := {
  nasa_firms : option string;
  noMock : bool
}.

Definition hasApiKey (k : option string) : bool := negb (falsy_str k).
Definition isNoMockEnabled (c : Config) : bool := noMock c.

(** What a run of the services reads from outside. *)
Record Client := {
  world : World;
  config : Config;
  isBrowser : bool;                   (* typeof window !== 'undefined' *)
  health_ok : bool;                   (* the health check answers in time *)
  worker : Endpoint -> list (string * string) ->
           FetchResult (option (ProxyJson Alerts));
  worker_regions : list (string * string) ->
                   FetchResult (option (ProxyJson (Payload ForestRegion)));
  worker_species : list (string * string) ->
                   FetchResult (option (ProxyJson (Payload BiodiversityData)));
  worker_weather : list (string * string) ->
                   FetchResult (option (ProxyJson WeatherData));
  gfw_direct : FetchResult (option (option (list GladAlert)));
  gfw_lossgain : FetchResult (option (option (list (string * number))));
  toString : number -> string;        (* [`${x}`] *)
  toFixed2 : number -> string         (* [x.toFixed(2)] *)
}.

(** The [Map] of the proxy client is kept as one map for each type of
    entry: the keys of alert lists ([forest_alerts_server],
    [deforestation_server_...]), of regions ([forest_regions_server]), of
    species ([biodiversity_server]) and of weather ([weather_server_...])
    differ, and each kind is written by its own reader. *)
Record CState := {
  enhanced_cache : gmap string (Entry (list ForestAlert));
  server_cache : gmap string (Entry Alerts);
  regions_cache : gmap string (Entry (Payload ForestRegion));
  species_cache : gmap string (Entry (Payload BiodiversityData));
  weather_cache : gmap string (Entry (option WeatherData));
  trace : list Event;
  rand_next : nat
}.

Abbreviation C := (SE CState).

Definition log (e : Event) : C unit :=
  fun st => (Ret tt, {| enhanced_cache := enhanced_cache st;
                        server_cache := server_cache st;
                        regions_cache := regions_cache st;
                        species_cache := species_cache st;
                        weather_cache := weather_cache st;
                        trace := (trace st ++ [e])%list;
                        rand_next := rand_next st |}).

Definition Math_random (c : Client) : C Q :=
  fun st => (Ret (random (world c) (rand_next st)),
             {| enhanced_cache := enhanced_cache st;
                server_cache := server_cache st;
                regions_cache := regions_cache st;
                species_cache := species_cache st;
                weather_cache := weather_cache st;
                trace := trace st;
                rand_next := S (rand_next st) |}).

(** The entries of one type in the cache of the proxy client, and their
    replacement. *)
Record Family (A : Type) := {
  entries : CState -> gmap string (Entry A);
  with_entries : gmap string (Entry A) -> CState -> CState
}.
Arguments entries {A} _ _.
Arguments with_entries {A} _ _ _.

Definition alert_entries : Family Alerts :=
  {| entries := server_cache;
     with_entries := fun m st =>
       {| enhanced_cache := enhanced_cache st;
          server_cache := m;
          regions_cache := regions_cache st;
          species_cache := species_cache st;
          weather_cache := weather_cache st;
          trace := trace st;
          rand_next := rand_next st |} |}.

Definition region_entries : Family (Payload ForestRegion) :=
  {| entries := regions_cache;
     with_entries := fun m st =>
       {| enhanced_cache := enhanced_cache st;
          server_cache := server_cache st;
          regions_cache := m;
          species_cache := species_cache st;
          weather_cache := weather_cache st;
          trace := trace st;
          rand_next := rand_next st |} |}.

Definition species_entries : Family (Payload BiodiversityData) :=
  {| entries := species_cache;
     with_entries := fun m st =>
       {| enhanced_cache := enhanced_cache st;
          server_cache := server_cache st;
          regions_cache := regions_cache st;
          species_cache := m;
          weather_cache := weather_cache st;
          trace := trace st;
          rand_next := rand_next st |} |}.


(** [await fetch(...)], the event logged first. *)
Definition do_fetch {A} (e : Event) (r : FetchResult A) : C (Z * A) :=
  _ ← log e;
  match r with
  | NetFail msg => throw msg
  | Http s b => mret (s, b)
  end.

(** [await r.json()] *)
Definition json {A} (b : option A) : C A :=
  match b with
  | Some x => mret x
  | None => throw Worker.JSON_ERROR
  end.

(** The outcome of a promise under [Promise.allSettled]. *)
Definition settle {A} (m : C A) : C (string + A) :=
  try_catch (x ← m; mret (inr x)) (fun e => mret (inl e)).

(** Call of a mock generator. *)
Definition mock {A} (g : MockGenerator) (l : A) : C A :=
  _ ← log (EvMock g); mret l.

(** The [TypeError] of a property read from [null], and that of a spread
    of a value that is not iterable; the texts are the engine's. *)
Definition null_read (property : string) : string :=
  "Cannot read properties of null (reading '" +:+ property +:+ "')".

Definition NOT_ITERABLE : string :=
  "Spread syntax requires ...iterable[Symbol.iterator] to be a function".

(** [alerts.push(...x)]: the elements of [x]. *)
Definition spread {A} (x : Payload A) : C (list A) :=
  match x with
  | Arr l => mret l
  | NotArr _ => throw NOT_ITERABLE
  end.

(** *** Sorting by timestamp, newest first *)

Definition getTime (w : World) (t : Timestamp) : option Z :=
  match t with
  | TsAt ms => Some ms
  | TsRaw s => parseDate w s
  end.

(** [new Date(b.timestamp).getTime() - new Date(a.timestamp).getTime() > 0];
    a [NaN] difference counts as equal. *)
Definition comes_after (w : World) (a b : ForestAlert) : bool :=
  match getTime w (a_timestamp a), getTime w (a_timestamp b) with
  | Some ta, Some tb => ta <? tb
  | _, _ => false
  end.

Fixpoint insert_sorted (w : World) (x : ForestAlert) (l : list ForestAlert)
  : list ForestAlert :=
  match l with
  | [] => [x]
  | y :: r => if comes_after w y x then x :: l else y :: insert_sorted w x r
  end.

(** [alerts.sort(...)]: a stable sort. *)
Definition sort_alerts (w : World) (l : list ForestAlert) : list ForestAlert :=
  fold_left (fun acc x => insert_sorted w x acc) l [].

Definition mk_alert (id : string) (ts : Z) (loc : string) (ty : AlertType)
    (sev : Severity) (conf : Z) (desc : string) (lat lng : Q) (meta : Metadata)
  : ForestAlert :=
  {| a_id := IdText id; a_timestamp := TsAt ts; a_location := LocName loc;
     a_type := ty; a_severity := sev; a_confidence := of_Z conf;
     a_description := DescText desc; a_coordinates := (Num lat, Num lng);
     a_metadata := meta |}.

Definition mk_region (id name : string) (lat lng healthScore deforestationRate
    biodiversityIndex : Q) (alertLevel : Severity) (lastUpdate : Z)
    (area forestCover fireRisk temperature precipitation : Q) : ForestRegion :=
  {| r_id := id; r_name := name; r_lat := lat; r_lng := lng;
     r_healthScore := healthScore; r_deforestationRate := deforestationRate;
     r_biodiversityIndex := biodiversityIndex; r_alertLevel := alertLevel;
     r_lastUpdate := TsAt lastUpdate; r_area := area;
     r_forestCover := forestCover; r_fireRisk := fireRisk;
     r_temperature := temperature; r_precipitation := precipitation |}.

Definition mk_species (id name scientificName : string)
    (status : ConservationStatus) (population : Z) (trend : Q)
    (habitat : string) (lastSeen : Z) (confidence : Q) (threatLevel : Z)
    (conservationStatus : string) : BiodiversityData :=
  {| s_id := Some id; s_name := name; s_scientificName := Some scientificName;
     s_status := status; s_population := population; s_trend := trend;
     s_habitat := habitat; s_lastSeen := TsAt lastSeen;
     s_confidence := confidence; s_threatLevel := threatLevel;
     s_conservationStatus := conservationStatus |}.

(** *** [mockDataService] *)

Module MockDataService.

Definition hour_ms : Z := 60 * 60 * 1000.

Definition getForestAlerts (w : World) : list ForestAlert :=
  [ mk_alert "fire_001" (now w - 2 * hour_ms) "Amazon Basin, Brazil" fire
      critical 94
      "Large active fire detected with high radiative power (47.8 MW)"
      (-3.2) (-61.8) (MetaFire (Num 348.2) (Num 47.8));
    mk_alert "deforest_001" (now w - 4 * hour_ms) "Congo Basin, DRC"
      deforestation high 87
      "Rapid forest loss detected in protected area (15.3 hectares)"
      (-0.5) 16.2 MetaNone;
    mk_alert "fire_002" (now w - 6 * hour_ms) "Southeast Asia, Indonesia" fire
      high 82 "Multiple fire hotspots in palm oil plantation area"
      1.5 104.2 MetaNone;
    mk_alert "biodiversity_001" (now w - 12 * hour_ms) "Boreal Forest, Canada"
      biodiversity medium 76 "Caribou migration pattern disruption detected"
      65.1 (-152.8) MetaNone;
    mk_alert "weather_001" (now w - 18 * hour_ms) "Amazon Basin, Peru" weather
      medium 91 "Extreme drought conditions increasing fire risk"
      (-4.1) (-73.2) MetaNone ].

Definition getForestRegions (w : World) : list ForestRegion :=
  [ mk_region "amazon" "Amazon Basin" (-3.4653) (-62.2159) 72 2.3 94 high
      (now w) 6700000 85 65 28.5 2300;
    mk_region "congo" "Congo Basin" (-0.228) 15.8277 81 1.2 87 medium
      (now w) 3700000 92 45 26.2 1800;
    mk_region "boreal" "Boreal Forest" 64.2008 (-153.4937) 89 0.3 76 low
      (now w) 17000000 94 35 13.2 400;
    mk_region "southeast_asia" "Southeast Asian Rainforest" 1.3521 103.8198
      65 3.1 91 critical (now w) 2500000 78 75 29.8 2500;
    mk_region "temperate_north_america" "North American Temperate Forest"
      45.0 (-85.0) 85 0.8 82 low (now w) 8500000 88 40 15.3 900;
    mk_region "tropical_africa" "Tropical African Forest" 5.0 20.0 76 1.8 89
      medium (now w) 4000000 80 55 27.8 1600 ].

Definition getBiodiversityData (w : World) : list BiodiversityData :=
  [ mk_species "sumatran_orangutan" "Sumatran Orangutan" "Pongo abelii"
      critically_endangered 14000 (-3.2) "Southeast Asian Rainforest"
      (now w - 2 * 24 * hour_ms) 94 85 "Critically Endangered";
    mk_species "jaguar" "Jaguar" "Panthera onca" declining 64000 (-1.8)
      "Amazon Rainforest" (now w - 5 * 24 * hour_ms) 87 70 "Near Threatened";
    mk_species "mountain_gorilla" "Mountain Gorilla" "Gorilla beringei"
      recovering 1000 2.1 "Congo Basin" (now w - 1 * 24 * hour_ms) 91 65
      "Critically Endangered";
    mk_species "harpy_eagle" "Harpy Eagle" "Harpia harpyja" stable 20000 0.3
      "Amazon Rainforest" (now w - 3 * 24 * hour_ms) 78 45 "Near Threatened";
    mk_species "forest_elephant" "African Forest Elephant"
      "Loxodonta cyclotis" critically_endangered 60000 (-4.1) "Congo Basin"
      (now w - 7 * 24 * hour_ms) 89 92 "Critically Endangered";
    mk_species "woodland_caribou" "Woodland Caribou"
      "Rangifer tarandus caribou" declining 2100000 (-2.5) "Boreal Forest"
      (now w - 4 * 24 * hour_ms) 85 60 "Vulnerable" ].

End MockDataService.

(** *** [forestDataService], the first of the browser services: its mock
    lists *)

Module ForestDataService.

Definition getMockForestRegions (w : World) : list ForestRegion :=
  [ mk_region "amazon" "Amazon Basin" (-3.4653) (-62.2159) 72 2.3 94 high
      (now w) 6700000 85 65 28.5 2300 ].

Definition getMockBiodiversityData (w : World) : list BiodiversityData :=
  [ mk_species "sumatran_orangutan" "Sumatran Orangutan" "Pongo abelii"
      critically_endangered 14000 (-3.2) "Southeast Asian Rainforest"
      (now w - 172800000) 94 85 "Critically Endangered" ].

Definition getMockDeforestationAlerts (w : World) : list ForestAlert :=
  [ mk_alert "deforest_1" (now w) "Amazon Basin, Brazil" deforestation
      critical 94 "Large-scale clearing detected in protected area"
      (-3.4653) (-62.2159) MetaNone ].

Definition getMockAlerts (w : World) : list ForestAlert :=
  [ mk_alert "alert_1" (now w) "Amazon Basin, Brazil" fire high 87
      "Fire detected with high radiative power" (-3.4653) (-62.2159)
      MetaNone ].

End ForestDataService.

(** *** [serverSideDataService] *)

Module ServerSide.

(** [getCachedData(key, duration)] and [setCachedData(key, data,
    duration)], on the entries of the type the caller reads. *)
Definition getCachedData {A} (f : Family A) (c : Client) (key : string)
    (duration : Z) : C (option A) :=
  fun st => (Ret (ServiceCache.getCachedData (entries f st)
                    (now (world c)) key duration), st).

Definition setCachedData {A} (f : Family A) (c : Client) (key : string)
    (d : A) (duration : Z) : C unit :=
  fun st => (Ret tt,
             with_entries f
               (ServiceCache.setCachedData (entries f st)
                  (now (world c)) key d duration) st).

Definition getMockForestRegions (w : World) : list ForestRegion :=
  [ mk_region "amazon" "Amazon Basin" (-3.4653) (-62.2159) 75.2 2.3 94.1 high
      (now w) 6700000 83.5 65.2 26.5 2300;
    mk_region "congo" "Congo Basin" (-0.228) 15.8277 82.1 1.8 87.3 medium
      (now w) 3700000 89.2 45.1 25.2 1800;
    mk_region "boreal" "Boreal Forest" 64.2008 (-153.4937) 88.5 0.8 76.4 low
      (now w) 17000000 94.1 35.8 2.1 450 ].

Definition getMockForestAlerts (w : World) : list ForestAlert :=
  [ mk_alert "fire_server_mock_1" (now w) "Amazon Basin, Brazil" fire high 85
      "Fire detected with 25.3 MW radiative power" (-3.2) (-61.8)
      (MetaFire (Num 320.5) (Num 25.3));
    mk_alert "deforest_server_mock_1" (now w - 7200000) "Congo Basin, DRC"
      deforestation high 78 "Deforestation alert detected by GLAD system"
      (-0.3) 15.9 MetaNone ].

Definition getMockBiodiversityAlerts (w : World) : list ForestAlert :=
  [ mk_alert "biodiversity_server_mock_1" (now w - 14400000)
      "Sumatran Forest, Indonesia" biodiversity high 85
      "Endangered species habitat disruption detected" 0.5 101.5 MetaNone ].

Definition getMockDeforestationAlerts (w : World) : list ForestAlert :=
  [ mk_alert "deforest_server_mock_1" (now w - 7200000) "Congo Basin, DRC"
      deforestation high 78 "Deforestation alert detected by GLAD system"
      (-0.3) 15.9 MetaNone;
    mk_alert "deforest_server_mock_2" (now w - 10800000) "Brazilian Amazon"
      deforestation critical 89
      "Large-scale clearing detected via satellite imagery"
      (-4.1) (-63.2) MetaNone ].

Definition getMockBiodiversityData (w : World) : list BiodiversityData :=
  [ mk_species "orangutan_server_mock" "Sumatran Orangutan" "Pongo abelii"
      critically_endangered 14000 (-2.3) "Tropical Rainforest"
      (now w - 5 * Worker.day_ms) 92 85 "Critically Endangered";
    mk_species "jaguar_server_mock" "Jaguar" "Panthera onca" declining 64000
      (-1.8) "Amazon Rainforest" (now w - 2 * Worker.day_ms) 88 72
      "Near Threatened" ].

Definition calculateFireWeatherIndex (temp humidity precipitation : number)
  : number :=
  let dryness := Math_max (of_Z 0) (sub (of_Z 100) humidity) in
  let heat := Math_max (of_Z 0) (sub temp (of_Z 20)) in
  let dryPeriod := Math_max (of_Z 0) (sub (of_Z 30) precipitation) in
  Math_min (of_Z 100) (div_const (add (add dryness heat) dryPeriod) 3).

Definition getLocationName (lat lng : number) : Location :=
  if lt lat (of_Z (-3)) && gt lat (of_Z (-5)) && lt lng (of_Z (-60))
     && gt lng (of_Z (-65)) then LocName "Amazon Basin, Brazil"
  else if lt lat (of_Z 2) && gt lat (of_Z (-2)) && gt lng (of_Z 14)
          && lt lng (of_Z 17) then LocName "Congo Basin, DRC"
  else if gt lat (of_Z 60) && lt lng (of_Z (-150))
       then LocName "Boreal Forest, Canada"
  else if gt lat (of_Z 0) && lt lat (of_Z 5) && gt lng (of_Z 100)
          && lt lng (of_Z 110) then LocName "Southeast Asian Rainforest"
  else LocCoords lat lng.

Definition getRegionalTemperature (c : Client) (lat lng : number) : C number :=
  let baseTemp := sub (of_Z 30) (mul_const (Math_abs lat) 0.6) in
  r ← Math_random c;
  mret (add baseTemp (Num ((r - 0.5) * 10))).

Definition getRegionalPrecipitation (c : Client) (lat lng : number)
  : C number :=
  if lt (Math_abs lat) (of_Z 10) then
    r ← Math_random c; mret (Num (2000 + r * 1000))
  else if lt (Math_abs lat) (of_Z 30) then
    r ← Math_random c; mret (Num (1000 + r * 500))
  else
    r ← Math_random c; mret (Num (500 + r * 300)).

Definition generateMockWeatherData (c : Client) (lat lng : number)
  : C WeatherData :=
  temp ← getRegionalTemperature c lat lng;
  r2 ← Math_random c;
  let humidity := Num (60 + r2 * 30) in
  precipitation ← getRegionalPrecipitation c lat lng;
  r4 ← Math_random c;
  r5 ← Math_random c;
  r6 ← Math_random c;
  mret {| w_temperature := temp;
          w_humidity := humidity;
          w_precipitation := precipitation;
          w_windSpeed := Num (5 + r4 * 15);
          w_pressure := Num (1013 + (r5 - 0.5) * 20);
          w_cloudCover := Num (r6 * 100);
          w_uvIndex :=
            Math_max (of_Z 0) (sub (of_Z 11) (div_const (Math_abs lat) 10));
          w_fireWeatherIndex :=
            calculateFireWeatherIndex temp humidity precipitation;
          w_location := Some (getLocationName lat lng);
          w_country := "Unknown";
          w_description := Some "Clear sky" |}.

(** The query suffix [no_mock=1] added when the flag is set. *)
Definition with_no_mock (c : Client) (q : list (string * string))
  : list (string * string) :=
  if isNoMockEnabled (config c) then (q ++ [("no_mock", "1")])%list else q.

(** [fetch(`${baseUrl}/...`).then(r => r.json())] *)
Definition call_worker (c : Client) (ep : Endpoint) (q : list (string * string))
  : C (ProxyJson Alerts) :=
  '(_, b) ← do_fetch (EvWorker ep q) (worker c ep q);
  json b.

(** The health check as the enhanced service awaits it (raced against one
    second): [true] when the proxy answered. *)
Definition checkServerHealth (c : Client) : C bool :=
  _ ← log (EvWorker EpHealth []);
  mret (health_ok c).

(** One settled result of [Promise.allSettled] folded into [alerts]:
    [if (result.status === 'fulfilled' && !result.value.error)], then
    [if (response && response.success && response.data)
       alerts.push(...response.data)]. Reading [error] from [null] and
    spreading a truthy [data] that is not an array throw. *)
Definition add_settled (alerts : list ForestAlert)
    (r : string + ProxyJson Alerts) : C (list ForestAlert) :=
  match r with
  | inl _ => mret alerts
  | inr JNull => throw (null_read "error")
  | inr (JObject v) =>
      if falsy_str (error v) then
        if success v then
          match if_cached (data v) with
          | Some d => l ← spread d; mret (alerts ++ l)%list
          | None => mret alerts
          end
        else mret alerts
      else mret alerts
  end.

Definition getForestAlerts (c : Client) : C Alerts :=
  let cacheKey := "forest_alerts_server" in
  cached ← getCachedData alert_entries c cacheKey CACHE_DURATIONS.FIRE_DATA;
  match if_cached cached with
  | Some x => mret x
  | None =>
      try_catch
        (fireResult ←
           settle (call_worker c EpFireAlerts
                     (with_no_mock c [("region", "world"); ("days", "1")]));
         deforestationResult ←
           settle (call_worker c EpDeforestationAlerts
                     (with_no_mock c [("region", "BRA")]));
         alerts ← add_settled [] fireResult;
         alerts ← add_settled alerts deforestationResult;
         if (length alerts =? 0)%nat then
           if isNoMockEnabled (config c) then mret (Arr [])
           else
             l ← mock ServerMockForestAlerts (getMockForestAlerts (world c));
             mret (Arr l)
         else
           alerts' ←
             (if negb (isNoMockEnabled (config c)) then
                b ← mock ServerMockBiodiversityAlerts
                      (getMockBiodiversityAlerts (world c));
                mret (alerts ++ b)%list
              else mret alerts);
           let sortedAlerts := take 25 (sort_alerts (world c) alerts') in
           _ ← setCachedData alert_entries c cacheKey (Arr sortedAlerts)
                 CACHE_DURATIONS.FIRE_DATA;
           mret (Arr sortedAlerts))
        (fun err =>
           if isNoMockEnabled (config c) then throw err
           else
             l ← mock ServerMockForestAlerts (getMockForestAlerts (world c));
             mret (Arr l))
  end.

(** The data of an answer is read through [response.data.length] before it
    is cached: an absent [data] throws. *)
Definition data_length {A} (r : ServerApiResponse A) : C A :=
  match data r with
  | Some d => mret d
  | None => throw "Cannot read properties of undefined (reading 'length')"
  end.

Definition getDeforestationAlerts (c : Client) (region : string) (days limit : Z)
  : C Alerts :=
  let cacheKey :=
    "deforestation_server_" +:+ region +:+ "_" +:+ pretty days +:+ "_"
      +:+ pretty limit in
  cached ← getCachedData alert_entries c cacheKey CACHE_DURATIONS.FIRE_DATA;
  match if_cached cached with
  | Some x => mret x
  | None =>
      try_catch
        (response ←
           call_worker c EpDeforestationAlerts
             (with_no_mock c [("region", region); ("days", pretty days);
                              ("limit", pretty limit)]);
         match response with
         | JNull => throw (null_read "success")
         | JObject response =>
             if negb (success response)
             then throw (or_str (error response) "Server API error")
             else
               d ← data_length response;
               _ ← setCachedData alert_entries c cacheKey d
                     CACHE_DURATIONS.FIRE_DATA;
               mret d
         end)
        (fun err =>
           if isNoMockEnabled (config c) then throw err
           else
             l ← mock ServerMockDeforestationAlerts
                   (getMockDeforestationAlerts (world c));
             mret (Arr l))
  end.

(** [getForestRegions()]; the request is raced against ten seconds, a lost
    race being a request that failed with [Request timeout]. *)
Definition getForestRegions (c : Client) : C (Payload ForestRegion) :=
  let cacheKey := "forest_regions_server" in
  cached ← getCachedData region_entries c cacheKey CACHE_DURATIONS.FOREST_DATA;
  match if_cached cached with
  | Some x => mret x
  | None =>
      try_catch
        (response ←
           ('(_, b) ← do_fetch (EvWorker EpForestRegions (with_no_mock c []))
                        (worker_regions c (with_no_mock c []));
            json b);
         match response with
         | JNull => throw (null_read "success")
         | JObject response =>
             if negb (success response)
             then throw (or_str (error response) "Server API error")
             else
               d ← data_length response;
               _ ← setCachedData region_entries c cacheKey d
                     CACHE_DURATIONS.FOREST_DATA;
               mret d
         end)
        (fun err =>
           if isNoMockEnabled (config c) then throw err
           else
             l ← mock ServerMockForestRegions (getMockForestRegions (world c));
             mret (Arr l))
  end.

Definition getBiodiversityData (c : Client) : C (Payload BiodiversityData) :=
  let cacheKey := "biodiversity_server" in
  cached ←
    getCachedData species_entries c cacheKey CACHE_DURATIONS.SPECIES_DATA;
  match if_cached cached with
  | Some x => mret x
  | None =>
      let query := with_no_mock c [("region", "global"); ("limit", "20")] in
      try_catch
        (response ←
           ('(_, b) ← do_fetch (EvWorker EpBiodiversity query)
                        (worker_species c query);
            json b);
         match response with
         | JNull => throw (null_read "success")
         | JObject response =>
             if negb (success response)
             then throw (or_str (error response) "Server API error")
             else
               d ← data_length response;
               _ ← setCachedData species_entries c cacheKey d
                     CACHE_DURATIONS.SPECIES_DATA;
               mret d
         end)
        (fun err =>
           if isNoMockEnabled (config c) then throw err
           else
             l ← mock ServerMockBiodiversityData
                   (getMockBiodiversityData (world c));
             mret (Arr l))
  end.


End ServerSide.

(** *** [enhancedForestDataService] *)

Module Enhanced.

(** [getCachedData(key, duration = CACHE_DURATIONS.FOREST_DATA)] and
    [setCachedData(key, data, duration = CACHE_DURATIONS.FOREST_DATA)]; the
    service calls both without a duration, which is [DEFAULT_DURATION]. *)
Definition getCachedData (c : Client) (key : string) (duration : Z)
  : C (option (list ForestAlert)) :=
  fun st => (Ret (ServiceCache.getCachedData (enhanced_cache st)
                    (now (world c)) key duration), st).

Definition setCachedData (c : Client) (key : string) (d : list ForestAlert)
    (duration : Z) : C unit :=
  fun st => (Ret tt,
             {| enhanced_cache :=
                  ServiceCache.setCachedData (enhanced_cache st)
                    (now (world c)) key d duration;
                server_cache := server_cache st;
                regions_cache := regions_cache st;
                species_cache := species_cache st;
                weather_cache := weather_cache st;
                trace := trace st;
                rand_next := rand_next st |}).

(** The [WeatherData] of the browser services: eight numbers. *)
Record WeatherData := {
  temperature : number;
  humidity : number;
  precipitation : number;
  windSpeed : number;
  pressure : number;
  cloudCover : number;
  uvIndex : number;
  fireWeatherIndex : number
}.

Definition calculateFireWeatherIndex (temp humidity precipitation : number)
  : number :=
  let dryness := Math_max (of_Z 0) (sub (of_Z 100) humidity) in
  let heat := Math_max (of_Z 0) (sub temp (of_Z 20)) in
  let dryPeriod := Math_max (of_Z 0) (sub (of_Z 30) precipitation) in
  Math_min (of_Z 100) (div_const (add (add dryness heat) dryPeriod) 3).

Definition calculateFireSeverity (frp confidence : number) : Severity :=
  if gt frp (of_Z 50) && gt confidence (of_Z 80) then critical
  else if gt frp (of_Z 25) && gt confidence (of_Z 70) then high
  else if gt frp (of_Z 10) && gt confidence (of_Z 60) then medium
  else low.

Definition getDeforestationSeverity (alertCount : number) : Severity :=
  if gt alertCount (of_Z 100) then critical
  else if gt alertCount (of_Z 50) then high
  else if gt alertCount (of_Z 10) then medium
  else low.

Definition getLocationName (lat lng : number) : Location :=
  if lt lat (of_Z (-3)) && gt lat (of_Z (-5)) && lt lng (of_Z (-60))
     && gt lng (of_Z (-65)) then LocName "Amazon Basin, Brazil"
  else if lt lat (of_Z 2) && gt lat (of_Z (-2)) && gt lng (of_Z 14)
          && lt lng (of_Z 17) then LocName "Congo Basin, DRC"
  else if gt lat (of_Z 60) && lt lng (of_Z (-150))
       then LocName "Boreal Forest, Canada"
  else LocCoords lat lng.

Definition parseFireLine (w : World) (raw : string) : option ForestAlert :=
  let line := trim raw in
  if String.eqb line "" then None
  else
    let fields := split "," line in
    if (13 <=? length fields)%nat then
      let lat := parseFloat (nth 0 fields "") in
      let lng := parseFloat (nth 1 fields "") in
      let brightness := parseFloat (nth 2 fields "") in
      let confidence := parseFloat (nth 8 fields "") in
      let frp := parseFloat (nth 11 fields "") in
      Some {| a_id := IdFire lat lng (now w);
              a_timestamp := TsAt (now w);
              a_location := getLocationName lat lng;
              a_type := fire;
              a_severity := calculateFireSeverity frp confidence;
              a_confidence := confidence;
              a_description := DescFire frp;
              a_coordinates := (lat, lng);
              a_metadata := MetaFire brightness frp |}
    else None.

(** [for (let i = 1; i < Math.min(lines.length, 21); i++)] *)
Definition parseFireCsvData (w : World) (csvData : string) : list ForestAlert :=
  omap (parseFireLine w) (take 20 (drop 1 (split Worker.newline csvData))).

Definition or_random (c : Client) (x : option number) (k m : Q) : C number :=
  match Worker.or_opt_num x None with
  | Some n => mret n
  | None => r ← Math_random c; mret (Num (r * k - m))
  end.

Definition parseGladAlert (c : Client) (index : nat) (alert : GladAlert)
  : C ForestAlert :=
  let w := world c in
  lat ← or_random c (g_lat alert) 10 5;
  lng ← or_random c (g_lng alert) 20 10;
  mret {| a_id := IdDeforest index (now w);
          a_timestamp :=
            (if falsy_str (g_date alert) then TsAt (now w)
             else TsRaw (or_str (g_date alert) ""));
          a_location :=
            LocName (or_str (g_iso alert) (or_str (g_admin alert) "Forest Region"));
          a_type := deforestation;
          a_severity :=
            getDeforestationSeverity
              (or_num (g_alerts alert) (or_num (g_area alert) (of_Z 1)));
          a_confidence := or_num (g_confidence alert) (of_Z 85);
          a_description :=
            DescDeforest (Worker.or_opt_num (g_alerts alert)
                            (Worker.or_opt_num (g_area alert) None));
          a_coordinates := (lat, lng);
          a_metadata := MetaGlad alert |}.

Fixpoint parseGladItems (c : Client) (index : nat) (items : list GladAlert)
  : C (list ForestAlert) :=
  match items with
  | [] => mret []
  | alert :: rest =>
      a ← parseGladAlert c index alert;
      l ← parseGladItems c (S index) rest;
      mret (a :: l)
  end.

(** [data.data.slice(0, 10).forEach(...)] *)
Definition parseGladAlertsData (c : Client) (items : list GladAlert)
  : C (list ForestAlert) :=
  parseGladItems c 0 (take 10 items).

(** One entry of [Object.entries(lossData)] in [parseForestLossData]. *)
Definition parseForestLossEntry (c : Client) (index : nat)
    (entry : string * number) : C (list ForestAlert) :=
  let '(year, loss) := entry in
  let recent := match parseInt year with
                | Some y => 2020 <=? y
                | None => false
                end in
  if recent && gt loss (of_Z 0) then
    match parseDate (world c) (year +:+ "-06-01") with
    | None => throw "Invalid time value"
    | Some ms =>
        r1 ← Math_random c;
        r2 ← Math_random c;
        mret [ {| a_id := IdText ("forest_loss_" +:+ year +:+ "_"
                                  +:+ pretty (Z.of_nat index));
                  a_timestamp := TsAt ms;
                  a_location := LocName ("Forest Region (" +:+ year +:+ ")");
                  a_type := deforestation;
                  a_severity :=
                    (if gt loss (of_Z 1000) then critical
                     else if gt loss (of_Z 500) then high else medium);
                  a_confidence := of_Z 90;
                  a_description := DescDeforest (Some loss);
                  a_coordinates :=
                    (Num (-3 + (r1 - 0.5) * 2), Num (-60 + (r2 - 0.5) * 2));
                  a_metadata := MetaNone |} ]
    end
  else mret [].

Fixpoint parseForestLossEntries (c : Client) (index : nat)
    (entries : list (string * number)) : C (list ForestAlert) :=
  match entries with
  | [] => mret []
  | e :: rest =>
      a ← parseForestLossEntry c index e;
      l ← parseForestLossEntries c (S index) rest;
      mret (a ++ l)%list
  end.

(** [None] when neither [umd_tree_cover_loss] nor [data] is present. *)
Definition parseForestLossData (c : Client)
    (lossData : option (list (string * number))) : C (list ForestAlert) :=
  match lossData with
  | Some entries => parseForestLossEntries c 0 entries
  | None => mret []
  end.

Definition parseOpenWeatherData (d : OpenWeatherJson) : WeatherData :=
  {| temperature := ow_temp d;
     humidity := ow_humidity d;
     precipitation := or_num (ow_rain_1h d) (or_num (ow_snow_1h d) (of_Z 0));
     windSpeed := ow_wind_speed d;
     pressure := ow_pressure d;
     cloudCover := ow_clouds_all d;
     uvIndex := of_Z 0;
     fireWeatherIndex :=
       calculateFireWeatherIndex (ow_temp d) (ow_humidity d)
         (or_num (ow_rain_1h d) (of_Z 0)) |}.

Definition determineConservationStatus (g : GbifResult) : ConservationStatus :=
  let status := toLowerCase (or_str (gb_threatStatus g) "") in
  if includes status "critically endangered" then critically_endangered
  else if includes status "endangered" || includes status "vulnerable"
       then declining
  else if includes status "recovering" || includes status "improving"
       then recovering
  else stable.

Definition parseGBIFSpeciesData (c : Client) (g : GbifResult)
  : C BiodiversityData :=
  r1 ← Math_random c;
  r2 ← Math_random c;
  r3 ← Math_random c;
  r4 ← Math_random c;
  r5 ← Math_random c;
  mret {| s_id :=
            (if falsy_str (gb_key g)
             then (fun s => string_of_list_ascii
                              (replace_first " " "_"
                                 (list_ascii_of_string (toLowerCase s))))
                    <$> gb_scientificName g
             else gb_key g);
          s_name :=
            or_str (gb_vernacularName g)
                   (or_str (gb_canonicalName g) "Unknown Species");
          s_scientificName :=
            Worker.or_opt_str (gb_scientificName g) (gb_canonicalName g);
          s_status := determineConservationStatus g;
          s_population := Qfloor (r1 * 100000) + 1000;
          s_trend := (r2 - 0.5) * 6;
          s_habitat := or_str (gb_habitat g) "Forest";
          s_lastSeen :=
            TsAt (Worker.Qtrunc (inject_Z (now (world c))
                                 - r3 * inject_Z (30 * Worker.day_ms)));
          s_confidence := 85 + r4 * 10;
          s_threatLevel := Qfloor (r5 * 100);
          s_conservationStatus := or_str (gb_threatStatus g) "Data Deficient" |}.

Definition getRegionalTemperature (c : Client) (lat lng : number) : C number :=
  let baseTemp := sub (of_Z 30) (mul_const (Math_abs lat) 0.6) in
  r ← Math_random c;
  mret (add baseTemp (Num ((r - 0.5) * 10))).

Definition getRegionalPrecipitation (c : Client) (lat lng : number)
  : C number :=
  if lt (Math_abs lat) (of_Z 10) then
    r ← Math_random c; mret (Num (2000 + r * 1000))
  else if lt (Math_abs lat) (of_Z 30) then
    r ← Math_random c; mret (Num (1000 + r * 500))
  else
    r ← Math_random c; mret (Num (500 + r * 300)).

Definition generateMockWeatherData (c : Client) (lat lng : number)
  : C WeatherData :=
  temp ← getRegionalTemperature c lat lng;
  r2 ← Math_random c;
  let humidity' := Num (60 + r2 * 30) in
  precipitation' ← getRegionalPrecipitation c lat lng;
  r4 ← Math_random c;
  r5 ← Math_random c;
  r6 ← Math_random c;
  mret {| temperature := temp;
          humidity := humidity';
          precipitation := precipitation';
          windSpeed := Num (5 + r4 * 15);
          pressure := Num (1013 + (r5 - 0.5) * 20);
          cloudCover := Num (r6 * 100);
          uvIndex :=
            Math_max (of_Z 0) (sub (of_Z 11) (div_const (Math_abs lat) 10));
          fireWeatherIndex :=
            calculateFireWeatherIndex temp humidity' precipitation' |}.

Definition getMockFireAlerts (w : World) : list ForestAlert :=
  [ mk_alert "fire_mock_1" (now w) "Amazon Basin, Brazil" fire high 85
      "Fire detected with 25.3 MW radiative power" (-3.2) (-61.8)
      (MetaFire (Num 320.5) (Num 25.3));
    mk_alert "fire_mock_2" (now w - 3600000) "Southeast Asia" fire critical 92
      "High-intensity fire detected with 47.8 MW radiative power" 1.5 104.2
      (MetaFire (Num 340.2) (Num 47.8)) ].

Definition getMockDeforestationAlerts (w : World) : list ForestAlert :=
  [ mk_alert "deforest_mock_1" (now w - 7200000) "Congo Basin, DRC"
      deforestation high 78 "Deforestation alert detected by GLAD system"
      (-0.3) 15.9 MetaNone;
    mk_alert "deforest_mock_2" (now w - 10800000) "Brazilian Amazon"
      deforestation critical 89
      "Large-scale clearing detected via satellite imagery"
      (-4.1) (-63.2) MetaNone ].

Definition getMockBiodiversityAlerts (w : World) : list ForestAlert :=
  [ mk_alert "biodiversity_mock_1" (now w - 14400000)
      "Sumatran Forest, Indonesia" biodiversity high 85
      "Endangered species habitat disruption detected" 0.5 101.5 MetaNone;
    mk_alert "biodiversity_mock_2" (now w - 18000000)
      "Atlantic Forest, Brazil" biodiversity medium 72
      "Wildlife migration pattern changes observed" (-22.9) (-43.2) MetaNone ].

(** The dataset loop of [getLiveFireAlerts]: a failed status moves on, a
    network failure is thrown to the caller. *)
Fixpoint liveFireLoop (c : Client) (apiKey yesterday : string)
    (datasets : list string) : C (list ForestAlert) :=
  match datasets with
  | [] => throw "All FIRMS datasets returned no data"
  | dataset :: rest =>
      '(st, csvData) ←
        do_fetch (EvFirms dataset)
          (firms (world c) apiKey dataset "world" "1" yesterday);
      if negb (http_ok st) then liveFireLoop c apiKey yesterday rest
      else mret (parseFireCsvData (world c) csvData)
  end.

Definition getLiveFireAlerts (c : Client) : C (list ForestAlert) :=
  let apiKey := nasa_firms (config c) in
  if falsy_str apiKey || String.eqb (or_str apiKey "") Worker.FIRMS_PLACEHOLDER
  then throw "NASA FIRMS API key not configured"
  else
    let yesterday := isoDate (world c) (now (world c) - Worker.day_ms) in
    liveFireLoop c (or_str apiKey "") yesterday
      ["MODIS_NRT"; "VIIRS_SNPP_NRT"; "VIIRS_NOAA20_NRT"].

Definition getLiveDeforestationAlerts (c : Client) : C (list ForestAlert) :=
  if isBrowser c
  then throw "Global Forest Watch API requires server-side access (CORS limitation)"
  else
    '(st, j) ← do_fetch EvGfw (gfw_direct c);
    if negb (http_ok st) then
      if st =? 400 then
        '(st2, j2) ← do_fetch EvGfwLossGain (gfw_lossgain c);
        if http_ok st2 then
          altData ← json j2;
          parseForestLossData c altData
        else throw "Global Forest Watch API bad request - invalid parameters"
      else if st =? 404 then throw "Global Forest Watch API endpoint not found"
      else if st =? 403 then throw "Global Forest Watch API access forbidden"
      else throw ("Global Forest Watch API error: " +:+ pretty st)
    else
      d ← json j;
      match d with
      | None => mret []
      | Some items => parseGladAlertsData c items
      end.

(** [getForestAlerts()], the facade for alerts. *)
Definition getForestAlerts (c : Client) : C Alerts :=
  let w := world c in
  let no_mock := isNoMockEnabled (config c) in
  let hasNasaKeyDirect := hasApiKey (nasa_firms (config c)) in
  fromServer ←
    (if negb hasNasaKeyDirect then
       try_catch
         (healthy ← ServerSide.checkServerHealth c;
          if (healthy : bool)
          then x ← ServerSide.getForestAlerts c; mret (Some x)
          else (mret None : C (option Alerts)))
         (fun _ => mret None)
     else mret None);
  match fromServer with
  | Some x => mret x
  | None =>
      let cacheKey := "forest_alerts_combined" in
      cached ← getCachedData c cacheKey DEFAULT_DURATION;
      match cached with
      | Some l => mret (Arr l)
      | None =>
          try_catch
            (fireAlerts ←
               (if hasNasaKeyDirect then
                  try_catch (getLiveFireAlerts c)
                    (fun e =>
                       if no_mock then throw e
                       else mock EnhancedMockFireAlerts (getMockFireAlerts w))
                else if no_mock then mret []
                else mock EnhancedMockFireAlerts (getMockFireAlerts w));
             deforestationAlerts ←
               try_catch
                 (if isBrowser c
                  then
                    x ← ServerSide.getDeforestationAlerts c "BRA" 90 50;
                    spread x
                  else getLiveDeforestationAlerts c)
                 (fun e =>
                    if no_mock then throw e
                    else mock EnhancedMockDeforestationAlerts
                           (getMockDeforestationAlerts w));
             let alerts := (fireAlerts ++ deforestationAlerts)%list in
             alerts' ←
               (if negb no_mock && (length alerts =? 0)%nat then
                  b ← mock EnhancedMockBiodiversityAlerts
                        (getMockBiodiversityAlerts w);
                  mret (alerts ++ b)%list
                else mret alerts);
             let sortedAlerts := take 25 (sort_alerts w alerts') in
             _ ← setCachedData c cacheKey sortedAlerts DEFAULT_DURATION;
             mret (Arr sortedAlerts))
            (fun _ =>
               if no_mock then mret (Arr [])
               else
                 l ← mock MockDataServiceForestAlerts
                       (MockDataService.getForestAlerts w);
                 mret (Arr l))
      end
  end.

End Enhanced.

Definition empty_state : CState :=
  {| enhanced_cache := ∅; server_cache := ∅; regions_cache := ∅;
     species_cache := ∅; weather_cache := ∅; trace := []; rand_next := 0 |}.

End Services.

(* ================================================================== *)
(** * The satellite service ([services/nasaGibsService.ts]) *)
(* ================================================================== *)

Module NasaGibs.

Import ServiceCache.
Import ApiConfig.

(** The cache of the service, as far as [getCurrentSatelliteData] writes
    it, and the draws made of [Math.random()]. *)
Record GState := {
  cache : gmap string (Entry (list SatelliteData));
  rand_next : nat
}.

Abbreviation G := (SE GState).

Definition Math_random (w : World) : G Q :=
  fun st => (Ret (random w (rand_next st)),
             {| cache := cache st; rand_next := S (rand_next st) |}).

(** [getCachedData(key)]: the duration is [CACHE_DURATIONS.SATELLITE_DATA]. *)
Definition getCachedData (w : World) (key : string)
  : G (option (list SatelliteData)) :=
  fun st => (Ret (ServiceCache.getCachedData (cache st) (now w) key
                    CACHE_DURATIONS.SATELLITE_DATA), st).

Definition setCachedData (w : World) (key : string) (d : list SatelliteData)
  : G unit :=
  fun st => (Ret tt,
             {| cache := <[key := {| data := d; timestamp := now w |}]>
                           (cache st);
                rand_next := rand_next st |}).




Definition empty_state : GState := {| cache := ∅; rand_next := 0 |}.

End NasaGibs.

(* ================================================================== *)
(** * The specification's wording, as definitions *)
(* ================================================================== *)

(** [n > k] for a threshold [k], said without the code's comparison:
    a finite [n] above [k], or [+Infinity]. *)
Definition above (n : number) (k : Z) : Prop :=
  match n with
  | NaN => False
  | Num q => (inject_Z k < q)%Q
  | Infty negative => negative = false
  end.

(** The threshold rules as the specification words them. *)
Definition fire_severity_spec (frp confidence : number) (s : Severity) : Prop :=
  match s with
  | critical => above frp 50 /\ above confidence 80
  | high => ~ (above frp 50 /\ above confidence 80)
            /\ above frp 25 /\ above confidence 70
  | medium => ~ (above frp 50 /\ above confidence 80)
              /\ ~ (above frp 25 /\ above confidence 70)
              /\ above frp 10 /\ above confidence 60
  | low => ~ (above frp 50 /\ above confidence 80)
           /\ ~ (above frp 25 /\ above confidence 70)
           /\ ~ (above frp 10 /\ above confidence 60)
  end.

Definition deforestation_severity_spec (count : number) (s : Severity) : Prop :=
  match s with
  | critical => above count 100
  | high => ~ above count 100 /\ above count 50
  | medium => ~ above count 50 /\ above count 10
  | low => ~ above count 10
  end.

(** A confidence or a percentage within the interval [0, 100]. *)
Definition in_percent_range (n : number) : Prop :=
  match n with
  | Num q => (0 <= q <= 100)%Q
  | _ => False
  end.

(** The confidence and the percentage-valued fields of the canonical
    records within [0, 100]: the confidence of an alert; the health
    score, deforestation rate, biodiversity index, forest cover and fire
    risk of a region; the confidence and the threat level of a species;
    the humidity, cloud cover and fire-weather index of a weather record.
    The trend of a species, a signed rate, is not among them. *)
Definition percent (q : Q) : Prop := (0 <= q <= 100)%Q.

Definition alert_in_range (a : ForestAlert) : Prop :=
  in_percent_range (a_confidence a).

Definition region_in_range (r : ForestRegion) : Prop :=
  percent (r_healthScore r) /\ percent (r_deforestationRate r)
  /\ percent (r_biodiversityIndex r) /\ percent (r_forestCover r)
  /\ percent (r_fireRisk r).

Definition species_in_range (s : BiodiversityData) : Prop :=
  percent (s_confidence s) /\ percent (inject_Z (s_threatLevel s)).

(** A number that is not negative: a finite one from 0 on, or
    [+Infinity]. *)
Definition nonneg (n : number) : Prop :=
  match n with
  | NaN => False
  | Num q => (0 <= q)%Q
  | Infty negative => negative = false
  end.

(** The fire-weather index as the specification writes it, over exact
    rationals. *)
Definition fwi_spec (temp humidity precipitation : Q) : Q :=
  Qmin 100 ((Qmax 0 (100 - humidity) + Qmax 0 (temp - 20)
             + Qmax 0 (30 - precipitation)) / 3).

(* ================================================================== *)
(** * Route chains *)
(* ================================================================== *)

Module Chains.

Import Services.

(** The events a computation appends to the trace when started in [st]. *)
Definition events {A} (m : C A) (st : CState) : list Event :=
  drop (length (trace st)) (trace (m st).2).

(** The declared order of the routes. *)
Definition rank (r : Route) : nat :=
  match r with
  | Direct => 0
  | Proxy => 1
  | Mock => 2
  end.

Definition route_le (a b : Route) : Prop := (rank a <= rank b)%nat.

(** The order in which the code tries the routes of one category: the
    proxy first, then the upstream itself, then a mock generator. *)
Definition attempt_rank (r : Route) : nat :=
  match r with
  | Proxy => 0
  | Direct => 1
  | Mock => 2
  end.

Definition attempt_le (a b : Route) : Prop :=
  (attempt_rank a <= attempt_rank b)%nat.

(** The specification's ordering clauses, on the routes of one run in
    program order: the attempt that follows a failed first Direct attempt is
    Proxy, and no Mock attempt precedes a Proxy attempt. *)
Definition proxy_follows_direct (routes : list Route) : Prop :=
  routes !! 0%nat = Some Direct -> routes !! 1%nat = Some Proxy.

Definition no_mock_before_proxy (routes : list Route) : Prop :=
  forall i j, routes !! i = Some Mock -> routes !! j = Some Proxy ->
              (j < i)%nat.

(** What matters of an event for the chains: its route and the categories
    it serves. *)
Definition label : Type := Route * list AlertType.

Definition categories : list AlertType :=
  [fire; deforestation; biodiversity; weather].

Definition label_of (e : Event) : label :=
  (route_of e, List.filter (serves e) categories).

Definition chain_of_labels (c : AlertType) (ls : list label) : list Route :=
  fst <$> List.filter (fun l => bool_decide (c ∈ l.2)) ls.

Fixpoint sorted_routes (rs : list Route) : bool :=
  match rs with
  | a :: (b :: _) as rest =>
      (attempt_rank a <=? attempt_rank b)%nat && sorted_routes rest
  | _ => true
  end.

(** A chain in the order of the attempts; with [one_live], a chain with one
    kind of live route at most. *)
Definition chain_ok (one_live : bool) (rs : list Route) : bool :=
  sorted_routes rs
  && (negb one_live
      || negb (bool_decide (Direct ∈ rs) && bool_decide (Proxy ∈ rs))).

(** A finite set of label sequences, and the sequences of a computation
    followed by another one (which need not be reached). *)
Definition lang : Type := list (list label).

Definition lang_seq (S1 S2 : lang) : lang :=
  remove_dups
    (S1 ++ flat_map (fun l1 => List.map (fun l2 => l1 ++ l2) S2) S1)%list.
#[global] Arguments lang_seq : simpl never.

Definition lang_ok (one_live : bool) (S : lang) : bool :=
  forallb (fun ls =>
             forallb (fun c => chain_ok one_live (chain_of_labels c ls))
               categories) S.

(** Every run of [m] appends a sequence of events whose labels are in [S]. *)
Definition emits {A} (S : lang) (m : C A) : Prop :=
  forall st, exists l,
    trace (m st).2 = (trace st ++ l)%list /\ (label_of <$> l) ∈ S.

(** Runs of [m] leave the trace as it is. *)
Definition silent {A} (m : C A) : Prop :=
  forall st, trace (m st).2 = trace st.

(** Runs of [m] end with a value: no exception, no divergence. *)
Definition returns {A} (m : C A) : Prop :=
  forall st, exists a, (m st).1 = Ret a.

(** Runs of [m] end, with a value or an exception. *)
Definition halts {A} (m : C A) : Prop :=
  forall st, (m st).1 <> Diverge.


(** The run of [m] from [st] starts with the event [e]. *)
Definition starts_with {A} (e : Event) (m : C A) (st : CState) : Prop :=
  exists l, events m st = e :: l.

End Chains.

(* ================================================================== *)
(** * Concrete inputs used by the examples *)
(* ================================================================== *)

Module Examples.

Import Services.

(** A world at time [t] in which every upstream is unreachable. *)
Definition offline (t : Z) : World :=
  {| now := t;
     isoDate := fun _ => "2024-01-01";
     parseDate := fun _ => None;
     random := fun _ => 0.5%Q;
     firms := fun _ _ _ _ _ => NetFail "network down";
     gfw := fun _ _ _ _ => NetFail "network down";
     openweather := fun _ _ _ => NetFail "network down";
     gbif := fun _ => NetFail "network down" |}.

(** The same world, FIRMS answering status 500 to every request. *)
Definition firms_500 (t : Z) : World :=
  {| now := t;
     isoDate := isoDate (offline t);
     parseDate := parseDate (offline t);
     random := random (offline t);
     firms := fun _ _ _ _ _ => Http 500 "";
     gfw := gfw (offline t);
     openweather := openweather (offline t);
     gbif := gbif (offline t) |}.

Definition no_keys : Worker.Env :=
  {| Worker.NASA_FIRMS_API_KEY := None; Worker.OPENWEATHER_API_KEY := None |}.

Definition GET (path : string) (query : list (string * string))
  : Worker.Request :=
  {| Worker.method := "GET";
     Worker.url := {| Worker.pathname := path; Worker.searchParams := query |};
     Worker.authorization := None |}.

(** The proxy answers every alert request with the two deforestation
    records below, source [global-forest-watch]. *)
Definition proxy_answer (w : World) : ServerApiResponse Alerts :=
  {| success := true;
     data := Some (Arr (ServerSide.getMockDeforestationAlerts w));
     error := None;
     source := Some "global-forest-watch" |}.

(** A browser at time [t], mocks allowed, with the NASA key [key]; the health
    check fails, the proxy answers alert requests. *)
Definition browser (t : Z) (key : option string) : Client :=
  {| world := offline t;
     config := {| nasa_firms := key; noMock := false |};
     isBrowser := true;
     health_ok := false;
     worker := fun _ _ => Http 200 (Some (JObject (proxy_answer (offline 0))));
     worker_regions := fun _ => NetFail "network down";
     worker_species := fun _ => NetFail "network down";
     worker_weather := fun _ => NetFail "network down";
     gfw_direct := NetFail "network down";
     gfw_lossgain := NetFail "network down";
     toString := fun _ => "0";
     toFixed2 := fun _ => "0.00" |}.

(** A FIRMS answer: the header and one detection whose confidence column
    reads 150. *)
Definition firms_csv : string :=
  "latitude,longitude,brightness,scan,track,acq_date,acq_time,satellite,confidence,version,bright_t31,frp,daynight"
  +:+ String Worker.newline
  "-3.5,-62.1,320.5,1.0,1.0,2024-01-01,0130,Terra,150,6.1,290.1,60.2,N".

Definition gbif_hit (name : string) : GbifResult :=
  {| gb_key := Some "5219404"; gb_scientificName := Some name;
     gb_vernacularName := None; gb_canonicalName := Some name;
     gb_threatStatus := Some "ENDANGERED"; gb_habitat := None |}.

(** GBIF answers the first two of the five species searches and is
    unreachable for the other three. *)
Definition two_live (t : Z) : World :=
  {| now := t;
     isoDate := isoDate (offline t);
     parseDate := parseDate (offline t);
     random := random (offline t);
     firms := firms (offline t);
     gfw := gfw (offline t);
     openweather := openweather (offline t);
     gbif := fun q =>
       if String.eqb q "Pongo abelii" || String.eqb q "Panthera onca"
       then Http 200 (Some [gbif_hit q])
       else NetFail "network down" |}.

(** The species list of a successful answer, empty for any other answer. *)
Definition species_of (r : outcome Worker.Response) : list BiodiversityData :=
  match r with
  | Ret {| Worker.body :=
             Worker.BodyJson {| Worker.data := Some (Worker.DSpecies l) |} |} => l
  | _ => []
  end.

Definition deforestation_key : string := "deforestation_server_BRA_90_50".


End Examples.

(* ================================================================== *)
(** * Cache keys and answers of the worker, named *)
(* ================================================================== *)

Module Answers.

Import Worker.

(** The key each caching handler computes from its request. *)
Definition fire_key (u : URL) : string :=
  "https://cache.fire-alerts/"
  +:+ or_str (get u "region") (or_str (get u "area") "world")
  +:+ "/" +:+ or_str (get u "days") "1".

Definition deforestation_key (w : World) (u : URL) : string :=
  "https://cache.deforestation-alerts/" +:+ or_str (get u "region") "BRA"
  +:+ "/" +:+ int_to_string (parseInt (or_str (get u "days") "90"))
  +:+ "/" +:+ isoDate w (now w)
  +:+ "/" +:+ int_to_string (parseInt (or_str (get u "limit") "50")).

Definition weather_key (u : URL) : string :=
  "https://cache.weather/" +:+ or_str (get u "lat") ""
  +:+ "/" +:+ or_str (get u "lng") "".

Definition regions_key : string := "https://cache.forest-regions".

Definition biodiversity_key (u : URL) : string :=
  "https://cache.biodiversity/" +:+ or_str (get u "region") "global"
  +:+ "/" +:+ int_to_string (parseInt (or_str (get u "limit") "20")).

(** The key the fire handler ends up using: the override of the query, then
    the environment, then the placeholder. *)
Definition firms_api_key (u : URL) (env : Env) : string :=
  or_str (Some (or_str (get u "key") (or_str (get u "mapKey") "")))
         (or_str (NASA_FIRMS_API_KEY env) FIRMS_PLACEHOLDER).

(** The datasets the fire handler is to try, in order. *)
Definition firms_datasets (u : URL) : list string :=
  if String.eqb (toUpperCase (or_str (get u "dataset") "")) ""
  then ["MODIS_NRT"; "VIIRS_SNPP_NRT"; "VIIRS_NOAA20_NRT"]
  else [toUpperCase (or_str (get u "dataset") "")].

(** The date the fire handler asks for. *)
Definition firms_date (w : World) (u : URL) : string :=
  or_str (Some (or_str (get u "date") "")) (isoDate w (now w - day_ms)).

(** An answer that carries data, and an answer that reports an error. *)
Definition is_error (r : Response) (st : Z) : Prop :=
  exists msg, r = json_error msg st.

(** An answer tagged as synthetic. *)
Definition tagged_mock (r : Response) : Prop :=
  exists d err, r = json_ok d "mock" err \/ r = json_ok d "mock-fallback" err.

(** The start of the period asked of Global Forest Watch. *)
Definition gfw_start (w : World) (days : Z) : Z := now w - Z.max 1 days * day_ms.

(** Whether the [days] parameter gives the deforestation handler a date it
    can print. *)
Definition days_ok (w : World) (u : URL) : bool :=
  match parseInt (or_str (get u "days") "90") with
  | Some days => valid_time (gfw_start w days)
  | None => false
  end.

(** An answer without an error field. *)
Definition error_free (r : Response) : Prop :=
  exists d src, r = json_ok d src None.

(** A request that brought no data: it failed, or was answered with a
    status that is not ok. *)
Definition no_data {A} (r : FetchResult A) : Prop :=
  match r with
  | NetFail _ => True
  | Http s _ => http_ok s = false
  end.

(** The contract of [Math.random()]: a number in [0, 1). *)
Definition unit_random (w : World) : Prop :=
  forall n, (0 <= random w n)%Q /\ (random w n < 1)%Q.

(** A finite number in the closed interval from [lo] to [hi]. *)
Definition between (n : number) (lo hi : Q) : Prop :=
  match n with
  | Num q => (lo <= q <= hi)%Q
  | _ => False
  end.

(** Rounding of the result of an operation to a double, as far as a bound
    needs it: a monotone map that leaves the halves of the integers up to
    2^53 as they are. Rounding to nearest is such a map, and so is [exact],
    the arithmetic of the embedding. *)
Definition rounding (fl : Q -> Q) : Prop :=
  (forall x y : Q, (x <= y)%Q -> (fl x <= fl y)%Q)
  /\ (forall z : Z, Z.abs z <= 2 ^ 53 -> (fl (z # 2) == z # 2)%Q).

Definition exact (q : Q) : Q := q.

(** [r * k], [(r - 0.5) * k], [a + r * k] and [a + (r - 0.5) * k], the
    result of every operation rounded by [fl]. *)
Definition times (fl : Q -> Q) (r k : Q) : Q := fl (r * k)%Q.
Definition spread (fl : Q -> Q) (r k : Q) : Q := fl (fl (r - 0.5) * k)%Q.
Definition scaled (fl : Q -> Q) (a r k : Q) : Q := fl (a + times fl r k)%Q.
Definition centred (fl : Q -> Q) (a r k : Q) : Q := fl (a + spread fl r k)%Q.

(** The numbers that [parseGBIFSpeciesData] computes from its first,
    second, fourth and fifth draw: population, trend, confidence and threat
    level. [Math.floor] and the sum of two small integers are exact. *)
Definition species_numbers (fl : Q -> Q) (r1 r2 r4 r5 : Q) : Z * Q * Q * Z :=
  (Qfloor (times fl r1 100000) + 1000, spread fl r2 6, scaled fl 85 r4 10,
   Qfloor (times fl r5 100)).

(** The numbers that [mockWeather] computes from its second, fourth, fifth
    and sixth draw: humidity, wind speed, pressure and cloud cover. *)
Definition weather_numbers (fl : Q -> Q) (r2 r4 r5 r6 : Q) : Q * Q * Q * Q :=
  (scaled fl 60 r2 30, scaled fl 5 r4 15, centred fl 1013 r5 20,
   times fl r6 100).

(** The numbers that [handleSatelliteData] computes from its two draws:
    coverage and cloud cover. *)
Definition satellite_numbers (fl : Q -> Q) (r1 r2 : Q) : Q * Q :=
  (scaled fl 85 r1 10, times fl r2 30).

(** One step of a cache in which only error-free answers are stored. *)
Definition stores_error_free (st st' : WState) : Prop :=
  cache st' = cache st
  \/ exists k r, error_free r /\ cache st' = <[k := r]> (cache st).

End Answers.

(** Requests and environments used in instances. *)
Module Scenarios.

Definition with_keys : Worker.Env :=
  {| Worker.NASA_FIRMS_API_KEY := Some "firms-key";
     Worker.OPENWEATHER_API_KEY := Some "weather-key" |}.

(** A query in live-only mode. *)
Definition live_only_url : Worker.URL :=
  {| Worker.pathname := "/api/fire-alerts";
     Worker.searchParams :=
       [("region", "BRA"); ("days", "7"); ("lat", "-3.5"); ("lng", "-62.1");
        ("no_mock", "1")] |}.

(** The same query, mocks allowed. *)
Definition mock_url : Worker.URL :=
  {| Worker.pathname := "/api/fire-alerts";
     Worker.searchParams :=
       [("region", "BRA"); ("days", "7"); ("lat", "-3.5"); ("lng", "-62.1")] |}.

(** A GBIF match that carries only a threat status. *)
Definition gbif_status (s : string) : GbifResult :=
  {| gb_key := None; gb_scientificName := None; gb_vernacularName := None;
     gb_canonicalName := None; gb_threatStatus := Some s;
     gb_habitat := None |}.

(** A browser in live-only mode with a key, nothing reachable. *)
Definition live_only_client : Services.Client :=
  {| Services.world := Examples.offline 0;
     Services.config := {| Services.nasa_firms := Some "firms-key";
                           Services.noMock := true |};
     Services.isBrowser := true;
     Services.health_ok := false;
     Services.worker := fun _ _ => NetFail "network down";
     Services.worker_regions := fun _ => NetFail "network down";
     Services.worker_species := fun _ => NetFail "network down";
     Services.worker_weather := fun _ => NetFail "network down";
     Services.gfw_direct := NetFail "network down";
     Services.gfw_lossgain := NetFail "network down";
     Services.toString := fun _ => "0";
     Services.toFixed2 := fun _ => "0.00" |}.

(** A browser, mocks allowed, whose proxy answers every request with the
    worker's fallback: mock data that carries the upstream's error. *)
Definition fallback_client : Services.Client :=
  {| Services.world := Examples.offline 0;
     Services.config := {| Services.nasa_firms := None;
                           Services.noMock := false |};
     Services.isBrowser := true;
     Services.health_ok := true;
     Services.worker := fun _ _ =>
       Http 200
         (Some (Services.JObject
                  {| Services.success := true;
                     Services.data :=
                       Some (Services.Arr
                               (Worker.generateMockDeforestationAlerts
                                  (Examples.offline 0)));
                     Services.error := Some "GFW API error: 500";
                     Services.source := Some "mock-fallback" |}));
     Services.worker_regions := fun _ => NetFail "network down";
     Services.worker_species := fun _ => NetFail "network down";
     Services.worker_weather := fun _ => NetFail "network down";
     Services.gfw_direct := NetFail "network down";
     Services.gfw_lossgain := NetFail "network down";
     Services.toString := fun _ => "0";
     Services.toFixed2 := fun _ => "0.00" |}.

(** A world in which the first FIRMS dataset is unreachable and the
    others answer with one detection. *)
Definition flaky_firms : World :=
  {| now := 0;
     isoDate := isoDate (Examples.offline 0);
     parseDate := parseDate (Examples.offline 0);
     random := random (Examples.offline 0);
     firms := fun _ dataset _ _ _ =>
       if String.eqb dataset "MODIS_NRT" then NetFail "network down"
       else Http 200 Examples.firms_csv;
     gfw := gfw (Examples.offline 0);
     openweather := openweather (Examples.offline 0);
     gbif := gbif (Examples.offline 0) |}.

Definition flaky_client : Services.Client :=
  {| Services.world := flaky_firms;
     Services.config := {| Services.nasa_firms := Some "firms-key";
                           Services.noMock := false |};
     Services.isBrowser := true;
     Services.health_ok := false;
     Services.worker := fun _ _ => NetFail "network down";
     Services.worker_regions := fun _ => NetFail "network down";
     Services.worker_species := fun _ => NetFail "network down";
     Services.worker_weather := fun _ => NetFail "network down";
     Services.gfw_direct := NetFail "network down";
     Services.gfw_lossgain := NetFail "network down";
     Services.toString := fun _ => "0";
     Services.toFixed2 := fun _ => "0.00" |}.

(** A server-side client in live-only mode without a key: the health
    check passes and the proxy answers every request with the JSON text
    [null]; Global Forest Watch is unreachable. *)
Definition null_proxy_client : Services.Client :=
  {| Services.world := Examples.offline 0;
     Services.config := {| Services.nasa_firms := None;
                           Services.noMock := true |};
     Services.isBrowser := false;
     Services.health_ok := true;
     Services.worker := fun _ _ => Http 200 (Some Services.JNull);
     Services.worker_regions := fun _ => NetFail "network down";
     Services.worker_species := fun _ => NetFail "network down";
     Services.worker_weather := fun _ => NetFail "network down";
     Services.gfw_direct := NetFail "network down";
     Services.gfw_lossgain := NetFail "network down";
     Services.toString := fun _ => "0";
     Services.toFixed2 := fun _ => "0.00" |}.


(** An OpenWeather answer for a hot, dry place. *)
Definition hot_and_dry : OpenWeatherJson :=
  {| ow_temp := Num 38; ow_humidity := Num 10; ow_pressure := Num 1009;
     ow_wind_speed := Num 4; ow_clouds_all := Num 0; ow_rain_1h := None;
     ow_snow_1h := None; ow_name := "Alice Springs";
     ow_country := "AU"; ow_description := Some "clear sky" |}.

End Scenarios.

(* ================================================================== *)
(** * The alert facade: what its caches hold *)
(* ================================================================== *)

Module Facade.

Import Services.

(** The keys under which the two services store the alert list. *)
Definition SERVER_KEY : string := "forest_alerts_server".
Definition COMBINED_KEY : string := "forest_alerts_combined".

(** The key of the proxy client's deforestation entries. *)
Definition deforestation_key (region : string) (days limit : Z) : string :=
  "deforestation_server_" +:+ region +:+ "_" +:+ pretty days +:+ "_"
  +:+ pretty limit.

(** A list of at most 25 alerts, and such a list with an alert in it. *)
Definition bounded (l : list ForestAlert) : Prop := (length l <= 25)%nat.
Definition filled (l : list ForestAlert) : Prop := (0 < length l <= 25)%nat.

(** An array of alerts that satisfies [G]. *)
Definition good (G : list ForestAlert -> Prop) (x : Alerts) : Prop :=
  match x with
  | Arr l => G l
  | NotArr _ => False
  end.

(** The entry of a cache under a key satisfies [P]. *)
Definition good_at {A} (P : A -> Prop)
    (cache : gmap string (ServiceCache.Entry A)) (key : string) : Prop :=
  forall e, cache !! key = Some e -> P (ServiceCache.data e).


Definition weather_key (c : Client) (lat lng : number) : string :=
  "weather_server_" +:+ toFixed2 c lat +:+ "_" +:+ toFixed2 c lng.




(** Both alert-list entries are arrays that satisfy [G]. *)
Definition caches_ok (G : list ForestAlert -> Prop) (st : CState) : Prop :=
  good_at (good G) (server_cache st) SERVER_KEY
  /\ good_at G (enhanced_cache st) COMBINED_KEY.

(** Started in a state whose alert-list entries satisfy [G], [m] ends;
    its final state is such a state again, a value it returns satisfies
    [Q], and it throws only if [may_throw] allows it. *)
Definition triple (G : list ForestAlert -> Prop) (may_throw : bool) {A}
    (m : C A) (Q : A -> Prop) : Prop :=
  forall st, caches_ok G st ->
    match m st with
    | (Ret a, st') => caches_ok G st' /\ Q a
    | (Throw _, st') => may_throw = true /\ caches_ok G st'
    | (Diverge, _) => False
    end.

(** Two alerts parsed from the same FIRMS row by the browser service and
    by the worker: alike but for the metadata and, in one region, the
    name of the location. *)
Definition same_detection (a b : ForestAlert) : Prop :=
  a_id a = a_id b
  /\ a_timestamp a = a_timestamp b
  /\ a_type a = a_type b
  /\ a_severity a = a_severity b
  /\ a_confidence a = a_confidence b
  /\ a_description a = a_description b
  /\ a_coordinates a = a_coordinates b
  /\ (a_location a = a_location b
      \/ a_location b = LocName "Southeast Asian Rainforest").

(** The random draws the GLAD parsers make for a list of items: one for
    each latitude and each longitude that is absent, zero or [NaN]. *)
Definition missing (x : option number) : nat :=
  match Worker.or_opt_num x None with
  | Some _ => 0
  | None => 1
  end.

Definition draws (items : list GladAlert) : nat :=
  sum_list ((fun al => missing (g_lat al) + missing (g_lng al))%nat <$> items).

(** What an alert parsed from the item [al] at position [k] carries. *)
Definition glad_alert_of (t : Z) (k : nat) (al : GladAlert) (a : ForestAlert)
  : Prop :=
  a_id a = IdDeforest k t
  /\ a_type a = deforestation
  /\ a_metadata a = MetaGlad al
  /\ (missing (g_lat al) = 0%nat -> Some (a_coordinates a).1 = g_lat al)
  /\ (missing (g_lng al) = 0%nat -> Some (a_coordinates a).2 = g_lng al).

(** No sequence of the language holds a label of the Mock route. *)
Definition mock_free (S : Chains.lang) : bool :=
  forallb (forallb (fun l : Chains.label => negb (bool_decide (l.1 = Mock)))) S.

End Facade.

(* ================================================================== *)
(** * The configuration manager ([services/apiConfigManager.ts]) *)
(* ================================================================== *)

Module ApiConfigManager.

(** [keyof StoredApiKeys] *)
Inductive Service :=
| nasa_firms
| openweather
| sentinel_hub_client_id
| sentinel_hub_client_secret.

#[global] Instance Service_eq_dec : EqDecision Service.
Proof. solve_decision. Defined.

(** [StoredApiKeys]: every key may be absent. *)
Definition StoredApiKeys : Type := Service -> option string.

(** The [value] fields of the object [JSON.parse] makes of the saved text,
    under the names the manager reads them by. *)
Record ParsedKeys := {
  p_nasa_firms : option string;
  p_openweather : option string;
  p_sentinel_hub : option string;
  p_sentinel_hub_secret : option string
}.

(** What the manager reads from outside: whether [localStorage] can be
    used at all (every access throws otherwise), [JSON.parse] on the saved
    text ([None]: it throws, or what it returns has no properties to
    read), and the keys of the build environment. *)
Record Outside := {
  accessible : bool;
  parse : string -> option ParsedKeys;
  env_keys : StoredApiKeys
}.

(** [localStorage] *)
Abbreviation Storage := (gmap string string).

Definition KEYS_ITEM : string := "forest-explorer-api-keys".
Definition NO_MOCK_ITEM : string := "forest-explorer-no-mock".

(** The private fields. *)
Record Manager := {
  apiKeys : StoredApiKeys;
  useLiveData : bool;
  noMock : bool
}.

Definition services : list Service :=
  [nasa_firms; openweather; sentinel_hub_client_id;
   sentinel_hub_client_secret].

(** [key && key.length > 0] *)
Definition present (k : option string) : bool := negb (falsy_str k).

(** [Object.values(this.apiKeys).some(key => key && key.length > 0)] *)
Definition some_key (keys : StoredApiKeys) : bool :=
  existsb (fun s => present (keys s)) services.

Definition loadApiKeys (o : Outside) (ls : Storage) (m : Manager) : Manager :=
  if accessible o then
    let saved := ls !! KEYS_ITEM in
    let parsedKeys :=
      if falsy_str saved
      then Some {| p_nasa_firms := None; p_openweather := None;
                   p_sentinel_hub := None; p_sentinel_hub_secret := None |}
      else parse o (or_str saved "") in
    match parsedKeys with
    | Some p =>
        let keys : StoredApiKeys := fun s =>
          match s with
          | nasa_firms =>
              Worker.or_opt_str (p_nasa_firms p) (env_keys o nasa_firms)
          | openweather =>
              Worker.or_opt_str (p_openweather p) (env_keys o openweather)
          | sentinel_hub_client_id =>
              Worker.or_opt_str (p_sentinel_hub p)
                (env_keys o sentinel_hub_client_id)
          | sentinel_hub_client_secret =>
              Worker.or_opt_str (p_sentinel_hub_secret p)
                (env_keys o sentinel_hub_client_secret)
          end in
        {| apiKeys := keys; useLiveData := some_key keys; noMock := noMock m |}
    | None => m
    end
  else m.

Definition loadNoMockFlag (o : Outside) (ls : Storage) (m : Manager)
  : Manager :=
  if accessible o then
    {| apiKeys := apiKeys m; useLiveData := useLiveData m;
       noMock := bool_decide (ls !! NO_MOCK_ITEM = Some "1")
                 || bool_decide (ls !! NO_MOCK_ITEM = Some "true") |}
  else m.

(** The constructor, on the initial values of the fields. *)
Definition create (o : Outside) (ls : Storage) : Manager :=
  loadNoMockFlag o ls
    (loadApiKeys o ls
       {| apiKeys := fun _ => None; useLiveData := false; noMock := false |}).

Definition refreshApiKeys (o : Outside) (ls : Storage) (m : Manager)
  : Manager :=
  loadNoMockFlag o ls (loadApiKeys o ls m).

Definition hasApiKey (m : Manager) (s : Service) : bool :=
  present (apiKeys m s).

Definition getApiKey (m : Manager) (s : Service) : option string :=
  apiKeys m s.

Definition shouldUseLiveData (m : Manager) : bool :=
  useLiveData m && some_key (apiKeys m).

Definition isNoMockEnabled (m : Manager) : bool := noMock m.

(** [setNoMock(enabled)]: the field first, then the store. *)
Definition setNoMock (o : Outside) (enabled : bool) (ls : Storage)
    (m : Manager) : Manager * Storage :=
  ({| apiKeys := apiKeys m; useLiveData := useLiveData m; noMock := enabled |},
   if accessible o
   then <[NO_MOCK_ITEM := if enabled then "1" else "0"]> ls
   else ls).

(** [getConfiguredApis()], by the services instead of their names. *)
Definition getConfiguredApis (m : Manager) : list Service :=
  List.filter (fun s => present (apiKeys m s)) services.

Definition setUseLiveData (enabled : bool) (m : Manager) : Manager :=
  {| apiKeys := apiKeys m; useLiveData := enabled; noMock := noMock m |}.

End ApiConfigManager.

(* ================================================================== *)
(** * Region scores of the browser service *)
(* ================================================================== *)

Module RegionScores.

Import Services.

(** The score of [calculateHealthScore] before the random term. *)
Definition base_score (weather : WeatherData) : Z :=
  let score := 80 in
  let score :=
    if gt (w_fireWeatherIndex weather) (of_Z 70) then score - 15 else score in
  let score :=
    if lt (w_precipitation weather) (of_Z 500) then score - 10 else score in
  if gt (w_temperature weather) (of_Z 35) then score - 5 else score.

(** [calculateHealthScore(weather, satelliteData)]; [satelliteData] is not
    read. *)
Definition calculateHealthScore (c : Client) (weather : WeatherData)
  : C number :=
  r ← Math_random c;
  mret (Math_max (of_Z 30)
          (Math_min (of_Z 100)
             (Num (inject_Z (base_score weather) + (r - 0.5) * 10)))).

(** The two summands of [riskScore]. *)
Definition fire_points (weather : WeatherData) : Z :=
  if gt (w_fireWeatherIndex weather) (of_Z 80) then 3
  else if gt (w_fireWeatherIndex weather) (of_Z 60) then 2
  else if gt (w_fireWeatherIndex weather) (of_Z 40) then 1
  else 0.

Definition loss_points (currentLoss : number) : Z :=
  if gt currentLoss (of_Z 3) then 3
  else if gt currentLoss (of_Z 2) then 2
  else if gt currentLoss (of_Z 1) then 1
  else 0.

(** [calculateAlertLevel(weather, forestChange)], given what
    [forestChange.forestLoss?.['2023']] reads. *)
Definition calculateAlertLevel (weather : WeatherData)
    (forestLoss2023 : option number) : Severity :=
  let riskScore := 0 in
  let riskScore := riskScore + fire_points weather in
  let currentLoss := or_num forestLoss2023 (of_Z 0) in
  let riskScore := riskScore + loss_points currentLoss in
  if 5 <=? riskScore then critical
  else if 3 <=? riskScore then high
  else if 1 <=? riskScore then medium
  else low.

End RegionScores.

(* ================================================================== *)
(** * Properties *)
(* ================================================================== *)

(** ** The embedding at work *)

Example parseFloat_decimal : parseFloat " -12.50e1 MW" = Num (-125).
Proof. reflexivity. Qed.

Example parseFloat_letter : parseFloat "n" = NaN.
Proof. reflexivity. Qed.

Example parseInt_default : parseInt "20" = Some 20 /\ parseInt "many" = None.
Proof. split; reflexivity. Qed.

Example split_csv : split "," "a,b,,c" = ["a"; "b"; ""; "c"].
Proof. reflexivity. Qed.

Example slice_past_end : slice [1; 2] (Some 2) (Some 3) = [].
Proof. reflexivity. Qed.

Example route_path_api :
  Worker.route_path
    {| Worker.pathname := "/api/weather/"; Worker.searchParams := [] |}
  = "/weather".
Proof. reflexivity. Qed.

(** The scenario of the specification: a FIRMS key is present, FIRMS answers
    500 for every dataset; the caller receives the two mock fire alerts,
    tagged [mock-fallback]. The worker does not cache this answer. *)
Example fire_alerts_fall_back_to_mock :
  let w := Examples.firms_500 0 in
  let env := {| Worker.NASA_FIRMS_API_KEY := Some "key";
                Worker.OPENWEATHER_API_KEY := None |} in
  let '(answer, st) :=
    Worker.fetch 0 w
      (Examples.GET "/fire-alerts" [("region", "world"); ("days", "1")])
      env Worker.empty_state in
  answer
  = Ret (Worker.json_ok (Worker.DAlerts (Worker.generateMockFireAlerts w))
           "mock-fallback" (Some "NASA FIRMS API error: 500"))
  /\ length (Worker.calls st) = 3%nat
  /\ Worker.cache st = ∅.
Proof. vm_compute. repeat split. Qed.

(** ** Numbers *)

Lemma gt_above n k : gt n (of_Z k) = true <-> above n k.
Proof.
  destruct n as [|q|[]]; simpl.
  1, 3, 4: split; (discriminate || tauto || reflexivity).
  rewrite negb_true_iff. split.
  - intros H. apply Qnot_le_lt. rewrite <- Qle_bool_iff. congruence.
  - intros H. apply not_true_is_false. rewrite Qle_bool_iff.
    now apply Qlt_not_le.
Qed.

Lemma gt_not_above n k : gt n (of_Z k) = false <-> ~ above n k.
Proof.
  rewrite <- gt_above. destruct (gt n (of_Z k)); split; congruence.
Qed.

(** ** Severity thresholds *)

Lemma above_mono n k k' : k' <= k -> above n k -> above n k'.
Proof.
  destruct n as [|q|s]; simpl; auto.
  intros Hk H. eapply Qle_lt_trans; [|exact H].
  rewrite <- Zle_Qle. exact Hk.
Qed.

Lemma fire_severity_sound frp confidence :
  fire_severity_spec frp confidence (Worker.calculateFireSeverity frp confidence).
Proof.
  unfold Worker.calculateFireSeverity.
  destruct (gt frp (of_Z 50)) eqn:F50, (gt confidence (of_Z 80)) eqn:C80;
    destruct (gt frp (of_Z 25)) eqn:F25, (gt confidence (of_Z 70)) eqn:C70;
    destruct (gt frp (of_Z 10)) eqn:F10, (gt confidence (of_Z 60)) eqn:C60;
    simpl;
    repeat match goal with
           | H : gt _ _ = true |- _ => apply gt_above in H
           | H : gt _ _ = false |- _ => apply gt_not_above in H
           end; tauto.
Qed.

Lemma fire_severity_spec_functional frp confidence s1 s2 :
  fire_severity_spec frp confidence s1 ->
  fire_severity_spec frp confidence s2 -> s1 = s2.
Proof. destruct s1, s2; simpl; tauto. Qed.

Lemma deforestation_severity_sound count :
  deforestation_severity_spec count (Worker.getDeforestationSeverity count).
Proof.
  unfold Worker.getDeforestationSeverity.
  destruct (gt count (of_Z 100)) eqn:H100;
    destruct (gt count (of_Z 50)) eqn:H50;
    destruct (gt count (of_Z 10)) eqn:H10; simpl;
    repeat match goal with
           | H : gt _ _ = true |- _ => apply gt_above in H
           | H : gt _ _ = false |- _ => apply gt_not_above in H
           end; try tauto.
  all: try (exfalso; apply H50; eapply above_mono; [|exact H100]; lia).
Qed.

Lemma deforestation_severity_spec_functional count s1 s2 :
  deforestation_severity_spec count s1 ->
  deforestation_severity_spec count s2 -> s1 = s2.
Proof.
  assert (M1 : above count 100 -> above count 50)
    by (apply above_mono; lia).
  assert (M2 : above count 50 -> above count 10)
    by (apply above_mono; lia).
  destruct s1, s2; simpl; tauto.
Qed.

(** C7. Fire severity is [critical] exactly when frp > 50 and confidence > 80,
    otherwise [high] exactly when frp > 25 and confidence > 70, otherwise
    [medium] exactly when frp > 10 and confidence > 60, otherwise [low];
    deforestation severity is [critical], [high], [medium] above 100, 50, 10
    alerts and [low] otherwise; the worker and the enhanced service compute
    the same functions; (60, 85) is critical and (5, 50) is low. *)
Theorem C7_severity_thresholds :
  (forall frp confidence s,
      Worker.calculateFireSeverity frp confidence = s
      <-> fire_severity_spec frp confidence s)
  /\ (forall count s,
         Worker.getDeforestationSeverity count = s
         <-> deforestation_severity_spec count s)
  /\ (forall frp confidence,
         Services.Enhanced.calculateFireSeverity frp confidence
         = Worker.calculateFireSeverity frp confidence)
  /\ (forall count,
         Services.Enhanced.getDeforestationSeverity count
         = Worker.getDeforestationSeverity count)
  /\ Worker.calculateFireSeverity (of_Z 60) (of_Z 85) = critical
  /\ Worker.calculateFireSeverity (of_Z 5) (of_Z 50) = low.
Proof.
  repeat split; try reflexivity.
  - intros <-. apply fire_severity_sound.
  - intros H. eapply fire_severity_spec_functional;
      [apply fire_severity_sound | exact H].
  - intros <-. apply deforestation_severity_sound.
  - intros H. eapply deforestation_severity_spec_functional;
      [apply deforestation_severity_sound | exact H].
Qed.

(** ** Fire-weather index *)

Lemma Math_max_num a b :
  exists q, Math_max (Num a) (Num b) = Num q /\ (q == Qmax a b)%Q.
Proof.
  unfold Math_max, ge. destruct (Qle_bool b a) eqn:E.
  - exists a. split; [reflexivity|]. apply Qle_bool_iff in E.
    symmetry. now apply Q.max_l.
  - exists b. split; [reflexivity|]. symmetry. apply Q.max_r.
    apply Qlt_le_weak, Qnot_le_lt. rewrite <- Qle_bool_iff. congruence.
Qed.

Lemma Math_min_num a b :
  exists q, Math_min (Num a) (Num b) = Num q /\ (q == Qmin a b)%Q.
Proof.
  unfold Math_min, le, ge. destruct (Qle_bool a b) eqn:E.
  - exists a. split; [reflexivity|]. apply Qle_bool_iff in E.
    symmetry. now apply Q.min_l.
  - exists b. split; [reflexivity|]. symmetry. apply Q.min_r.
    apply Qlt_le_weak, Qnot_le_lt. rewrite <- Qle_bool_iff. congruence.
Qed.

Lemma fwi_spec_bounds t h p : (0 <= fwi_spec t h p <= 100)%Q.
Proof.
  unfold fwi_spec. split; [|apply Q.le_min_l].
  apply Q.min_glb; [discriminate|].
  apply Qle_shift_div_l; [reflexivity|]. rewrite Qmult_0_l.
  pose proof (Q.le_max_l 0 (100 - h)).
  pose proof (Q.le_max_l 0 (t - 20)).
  pose proof (Q.le_max_l 0 (30 - p)).
  apply Qle_trans with (0 + 0 + 0)%Q; [unfold Qle; simpl; lia|].
  repeat apply Qplus_le_compat; assumption.
Qed.

Lemma fwi_refines_spec t h p :
  exists q, Worker.calculateFireWeatherIndex (Num t) (Num h) (Num p) = Num q
            /\ (q == fwi_spec t h p)%Q.
Proof.
  unfold Worker.calculateFireWeatherIndex, of_Z. cbv zeta.
  change (sub (Num ?a) (Num ?b)) with (Num (a - b)).
  destruct (Math_max_num (inject_Z 0) (inject_Z 100 - h)) as (d & -> & Hd).
  destruct (Math_max_num (inject_Z 0) (t - inject_Z 20)) as (e & -> & He).
  destruct (Math_max_num (inject_Z 0) (inject_Z 30 - p)) as (f & -> & Hf).
  change (add (add (Num d) (Num e)) (Num f)) with (Num (d + e + f)).
  change (div_const (Num ?a) ?c) with (Num (a / c)).
  destruct (Math_min_num (inject_Z 100) ((d + e + f) / 3)) as (m & -> & Hm).
  exists m. split; [reflexivity|].
  rewrite Hm, Hd, He, Hf. reflexivity.
Qed.

(** C8 (as the code has it). On finite inputs the index is
    min(100, (max(0, 100 - humidity) + max(0, temp - 20)
    + max(0, 30 - precipitation)) / 3), it lies in [0, 100], both services
    compute it alike, and at temp = 30, humidity = 20, precipitation = 0 it
    is (80 + 10 + 30) / 3 = 40. *)
Theorem C8_fire_weather_index :
  (forall t h p,
      exists q,
        Worker.calculateFireWeatherIndex (Num t) (Num h) (Num p) = Num q
        /\ (q == fwi_spec t h p)%Q /\ (0 <= q <= 100)%Q)
  /\ (forall t h p,
         Services.Enhanced.calculateFireWeatherIndex t h p
         = Worker.calculateFireWeatherIndex t h p)
  /\ (exists q,
         Worker.calculateFireWeatherIndex (of_Z 30) (of_Z 20) (of_Z 0) = Num q
         /\ (q == 40)%Q).
Proof.
  split; [|split].
  - intros t h p. destruct (fwi_refines_spec t h p) as (q & E & Hq).
    exists q. split; [exact E|]. split; [exact Hq|].
    rewrite Hq. apply fwi_spec_bounds.
  - reflexivity.
  - eexists. split; [vm_compute; reflexivity|]. reflexivity.
Qed.

(** C8, the stated value refuted: at temp = 30, humidity = 20,
    precipitation = 0 the index is not within 0.01 of 36.67. *)
Lemma C8_counterexample :
  exists q,
    Worker.calculateFireWeatherIndex (of_Z 30) (of_Z 20) (of_Z 0) = Num q
    /\ ~ (Qabs (q - 36.67) <= 0.01)%Q.
Proof.
  eexists. split; [vm_compute; reflexivity|].
  vm_compute. intros H. apply H. reflexivity.
Qed.

(** ** The cache store *)

Section CacheLaws.
Context {A : Type}.
Implicit Types (cache : gmap string (ServiceCache.Entry A)) (k : string)
  (v : A) (t d w r : Z).

(** A read at time [r] of an entry written at time [w] hits exactly while
    [r - w] is below the duration given to the read. *)
Lemma get_after_set cache k v t d w r :
  ServiceCache.getCachedData (ServiceCache.setCachedData cache w k v t) r k d
  = if r - w <? d then Some v else None.
Proof.
  unfold ServiceCache.getCachedData, ServiceCache.setCachedData.
  rewrite lookup_insert_eq. reflexivity.
Qed.

Lemma set_overwrites cache k v1 v2 t1 t2 w1 w2 :
  ServiceCache.setCachedData (ServiceCache.setCachedData cache w1 k v1 t1)
    w2 k v2 t2
  = ServiceCache.setCachedData cache w2 k v2 t2.
Proof. unfold ServiceCache.setCachedData. apply insert_insert_eq. Qed.

Lemma set_ignores_ttl cache k v t t' w :
  ServiceCache.setCachedData cache w k v t
  = ServiceCache.setCachedData cache w k v t'.
Proof. reflexivity. Qed.
End CacheLaws.

(** C5 (as the code has it). A value written under [k] at time [w] is
    returned by a read at time [r] exactly when [r - w] is below the duration
    given to that read; the ttl given to the write is not stored; a second
    write under the same key replaces the first, so the read then returns
    the second value under the same condition. *)
Theorem C5_cache_read_after_write :
  forall (A : Type) (cache : gmap string (ServiceCache.Entry A))
         (k : string) (v v' : A) (t t' d w w' r : Z),
    ServiceCache.getCachedData (ServiceCache.setCachedData cache w k v t) r k d
    = (if r - w <? d then Some v else None)
    /\ ServiceCache.setCachedData cache w k v t
       = ServiceCache.setCachedData cache w k v t'
    /\ ServiceCache.getCachedData
         (ServiceCache.setCachedData
            (ServiceCache.setCachedData cache w k v t) w' k v' t) r k d
       = (if r - w' <? d then Some v' else None).
Proof.
  intros. split; [apply get_after_set|]. split; [reflexivity|].
  rewrite set_overwrites. apply get_after_set.
Qed.

(** C5, refuted as stated. A value written with a ttl of fifteen minutes is
    still returned fifteen minutes later by the enhanced service's read,
    whose duration is its default of a day; and with a ttl of zero given to
    both the write and the read, the read that follows the write at once is
    a miss. *)
Lemma C5_counterexample :
  ~ (forall (cache : gmap string (ServiceCache.Entry string))
            (k v : string) (t w r : Z),
        t <= r - w ->
        ServiceCache.getCachedData
          (ServiceCache.setCachedData cache w k v t) r k
          ServiceCache.DEFAULT_DURATION = None)
  /\ ~ (forall (cache : gmap string (ServiceCache.Entry string))
               (k v : string) (t w : Z),
           ServiceCache.getCachedData
             (ServiceCache.setCachedData cache w k v t) w k t = Some v).
Proof.
  split; intros H.
  - specialize (H ∅ "forest_alerts_combined" "alerts"
                  ApiConfig.CACHE_DURATIONS.FIRE_DATA 0
                  ApiConfig.CACHE_DURATIONS.FIRE_DATA).
    rewrite get_after_set in H.
    assert (E : (ApiConfig.CACHE_DURATIONS.FIRE_DATA - 0
                 <? ServiceCache.DEFAULT_DURATION) = true) by reflexivity.
    rewrite E in H. discriminate H. unfold ApiConfig.CACHE_DURATIONS.FIRE_DATA.
    lia.
  - specialize (H ∅ "forest_alerts_combined" "alerts" 0 0).
    rewrite get_after_set in H. discriminate H.
Qed.

(** ** Confidence of the records *)

Lemma parseFireLine_confidence w raw a :
  Worker.parseFireLine w raw = Some a ->
  a_confidence a = parseFloat (nth 8 (split "," (trim raw)) "")
  /\ a_severity a
     = Worker.calculateFireSeverity
         (parseFloat (nth 11 (split "," (trim raw)) "")) (a_confidence a).
Proof.
  unfold Worker.parseFireLine.
  destruct (String.eqb (trim raw) ""); [discriminate|].
  destruct (13 <=? length (split "," (trim raw)))%nat; [|discriminate].
  intros [= <-]. split; reflexivity.
Qed.

Lemma parseFireCsvData_confidence w csvData a :
  a ∈ Worker.parseFireCsvData w csvData ->
  exists raw, raw ∈ split Worker.newline csvData
              /\ a_confidence a = parseFloat (nth 8 (split "," (trim raw)) "").
Proof.
  unfold Worker.parseFireCsvData. intros Ha.
  apply list_elem_of_omap in Ha. destruct Ha as (raw & Hraw & Hp).
  exists raw. split.
  - eapply subseteq_drop, subseteq_take, Hraw.
  - now apply parseFireLine_confidence in Hp.
Qed.

Lemma parseGladAlert_confidence w i alert st :
  exists a st',
    Worker.parseGladAlert w i alert st = (Ret a, st')
    /\ a_confidence a = or_num (g_confidence alert) (of_Z 85)
    /\ Worker.cache st' = Worker.cache st
    /\ Worker.calls st' = Worker.calls st.
Proof.
  unfold Worker.parseGladAlert, Worker.or_random.
  destruct (Worker.or_opt_num (g_lat alert) None),
    (Worker.or_opt_num (g_lng alert) None);
    cbn; do 2 eexists; (split; [reflexivity|]); cbn; auto.
Qed.

Lemma parseGladItems_confidence w items : forall i st,
  exists out st',
    Worker.parseGladItems w i items st = (Ret out, st')
    /\ Forall2 (fun alert a =>
                  a_confidence a = or_num (g_confidence alert) (of_Z 85))
         items out
    /\ Worker.cache st' = Worker.cache st
    /\ Worker.calls st' = Worker.calls st.
Proof.
  induction items as [|alert rest IH]; intros i st.
  - exists [], st. cbn. auto.
  - destruct (parseGladAlert_confidence w i alert st) as (a & st1 & E1 & Ha & Hc1 & Hl1).
    destruct (IH (S i) st1) as (out & st2 & E2 & Hout & Hc2 & Hl2).
    exists (a :: out), st2. cbn. unfold mbind, SE_bind.
    rewrite E1. cbn. unfold mbind, SE_bind. rewrite E2. cbn.
    repeat split; [constructor; assumption | congruence | congruence].
Qed.

(** ** Requests without coordinates *)

Lemma handleWeather_missing w u env st :
  Worker.get u "lat" = None \/ Worker.get u "lng" = None ->
  Worker.handleWeather w u env st
  = (Ret (Worker.json_error "Latitude and longitude required" 400), st).
Proof.
  unfold Worker.handleWeather. intros [-> | ->]; cbn.
  - reflexivity.
  - rewrite orb_true_r. reflexivity.
Qed.

Lemma handleSatelliteData_missing w u st :
  Worker.get u "lat" = None \/ Worker.get u "lng" = None ->
  Worker.handleSatelliteData w u st
  = (Ret (Worker.json_error "Latitude and longitude required" 400), st).
Proof.
  unfold Worker.handleSatelliteData. intros [-> | ->]; cbn.
  - reflexivity.
  - rewrite orb_true_r. reflexivity.
Qed.

(** C10 (as the code has it). When [lat] or [lng] is absent from the query,
    the weather and the satellite-data handlers answer status 400 with
    [{success: false, error: "Latitude and longitude required"}] and leave the
    state as it was (no upstream call logged, no cache entry written); so
    does the worker for every request whose path routes to one of the two
    endpoints, unless its method is [OPTIONS]: a preflight is answered
    200 [ok] before the path is looked at, the state left as it was. *)
Theorem C10_missing_coordinates :
  forall (fuel : nat) (w : World) (env : Worker.Env) (st : Worker.WState)
         (request : Worker.Request),
    Worker.get (Worker.url request) "lat" = None
    \/ Worker.get (Worker.url request) "lng" = None ->
    let bad_request :=
      {| Worker.status := 400;
         Worker.body :=
           Worker.BodyJson
             {| Worker.success := false; Worker.data := None;
                Worker.source := None;
                Worker.error := Some "Latitude and longitude required" |} |}
    in
    Worker.handleWeather w (Worker.url request) env st = (Ret bad_request, st)
    /\ Worker.handleSatelliteData w (Worker.url request) st
       = (Ret bad_request, st)
    /\ (Worker.method request <> "OPTIONS" ->
        Worker.route_path (Worker.url request) = "/weather"
        \/ Worker.route_path (Worker.url request) = "/satellite-data" ->
        Worker.fetch fuel w request env st = (Ret bad_request, st))
    /\ (Worker.method request = "OPTIONS" ->
        Worker.fetch fuel w request env st
        = (Ret {| Worker.status := 200; Worker.body := Worker.BodyText "ok" |},
           st)).
Proof.
  intros fuel w env st request Hmiss bad.
  split; [now apply handleWeather_missing|].
  split; [now apply handleSatelliteData_missing|].
  split.
  - intros Hm Hpath. unfold Worker.fetch.
    apply String.eqb_neq in Hm. rewrite Hm. cbv zeta.
    destruct Hpath as [-> | ->]; cbn [String.eqb Ascii.eqb Bool.eqb].
    + now rewrite handleWeather_missing.
    + now rewrite handleSatelliteData_missing.
  - intros Hm. unfold Worker.fetch. rewrite Hm. reflexivity.
Qed.

(** An instance of [C10_missing_coordinates]: [GET /api/weather?lng=10]. *)
Lemma C10_missing_coordinates_witness :
  Worker.fetch 0 (Examples.offline 0)
    (Examples.GET "/api/weather" [("lng", "10")]) Examples.no_keys
    Worker.empty_state
  = (Ret (Worker.json_error "Latitude and longitude required" 400),
     Worker.empty_state).
Proof.
  apply (C10_missing_coordinates 0 (Examples.offline 0) Examples.no_keys
           Worker.empty_state (Examples.GET "/api/weather" [("lng", "10")])).
  - left. reflexivity.
  - discriminate.
  - left. reflexivity.
Defined.

(** C10, refuted for every request: a preflight to [/api/weather] without
    [lat] routes to the weather endpoint and lacks a coordinate, yet the
    worker answers it 200 with the text [ok], not the 400 answer. *)
Lemma C10_counterexample :
  let request :=
    {| Worker.method := "OPTIONS";
       Worker.url := {| Worker.pathname := "/api/weather";
                        Worker.searchParams := [("lng", "10")] |};
       Worker.authorization := None |} in
  Worker.get (Worker.url request) "lat" = None
  /\ Worker.route_path (Worker.url request) = "/weather"
  /\ Worker.fetch 0 (Examples.offline 0) request Examples.no_keys
       Worker.empty_state
     = (Ret {| Worker.status := 200; Worker.body := Worker.BodyText "ok" |},
        Worker.empty_state)
  /\ Worker.fetch 0 (Examples.offline 0) request Examples.no_keys
       Worker.empty_state
     <> (Ret (Worker.json_error "Latitude and longitude required" 400),
         Worker.empty_state).
Proof.
  intros request. split; [reflexivity|]. split; [reflexivity|].
  split; [reflexivity|]. discriminate.
Qed.

(** ** The biodiversity backfill loop *)

(** One element at most is taken by [slice(n, n + 1)], none past the end. *)
Lemma slice_one_length {A} (l : list A) (n : nat) :
  (length (slice l (Some (Z.of_nat n)) (Some (Z.of_nat n + 1)%Z)) <= 1)%nat
  /\ ((length l <= n)%nat ->
      slice l (Some (Z.of_nat n)) (Some (Z.of_nat n + 1)) = []).
Proof.
  unfold slice, rel_index.
  destruct (Z.of_nat n <? 0) eqn:E1; [apply Z.ltb_lt in E1; lia|].
  destruct (Z.of_nat n + 1 <? 0) eqn:E2; [apply Z.ltb_lt in E2; lia|].
  rewrite Nat2Z.id. replace (Z.to_nat (Z.of_nat n + 1)) with (S n) by lia.
  split.
  - rewrite length_take. lia.
  - intros Hle. replace (S n `min` length l - n `min` length l)%nat
      with 0%nat by lia. reflexivity.
Qed.

Lemma length_lt_mono n m bound :
  (n <= m)%nat -> length_lt m bound = true -> length_lt n bound = true.
Proof.
  unfold length_lt. destruct bound; [|discriminate].
  intros Hle H. apply Z.ltb_lt in H. apply Z.ltb_lt. lia.
Qed.

(** With mocks allowed the loop cannot leave once the list is shorter than
    its bound and the bound exceeds the two records the generator has. *)
Lemma backfill_diverges w limit : forall fuel results,
  length_lt (Nat.max 2 (length results))
            (int_min limit (Z.of_nat (length Worker.speciesQueries))) = true ->
  Worker.backfill fuel w false limit results = None.
Proof.
  induction fuel as [|fuel IH]; intros results Hlt; [reflexivity|].
  cbn [Worker.backfill].
  rewrite (length_lt_mono (length results) _ _ (Nat.le_max_r _ _) Hlt).
  apply IH.
  destruct (slice_one_length (Worker.generateMockBiodiversityData w)
              (length results)) as [H1 H0].
  eapply length_lt_mono; [|exact Hlt].
  rewrite length_app.
  destruct (le_lt_dec 2 (length results)) as [Hge | Hsmall].
  - rewrite H0 by exact Hge. cbn. lia.
  - lia.
Qed.

(** With mocks vetoed, or once the bound is reached, the loop exits at its
    first test and leaves the list as it is. *)
Lemma backfill_exits w noMock limit fuel results :
  noMock = true
  \/ length_lt (length results)
               (int_min limit (Z.of_nat (length Worker.speciesQueries))) = false ->
  Worker.backfill (S fuel) w noMock limit results = Some results.
Proof.
  cbn [Worker.backfill]. intros [-> | ->]; [|reflexivity].
  now destruct (length_lt _ _).
Qed.

Lemma handleBiodiversity_diverges fuel w u st live st1 :
  Worker.cache st
    !! ("https://cache.biodiversity/"
        +:+ or_str (Worker.get u "region") "global" +:+ "/"
        +:+ int_to_string (parseInt (or_str (Worker.get u "limit") "20")))
  = None ->
  Worker.no_mock u = false ->
  Worker.collectSpecies w Worker.speciesQueries [] st = (Ret live, st1) ->
  length_lt (Nat.max 2 (length live))
    (int_min (parseInt (or_str (Worker.get u "limit") "20"))
             (Z.of_nat (length Worker.speciesQueries))) = true ->
  Worker.handleBiodiversity fuel w u st = (Diverge, st1).
Proof.
  intros Hmiss Hnm Hlive Hlt.
  unfold Worker.handleBiodiversity, Worker.cache_match.
  unfold mbind at 1, SE_bind at 1. rewrite Hmiss.
  unfold mbind at 1, SE_bind at 1. rewrite Hlive, Hnm.
  rewrite backfill_diverges by exact Hlt. reflexivity.
Qed.

(** C1, at the failing input. With mocks allowed, a cold cache and all five
    GBIF searches failing, [GET /biodiversity] (limit 20 by default) does not
    return, whatever the fuel: the backfill loop stops growing the list at
    the two records of the mock generator, below its bound of five. *)
Theorem C1_biodiversity_handler_diverges :
  forall (fuel : nat) (t : Z) (env : Worker.Env),
    (Worker.fetch fuel (Examples.offline t) (Examples.GET "/biodiversity" [])
       env Worker.empty_state).1 = Diverge.
Proof.
  intros fuel t env. unfold Worker.fetch.
  cbn [Worker.method Examples.GET String.eqb Ascii.eqb Bool.eqb].
  change (Worker.route_path (Worker.url (Examples.GET "/biodiversity" [])))
    with "/biodiversity".
  cbn [String.eqb Ascii.eqb Bool.eqb].
  erewrite handleBiodiversity_diverges; [reflexivity| | | |].
  - reflexivity.
  - reflexivity.
  - vm_compute. reflexivity.
  - reflexivity.
Qed.

(** C2, at the failing input. Five species requested, two live successes and
    three failures: with mocks allowed the handler does not return, whatever
    the fuel; with [no_mock=1] it returns exactly the two live records. *)
Theorem C2_backfill_two_of_five :
  forall (fuel : nat) (env : Worker.Env),
    (Worker.fetch fuel (Examples.two_live 0)
       (Examples.GET "/biodiversity" [("limit", "5")]) env
       Worker.empty_state).1 = Diverge
    /\ exists live,
        (Worker.fetch (S fuel) (Examples.two_live 0)
           (Examples.GET "/biodiversity" [("limit", "5"); ("no_mock", "1")])
           env Worker.empty_state).1
        = Ret (Worker.json_ok (Worker.DSpecies live) "mock" None)
        /\ length live = 2%nat.
Proof.
  intros fuel env. split.
  - unfold Worker.fetch.
    cbn [Worker.method Examples.GET String.eqb Ascii.eqb Bool.eqb].
    change (Worker.route_path
              (Worker.url (Examples.GET "/biodiversity" [("limit", "5")])))
      with "/biodiversity".
    cbn [String.eqb Ascii.eqb Bool.eqb].
    erewrite handleBiodiversity_diverges; [reflexivity| | | |].
    + reflexivity.
    + reflexivity.
    + vm_compute. reflexivity.
    + reflexivity.
  - let live :=
      eval vm_compute in
        (Examples.species_of
           (Worker.fetch 1 (Examples.two_live 0)
              (Examples.GET "/biodiversity" [("limit", "5"); ("no_mock", "1")])
              Examples.no_keys Worker.empty_state).1) in
    exists live.
    split; vm_compute; reflexivity.
Qed.

(** ** Live-only mode and the forest-regions endpoint *)

(** C3, at the failing input. [GET /forest-regions?no_mock=1] on a cold
    cache: the flag is set, and the worker still answers status 200 with the
    two generated region records, source [server-generated], and caches the
    answer; no upstream is consulted. *)
Theorem C3_forest_regions_ignore_no_mock :
  forall (fuel : nat) (w : World) (env : Worker.Env),
    let request := Examples.GET "/forest-regions" [("no_mock", "1")] in
    let answer :=
      Worker.json_ok (Worker.DRegions (Worker.generateEnhancedForestRegions w))
        "server-generated" None in
    Worker.no_mock (Worker.url request) = true
    /\ Worker.fetch fuel w request env Worker.empty_state
       = (Ret answer,
          {| Worker.cache := {[ "https://cache.forest-regions" := answer ]};
             Worker.calls := [];
             Worker.rand_next := 0 |})
    /\ Worker.status answer = 200
    /\ length (Worker.generateEnhancedForestRegions w) = 2%nat.
Proof.
  intros fuel w env request answer.
  split; [reflexivity|]. split; [|split; reflexivity].
  unfold Worker.fetch.
  cbn [Worker.method request Examples.GET String.eqb Ascii.eqb Bool.eqb].
  change (Worker.route_path (Worker.url request)) with "/forest-regions".
  cbn [String.eqb Ascii.eqb Bool.eqb].
  unfold Worker.handleForestRegions, Worker.cache_match, Worker.cache_put.
  unfold mbind, SE_bind, mret, SE_ret.
  change (Worker.cache Worker.empty_state !! _) with (@None Worker.Response).
  cbv beta iota. reflexivity.
Qed.

(** ** Order of the routes *)

Section TraceLanguages.
Import Services Chains.

Lemma silent_ret {A} (a : A) : silent (mret a : C A).
Proof. intros st. reflexivity. Qed.

Lemma silent_throw {A} e : silent (throw e : C A).
Proof. intros st. reflexivity. Qed.

Lemma silent_bind {A B} (m : C A) (f : A -> C B) :
  silent m -> (forall a, silent (f a)) -> silent (m ≫= f).
Proof.
  intros Hm Hf st. specialize (Hm st). unfold mbind, SE_bind.
  destruct (m st) as [[a| |] st1]; cbn in *; [|assumption..].
  now rewrite Hf.
Qed.

Lemma silent_random c : silent (Math_random c).
Proof. intros st. reflexivity. Qed.

Lemma silent_emits {A} (m : C A) : silent m -> emits [[]] m.
Proof.
  intros H st. exists []. rewrite H, app_nil_r. split; [reflexivity|].
  apply list_elem_of_here.
Qed.

Lemma emits_weaken {A} (S S' : lang) (m : C A) :
  (forall l, l ∈ S -> l ∈ S') -> emits S m -> emits S' m.
Proof.
  intros Hsub H st. destruct (H st) as (l & E & Hl). exists l. auto.
Qed.

Lemma elem_of_lang_seq_l (S1 S2 : lang) l : l ∈ S1 -> l ∈ lang_seq S1 S2.
Proof.
  intros H. unfold lang_seq. rewrite elem_of_remove_dups, elem_of_app. auto.
Qed.

Lemma elem_of_lang_seq (S1 S2 : lang) l1 l2 :
  l1 ∈ S1 -> l2 ∈ S2 -> (l1 ++ l2)%list ∈ lang_seq S1 S2.
Proof.
  intros H1 H2. unfold lang_seq.
  rewrite elem_of_remove_dups, elem_of_app. right.
  rewrite list_elem_of_In. apply in_flat_map. exists l1.
  split; [now apply list_elem_of_In|].
  apply in_map. now apply list_elem_of_In.
Qed.

Lemma emits_ret {A} (a : A) : emits [[]] (mret a : C A).
Proof. apply silent_emits, silent_ret. Qed.

Lemma emits_throw {A} e : emits [[]] (throw e : C A).
Proof. apply silent_emits, silent_throw. Qed.

Lemma emits_log e : emits [[label_of e]] (log e).
Proof.
  intros st. exists [e]. split; [reflexivity|]. apply list_elem_of_here.
Qed.

Lemma emits_bind {A B} (S1 S2 : lang) (m : C A) (f : A -> C B) :
  emits S1 m -> (forall a, emits S2 (f a)) -> emits (lang_seq S1 S2) (m ≫= f).
Proof.
  intros Hm Hf st. destruct (Hm st) as (l1 & E1 & H1).
  unfold mbind, SE_bind.
  destruct (m st) as [[a| |] st1]; cbn in *.
  - destruct (Hf a st1) as (l2 & E2 & H2). exists (l1 ++ l2)%list.
    rewrite E2, E1, app_assoc. split; [reflexivity|].
    rewrite fmap_app. now apply elem_of_lang_seq.
  - exists l1. split; [assumption|]. now apply elem_of_lang_seq_l.
  - exists l1. split; [assumption|]. now apply elem_of_lang_seq_l.
Qed.

Lemma emits_try {A} (S1 S2 : lang) (body : C A) (handler : string -> C A) :
  emits S1 body -> (forall e, emits S2 (handler e)) ->
  emits (lang_seq S1 S2) (try_catch body handler).
Proof.
  intros Hm Hf st. destruct (Hm st) as (l1 & E1 & H1).
  unfold try_catch.
  destruct (body st) as [[a|e|] st1]; cbn in *.
  - exists l1. split; [assumption|]. now apply elem_of_lang_seq_l.
  - destruct (Hf e st1) as (l2 & E2 & H2). exists (l1 ++ l2)%list.
    rewrite E2, E1, app_assoc. split; [reflexivity|].
    rewrite fmap_app. now apply elem_of_lang_seq.
  - exists l1. split; [assumption|]. now apply elem_of_lang_seq_l.
Qed.

Lemma emits_if {A} (S1 S2 : lang) (b : bool) (m1 m2 : C A) :
  emits S1 m1 -> emits S2 m2 -> emits (S1 ++ S2)%list (if b then m1 else m2).
Proof.
  intros H1 H2.
  destruct b; [eapply emits_weaken; [|exact H1]
              | eapply emits_weaken; [|exact H2]];
    intros l Hl; apply elem_of_app; auto.
Qed.

Lemma emits_option {A B} (S1 S2 : lang) (o : option B) (f : B -> C A)
      (g : C A) :
  (forall b, emits S1 (f b)) -> emits S2 g ->
  emits (S1 ++ S2)%list (match o with Some b => f b | None => g end).
Proof.
  intros H1 H2.
  destruct o; [eapply emits_weaken; [|apply H1]
              | eapply emits_weaken; [|exact H2]];
    intros l Hl; apply elem_of_app; auto.
Qed.

Lemma emits_do_fetch {A} e (r : FetchResult A) :
  emits [[label_of e]] (do_fetch e r).
Proof.
  intros st. exists [e]. split; [|apply list_elem_of_here].
  unfold do_fetch, mbind, SE_bind. cbn. now destruct r.
Qed.

Lemma emits_json {A} (b : option A) : emits [[]] (json b).
Proof. destruct b; [apply emits_ret | apply emits_throw]. Qed.

Lemma emits_mock {A} g (l : A) : emits [[label_of (EvMock g)]] (mock g l).
Proof.
  intros st. exists [EvMock g]. split; [reflexivity|].
  apply list_elem_of_here.
Qed.

Lemma emits_spread {A} (x : Payload A) : emits [[]] (spread x).
Proof. destruct x; [apply emits_ret | apply emits_throw]. Qed.

Lemma emits_proxy_json {A B} (S1 S2 : lang) (j : ProxyJson A) (m : C B)
      (f : ServerApiResponse A -> C B) :
  emits S1 m -> (forall r, emits S2 (f r)) ->
  emits (S1 ++ S2)%list (match j with JNull => m | JObject r => f r end).
Proof.
  intros H1 H2.
  destruct j; [eapply emits_weaken; [|exact H1]
              | eapply emits_weaken; [|apply H2]];
    intros l Hl; apply elem_of_app; auto.
Qed.

(** One step of the computation of a trace language, by the shape of the
    program. *)
Ltac emits_step :=
  lazymatch goal with
  | |- emits _ (mret _) => eapply emits_ret
  | |- emits _ (throw _) => eapply emits_throw
  | |- emits _ (log _) => eapply emits_log
  | |- emits _ (mock _ _) => eapply emits_mock
  | |- emits _ (spread _) => eapply emits_spread
  | |- emits _ (do_fetch _ _) => eapply emits_do_fetch
  | |- emits _ (json _) => eapply emits_json
  | |- emits _ (mbind _ _) => eapply emits_bind; [|intros ?]
  | |- emits _ (try_catch _ _) => eapply emits_try; [|intros ?]
  | |- emits _ (if _ then _ else _) => eapply emits_if
  | |- emits _ (match ?o with Some _ => _ | None => _ end) =>
      eapply emits_option; [intros ?|]
  | |- emits _ (match ?j with JNull => _ | JObject _ => _ end) =>
      eapply emits_proxy_json; [|intros ?]
  | |- emits _ (let '(_, _) := ?p in _) => destruct p
  end.

Lemma silent_or_random c x k m : silent (Enhanced.or_random c x k m).
Proof.
  unfold Enhanced.or_random. destruct (Worker.or_opt_num x None).
  - apply silent_ret.
  - apply silent_bind; [apply silent_random | intros; apply silent_ret].
Qed.

Lemma silent_parseGladItems c items : forall i,
  silent (Enhanced.parseGladItems c i items).
Proof.
  induction items as [|alert rest IH]; intros i; cbn.
  - apply silent_ret.
  - apply silent_bind.
    + unfold Enhanced.parseGladAlert.
      repeat (apply silent_bind; [apply silent_or_random | intros ?]).
      apply silent_ret.
    + intros a. apply silent_bind; [apply IH | intros; apply silent_ret].
Qed.

Lemma silent_parseForestLossEntries c entries : forall i,
  silent (Enhanced.parseForestLossEntries c i entries).
Proof.
  induction entries as [|[year loss] rest IH]; intros i; cbn.
  - apply silent_ret.
  - apply silent_bind.
    + destruct (_ && _); [|apply silent_ret].
      destruct (parseDate _ _); [|apply silent_throw].
      repeat (apply silent_bind; [apply silent_random | intros ?]).
      apply silent_ret.
    + intros a. apply silent_bind; [apply IH | intros; apply silent_ret].
Qed.

Lemma emits_parseGladAlertsData c items :
  emits [[]] (Enhanced.parseGladAlertsData c items).
Proof. apply silent_emits, silent_parseGladItems. Qed.

Lemma emits_parseForestLossData c d :
  emits [[]] (Enhanced.parseForestLossData c d).
Proof.
  apply silent_emits. destruct d; [apply silent_parseForestLossEntries|].
  apply silent_ret.
Qed.

Lemma emits_server_getCachedData {A} (f : Family A) c key d :
  emits [[]] (ServerSide.getCachedData f c key d).
Proof. apply silent_emits. intros st. reflexivity. Qed.

Lemma emits_server_setCachedData c key v d :
  emits [[]] (ServerSide.setCachedData alert_entries c key v d).
Proof. apply silent_emits. intros st. reflexivity. Qed.

Lemma emits_enhanced_getCachedData c key d :
  emits [[]] (Enhanced.getCachedData c key d).
Proof. apply silent_emits. intros st. reflexivity. Qed.

Lemma emits_enhanced_setCachedData c key v d :
  emits [[]] (Enhanced.setCachedData c key v d).
Proof. apply silent_emits. intros st. reflexivity. Qed.

Lemma emits_data_length {A} (r : ServerApiResponse A) :
  emits [[]] (ServerSide.data_length r).
Proof.
  unfold ServerSide.data_length.
  destruct (data r); [apply emits_ret | apply emits_throw].
Qed.

Lemma silent_spread {A} (x : Payload A) : silent (spread x).
Proof. destruct x; [apply silent_ret | apply silent_throw]. Qed.

Lemma emits_add_settled alerts r : emits [[]] (ServerSide.add_settled alerts r).
Proof.
  apply silent_emits. unfold ServerSide.add_settled.
  destruct r as [e | [| v]]; [apply silent_ret | apply silent_throw |].
  destruct (falsy_str (error v)); [|apply silent_ret].
  destruct (success v); [|apply silent_ret].
  destruct (if_cached (data v)) as [d|]; [|apply silent_ret].
  apply silent_bind; [apply silent_spread | intros; apply silent_ret].
Qed.

Ltac emits_known :=
  lazymatch goal with
  | |- emits _ (ServerSide.getCachedData _ _ _ _) =>
      eapply emits_server_getCachedData
  | |- emits _ (ServerSide.setCachedData _ _ _ _ _) =>
      eapply emits_server_setCachedData
  | |- emits _ (Enhanced.getCachedData _ _ _) =>
      eapply emits_enhanced_getCachedData
  | |- emits _ (Enhanced.setCachedData _ _ _ _) =>
      eapply emits_enhanced_setCachedData
  | |- emits _ (ServerSide.data_length _) => eapply emits_data_length
  | |- emits _ (ServerSide.add_settled _ _) => eapply emits_add_settled
  | |- emits _ (Enhanced.parseGladAlertsData _ _) =>
      eapply emits_parseGladAlertsData
  | |- emits _ (Enhanced.parseForestLossData _ _) =>
      eapply emits_parseForestLossData
  | _ => emits_step
  end.

Lemma emits_checkServerHealth c :
  emits [[label_of (EvWorker EpHealth [])]] (ServerSide.checkServerHealth c).
Proof.
  intros st. exists [EvWorker EpHealth []]. split; [reflexivity|].
  apply list_elem_of_here.
Qed.

(** *** Computations that end, and computations that return *)

Lemma halts_ret {A} (a : A) : halts (mret a : C A).
Proof. intros st. discriminate. Qed.

Lemma halts_throw {A} e : halts (throw e : C A).
Proof. intros st. discriminate. Qed.

Lemma halts_bind {A B} (m : C A) (f : A -> C B) :
  halts m -> (forall a, halts (f a)) -> halts (m ≫= f).
Proof.
  intros Hm Hf st. specialize (Hm st). unfold mbind, SE_bind.
  destruct (m st) as [[a | e |] st1]; cbn in *;
    [apply Hf | discriminate | congruence].
Qed.

Lemma halts_try {A} (body : C A) handler :
  halts body -> (forall e, halts (handler e)) -> halts (try_catch body handler).
Proof.
  intros Hm Hh st. specialize (Hm st). unfold try_catch.
  destruct (body st) as [[a | e |] st1]; cbn in *;
    [discriminate | apply Hh | congruence].
Qed.

Lemma returns_halts {A} (m : C A) : returns m -> halts m.
Proof. intros H st. destruct (H st) as (a & ->). discriminate. Qed.

Lemma halts_settle {A} (m : C A) : halts m -> halts (settle m).
Proof.
  intros H. unfold settle. apply halts_try.
  - apply halts_bind; [exact H | intros; apply halts_ret].
  - intros e. apply halts_ret.
Qed.

Lemma halts_call_worker c ep q : halts (ServerSide.call_worker c ep q).
Proof.
  intros st. unfold ServerSide.call_worker, do_fetch, log, json.
  unfold mbind, SE_bind. cbn.
  destruct (worker c ep q) as [msg | s [b|]]; cbn; discriminate.
Qed.

Lemma halts_add_settled alerts r : halts (ServerSide.add_settled alerts r).
Proof.
  intros st. unfold ServerSide.add_settled, spread.
  destruct r as [e | [| v]]; cbn; try discriminate.
  destruct (falsy_str (error v)), (success v); cbn; try discriminate.
  destruct (data v) as [[l|[]]|]; cbn; discriminate.
Qed.

Lemma returns_ret {A} (a : A) : returns (mret a : C A).
Proof. intros st. now exists a. Qed.

Lemma returns_bind {A B} (m : C A) (f : A -> C B) :
  returns m -> (forall a, returns (f a)) -> returns (m ≫= f).
Proof.
  intros Hm Hf st. destruct (Hm st) as (a & Ha).
  unfold mbind, SE_bind. destruct (m st) as [o st1]. cbn in Ha. subst o.
  apply Hf.
Qed.

(** A [try] whose handler returns, returns. *)
Lemma returns_try {A} (body : C A) handler :
  halts body -> (forall e, returns (handler e)) ->
  returns (try_catch body handler).
Proof.
  intros Hm Hh st. specialize (Hm st). unfold try_catch.
  destruct (body st) as [[a | e |] st1]; cbn in *;
    [now exists a | apply Hh | congruence].
Qed.

Lemma returns_if {A} (b : bool) (m1 m2 : C A) :
  returns m1 -> returns m2 -> returns (if b then m1 else m2).
Proof. now destruct b. Qed.

Lemma returns_mock {A} g (l : A) : returns (mock g l).
Proof. intros st. now exists l. Qed.

Lemma returns_server_setCachedData c key v d :
  returns (ServerSide.setCachedData alert_entries c key v d).
Proof. intros st. now exists tt. Qed.

(** With mocks allowed the proxy client's [getForestAlerts] returns: what
    its [try] throws, its handler answers with the mock list. *)
Lemma returns_server_getForestAlerts c :
  noMock (config c) = false -> returns (ServerSide.getForestAlerts c).
Proof.
  intros Hnm. unfold ServerSide.getForestAlerts, isNoMockEnabled.
  rewrite Hnm. cbn [negb].
  apply returns_bind; [intros st; eexists; reflexivity|].
  intros cached. destruct (if_cached cached) as [x|]; [apply returns_ret|].
  apply returns_try.
  - repeat (apply halts_bind;
            [apply halts_settle, halts_call_worker | intros ?]).
    repeat (apply halts_bind; [apply halts_add_settled | intros ?]).
    apply returns_halts.
    repeat first
      [ apply returns_if | apply returns_ret | apply returns_mock
      | apply returns_server_setCachedData
      | apply returns_bind; [|intros ?] ].
  - intros e.
    apply returns_bind; [apply returns_mock | intros; apply returns_ret].
Qed.

(** *** The server-first step of [getForestAlerts] *)

(** With mocks allowed: either the proxy client supplied the alerts, and
    the facade is done, or only the health check was tried. *)
Lemma server_first_spec c (S : lang) st :
  noMock (config c) = false ->
  emits S (ServerSide.getForestAlerts c) ->
  let m : C (option Alerts) :=
    try_catch
      (healthy ← ServerSide.checkServerHealth c;
       if (healthy : bool)
       then x ← ServerSide.getForestAlerts c; mret (Some x)
       else (mret None : C (option Alerts)))
      (fun _ => mret None) in
  exists l,
    trace (m st).2 = (trace st ++ l)%list
    /\ ((exists x, (m st).1 = Ret (Some x))
        /\ (label_of <$> l) ∈ lang_seq [[label_of (EvWorker EpHealth [])]] S
        \/ (m st).1 = Ret None
           /\ (label_of <$> l) ∈ [[label_of (EvWorker EpHealth [])]]).
Proof.
  intros Hnm HS m. subst m.
  unfold try_catch, ServerSide.checkServerHealth, log.
  unfold mbind at 1, SE_bind at 1. cbn.
  destruct (health_ok c).
  - unfold mbind, SE_bind.
    remember {| enhanced_cache := enhanced_cache st;
                server_cache := server_cache st;
                regions_cache := regions_cache st;
                species_cache := species_cache st;
                weather_cache := weather_cache st;
                trace := (trace st ++ [EvWorker EpHealth []])%list;
                rand_next := rand_next st |} as st1 eqn:Hst1.
    destruct (HS st1) as (l' & E & Hl').
    destruct (returns_server_getForestAlerts c Hnm st1) as (x & Hx).
    destruct (ServerSide.getForestAlerts c st1) as [o st2] eqn:EG.
    cbn in E, Hx. subst o. cbn. rewrite EG. cbn.
    exists (EvWorker EpHealth [] :: l'). split.
    + rewrite E, Hst1. cbn. now rewrite <- app_assoc.
    + left. split; [eauto|].
      change (label_of <$> EvWorker EpHealth [] :: l')
        with ([label_of (EvWorker EpHealth [])] ++ (label_of <$> l'))%list.
      apply elem_of_lang_seq; [apply list_elem_of_here | assumption].
  - cbn. exists [EvWorker EpHealth []]. split; [reflexivity|].
    right. split; [reflexivity | apply list_elem_of_here].
Qed.

Lemma emits_bind_option {A B} (S1 S0 S2 : lang) (m : C (option A))
      (f : option A -> C B) :
  (forall st, exists l,
      trace (m st).2 = (trace st ++ l)%list
      /\ ((exists x, (m st).1 = Ret (Some x)) /\ (label_of <$> l) ∈ S1
          \/ (m st).1 = Ret None /\ (label_of <$> l) ∈ S0)) ->
  (forall x, silent (f (Some x))) ->
  emits S2 (f None) ->
  emits (S1 ++ lang_seq S0 S2)%list (m ≫= f).
Proof.
  intros Hm Hsome Hnone st.
  destruct (Hm st) as (l & E & [[[x Hx] Hl] | [Hx Hl]]);
    unfold mbind, SE_bind; destruct (m st) as [o st1]; cbn in *; subst o.
  - exists l. rewrite Hsome. split; [assumption|].
    apply elem_of_app. now left.
  - destruct (Hnone st1) as (l2 & E2 & Hl2). exists (l ++ l2)%list.
    rewrite E2, E, app_assoc. split; [reflexivity|].
    apply elem_of_app. right. rewrite fmap_app.
    now apply elem_of_lang_seq.
Qed.

(** The sequences of labels of the proxy client's [getForestAlerts]. *)
Lemma server_getForestAlerts_lang c :
  exists S, emits S (ServerSide.getForestAlerts c).
Proof.
  eexists. unfold ServerSide.getForestAlerts, ServerSide.call_worker, settle.
  repeat emits_known.
Qed.

Ltac emits_browser_path :=
  unfold Enhanced.getLiveFireAlerts, Enhanced.getLiveDeforestationAlerts,
    ServerSide.getDeforestationAlerts, ServerSide.call_worker;
  cbn [Enhanced.liveFireLoop config nasa_firms noMock isBrowser
       isNoMockEnabled];
  repeat emits_known.

Ltac emits_server_path :=
  unfold ServerSide.getForestAlerts, ServerSide.call_worker, settle,
    ServerSide.checkServerHealth;
  cbn [config noMock isNoMockEnabled negb];
  repeat emits_known.

(** The sequences of labels of [getForestAlerts], each chain in the order
    of the attempts; with mocks allowed no chain holds both kinds of live
    route. *)
Lemma getForestAlerts_lang c :
  exists S, emits S (Enhanced.getForestAlerts c)
            /\ lang_ok (negb (noMock (config c))) S = true.
Proof.
  destruct c as [w [k nm] b h wk gd gl].
  unfold Enhanced.getForestAlerts.
  cbn [config nasa_firms noMock isBrowser isNoMockEnabled].
  destruct (hasApiKey k) eqn:Hk; cbn [negb].
  - destruct nm, b; cbn [negb andb]; eexists;
      (split; [emits_browser_path | vm_compute; reflexivity]).
  - destruct nm.
    + destruct b; cbn [negb andb]; eexists;
        (split;
         [ eapply emits_bind;
           [ emits_server_path
           | intros ?; emits_browser_path ]
         | vm_compute; reflexivity ]).
    + destruct b; cbn [negb andb]; eexists;
        (split;
         [ eapply emits_bind_option;
           [ intros st; eapply server_first_spec; [reflexivity|];
             emits_server_path
           | intros x st; reflexivity
           | emits_browser_path ]
         | vm_compute; reflexivity ]).
Qed.

(** The sequences of labels of [getForestAlerts] in live-only mode: none
    holds a Mock label. *)
Lemma getForestAlerts_live_only_lang c :
  noMock (config c) = true ->
  exists S, emits S (Enhanced.getForestAlerts c) /\ Facade.mock_free S = true.
Proof.
  destruct c as [w [k nm] b h wk gd gl].
  cbn [config noMock]. intros ->.
  unfold Enhanced.getForestAlerts.
  cbn [config nasa_firms noMock isBrowser isNoMockEnabled].
  destruct (hasApiKey k) eqn:Hk; cbn [negb].
  - destruct b; cbn [negb andb]; eexists;
      (split; [emits_browser_path | vm_compute; reflexivity]).
  - destruct b; cbn [negb andb]; eexists;
      (split;
       [ eapply emits_bind;
         [ emits_server_path
         | intros ?; emits_browser_path ]
       | vm_compute; reflexivity ]).
Qed.

(** *** First events *)




















End TraceLanguages.

(** ** Time-to-live classes *)




Lemma chain_labels c t :
  Services.chain c t = Chains.chain_of_labels c (Chains.label_of <$> t).
Proof.
  unfold Services.chain, Chains.chain_of_labels.
  induction t as [|e t IH]; [reflexivity|].
  rewrite fmap_cons. cbn [List.filter]. rewrite filter_cons.
  assert (E : bool_decide (c ∈ (Chains.label_of e).2) = Services.serves e c).
  { unfold Chains.label_of, Chains.categories. cbn [snd].
    destruct (Services.serves e c) eqn:Hs.
    - apply bool_decide_eq_true. apply list_elem_of_In, filter_In.
      split; [|exact Hs]. destruct c; cbn; tauto.
    - apply bool_decide_eq_false. rewrite list_elem_of_In, filter_In.
      intros [_ H]. congruence. }
  rewrite E. destruct (Services.serves e c) eqn:Hs.
  - rewrite decide_True by reflexivity. rewrite !fmap_cons. now rewrite IH.
  - rewrite decide_False by discriminate. exact IH.
Qed.

Lemma sorted_routes_strongly rs :
  Chains.sorted_routes rs = true -> StronglySorted Chains.attempt_le rs.
Proof.
  induction rs as [|a [|b r] IH]; intros H.
  - constructor.
  - repeat constructor.
  - cbn [Chains.sorted_routes] in H. apply andb_true_iff in H as [Hab Hr].
    apply Nat.leb_le in Hab. specialize (IH Hr).
    constructor; [exact IH|].
    constructor; [exact Hab|].
    apply StronglySorted_inv in IH as [_ Hall].
    eapply Forall_impl; [exact Hall|].
    intros x Hx. unfold Chains.attempt_le in *. lia.
Qed.

Lemma chain_ok_spec one_live rs :
  Chains.chain_ok one_live rs = true ->
  StronglySorted Chains.attempt_le rs
  /\ (one_live = true -> ~ (Services.Direct ∈ rs /\ Services.Proxy ∈ rs)).
Proof.
  unfold Chains.chain_ok. intros H.
  apply andb_true_iff in H as [Hs Hx]. split.
  - now apply sorted_routes_strongly.
  - intros -> [Hd Hp]. cbn [negb orb] in Hx.
    apply negb_true_iff, andb_false_iff in Hx.
    destruct Hx as [Hx | Hx]; apply bool_decide_eq_false in Hx; tauto.
Qed.

Lemma sorted_no_mock_before_proxy rs :
  StronglySorted Chains.attempt_le rs -> Chains.no_mock_before_proxy rs.
Proof.
  intros Hs i j Hi Hj.
  destruct (Nat.lt_ge_cases j i) as [Hlt | Hge]; [exact Hlt|exfalso].
  destruct (decide (i = j)) as [-> | Hne]; [congruence|].
  assert (Hij : (i < j)%nat) by lia. clear Hge Hne.
  revert i j Hi Hj Hij.
  induction Hs as [|a l Hs IH Hall]; intros i j Hi Hj Hij.
  - now rewrite lookup_nil in Hi.
  - destruct i as [|i].
    + cbn in Hi. injection Hi as ->.
      destruct j as [|j]; [lia|]. cbn in Hj.
      rewrite Forall_forall in Hall.
      apply list_elem_of_lookup_2 in Hj. specialize (Hall _ Hj).
      unfold Chains.attempt_le in Hall. cbn in Hall. lia.
    + destruct j as [|j]; [lia|]. cbn in Hi, Hj.
      apply (IH i j Hi Hj). lia.
Qed.

(** C4 (as the code has it). In every run of [getForestAlerts], from any
    state, the routes tried for one category come in the order Proxy,
    Direct, Mock. So no Mock attempt precedes a live attempt of the same
    category - in particular none precedes a Proxy attempt, as claimed -
    but Proxy is never tried after Direct: a failed Direct attempt is
    followed by another Direct attempt or by Mock. With mocks allowed a
    chain has one kind of live route only; in live-only mode the proxy
    client can throw, and the direct request then follows the proxy's. *)
Theorem C4_route_order :
  forall (c : Services.Client) (st : Services.CState) (category : AlertType),
    let routes :=
      Services.chain category
        (Chains.events (Services.Enhanced.getForestAlerts c) st) in
    StronglySorted Chains.attempt_le routes
    /\ Chains.no_mock_before_proxy routes
    /\ (Services.noMock (Services.config c) = false ->
        ~ (Services.Direct ∈ routes /\ Services.Proxy ∈ routes)).
Proof.
  intros c st category routes. subst routes.
  destruct (getForestAlerts_lang c) as (S & Hem & Hok).
  destruct (Hem st) as (l & E & Hl).
  unfold Chains.events. rewrite E, drop_app_length.
  rewrite chain_labels.
  assert (H : Chains.chain_ok (negb (Services.noMock (Services.config c)))
                (Chains.chain_of_labels category (Chains.label_of <$> l))
              = true).
  { unfold Chains.lang_ok in Hok. rewrite forallb_forall in Hok.
    apply list_elem_of_In, Hok in Hl. rewrite forallb_forall in Hl.
    apply Hl. destruct category; cbn; tauto. }
  apply chain_ok_spec in H as [Hs Hone].
  split; [exact Hs|]. split; [now apply sorted_no_mock_before_proxy|].
  intros Hnm. apply Hone. now rewrite Hnm.
Qed.

(** C4, the stated order refuted, chain by chain. A browser holding a NASA
    key, mocks allowed, FIRMS unreachable, the proxy answering fire
    requests: the fire chain is Direct (FIRMS fails), then Mock; Proxy
    does not follow the failed Direct attempt. A server-side client
    without a key in live-only mode whose proxy answers [null]: the
    deforestation chain is Proxy, then Direct, against the declared
    order. *)
Lemma C4_counterexample :
  let c := Examples.browser 0 (Some "nasa-key") in
  let fire_chain :=
    Services.chain fire
      (Chains.events (Services.Enhanced.getForestAlerts c)
         Services.empty_state) in
  let deforestation_chain :=
    Services.chain deforestation
      (Chains.events
         (Services.Enhanced.getForestAlerts Scenarios.null_proxy_client)
         Services.empty_state) in
  firms (Services.world c) "nasa-key" "MODIS_NRT" "world" "1" "2024-01-01"
  = NetFail "network down"
  /\ (exists r, Services.worker c Services.EpFireAlerts
                  [("region", "world"); ("days", "1")]
                = Http 200 (Some (Services.JObject r))
                /\ Services.success r = true)
  /\ fire_chain = [Services.Direct; Services.Mock]
  /\ ~ Chains.proxy_follows_direct fire_chain
  /\ deforestation_chain = [Services.Proxy; Services.Direct]
  /\ ~ StronglySorted Chains.route_le deforestation_chain.
Proof.
  intros c fire_chain deforestation_chain.
  assert (E1 : fire_chain = [Services.Direct; Services.Mock])
    by (vm_compute; reflexivity).
  assert (E2 : deforestation_chain = [Services.Proxy; Services.Direct])
    by (vm_compute; reflexivity).
  split; [reflexivity|]. split; [eexists; split; reflexivity|].
  split; [exact E1|]. rewrite E1, E2. split; [|split; [reflexivity|]].
  - intros H. specialize (H eq_refl). discriminate H.
  - intros H. apply StronglySorted_inv in H as [_ H].
    apply Forall_cons in H as [H _]. unfold Chains.route_le in H. cbn in H.
    lia.
Qed.

(* ================================================================== *)
(** * Further properties of the worker *)
(* ================================================================== *)

(** ** Parsing FIRMS rows *)

Lemma length_omap_le {A B} (f : A -> option B) (l : list A) :
  (length (omap f l) <= length l)%nat.
Proof.
  induction l as [|x l IH]; [reflexivity|].
  cbn. destruct (f x); cbn; lia.
Qed.



Lemma split_chars_first_line sep h : forall cur body,
  sep ∉ h ->
  split_chars sep cur (h ++ sep :: body)
  = string_of_list_ascii (rev cur ++ h) :: split_chars sep [] body.
Proof.
  induction h as [|c h IH]; intros cur body Hnot; cbn.
  - rewrite Ascii.eqb_refl, app_nil_r. reflexivity.
  - destruct (Ascii.eqb c sep) eqn:E.
    + apply Ascii.eqb_eq in E. subst c. exfalso. apply Hnot. left.
    + rewrite IH by (intros H; apply Hnot; now right).
      cbn. now rewrite <- app_assoc.
Qed.

Lemma list_ascii_of_string_append s1 s2 :
  list_ascii_of_string (s1 +:+ s2)
  = (list_ascii_of_string s1 ++ list_ascii_of_string s2)%list.
Proof. induction s1 as [|c s1 IH]; simpl; [reflexivity | now f_equal]. Qed.

Lemma split_first_line header body :
  Worker.newline ∉ list_ascii_of_string header ->
  split Worker.newline (header +:+ String Worker.newline body)
  = header :: split Worker.newline body.
Proof.
  intros H. unfold split. rewrite list_ascii_of_string_append. cbn.
  rewrite split_chars_first_line by exact H. cbn.
  now rewrite string_of_list_ascii_of_string.
Qed.

(** X2. The first line of a FIRMS answer is a header: whatever it holds, it
    contributes no alert, and an answer of one line parses to the empty
    list. *)
Theorem parseFireCsvData_skips_header :
  forall (w : World) (header header' body : string),
    Worker.newline ∉ list_ascii_of_string header ->
    Worker.newline ∉ list_ascii_of_string header' ->
    Worker.parseFireCsvData w (header +:+ String Worker.newline body)
    = Worker.parseFireCsvData w (header' +:+ String Worker.newline body)
    /\ Worker.parseFireCsvData w header = [].
Proof.
  intros w header header' body H H'. unfold Worker.parseFireCsvData. split.
  - now rewrite !split_first_line.
  - assert (E : split Worker.newline header = [header]).
    { unfold split.
      assert (G : forall h cur, Worker.newline ∉ h ->
                    split_chars Worker.newline cur h
                    = [string_of_list_ascii (rev cur ++ h)]).
      { induction h as [|c h IH]; intros cur Hn; cbn.
        - now rewrite app_nil_r.
        - destruct (Ascii.eqb c Worker.newline) eqn:E.
          + apply Ascii.eqb_eq in E. subst c. exfalso. apply Hn. left.
          + rewrite IH by (intros X; apply Hn; now right).
            cbn. now rewrite <- app_assoc. }
      rewrite G by exact H. cbn. now rewrite string_of_list_ascii_of_string. }
    rewrite E. reflexivity.
Qed.

(** An instance of [parseFireCsvData_skips_header]: a row that would parse
    as a detection yields nothing when it is the first line. *)
Lemma parseFireCsvData_skips_header_witness :
  Worker.parseFireCsvData (Examples.offline 0)
    ("-3.5,-62.1,320.5,1.0,1.0,2024-01-01,0130,Terra,150,6.1,290.1,60.2,N"
     +:+ String Worker.newline "")
  = Worker.parseFireCsvData (Examples.offline 0)
      ("header" +:+ String Worker.newline "")
  /\ Worker.parseFireCsvData (Examples.offline 0)
       "-3.5,-62.1,320.5,1.0,1.0,2024-01-01,0130,Terra,150,6.1,290.1,60.2,N"
     = [].
Proof.
  apply (parseFireCsvData_skips_header (Examples.offline 0)).
  - refine (bool_decide_unpack _ _). vm_compute. exact I.
  - refine (bool_decide_unpack _ _). vm_compute. exact I.
Defined.

(** ** The fire-alerts handler *)

(** The dataset loop: it asks FIRMS for the datasets in order and stops at the
    first answer with a success status, which it parses, caches and returns;
    when no dataset answers so, it throws and leaves the cache as it was. *)
Lemma tryDatasets_spec w apiKey region days date key :
  forall datasets lastError st o st',
    Worker.tryDatasets w apiKey region days date key datasets lastError st
    = (o, st') ->
    exists n,
      (n <= length datasets)%nat
      /\ Worker.calls st'
         = (Worker.calls st
            ++ ((fun d => CallFirms apiKey d region days date)
                <$> take n datasets))%list
      /\ Worker.rand_next st' = Worker.rand_next st
      /\ match o with
         | Ret r =>
             exists d s csv,
               datasets !! (n - 1)%nat = Some d /\ (0 < n)%nat
               /\ firms w apiKey d region days date = Http s csv
               /\ http_ok s = true
               /\ r = Worker.json_ok
                        (Worker.DAlerts (Worker.parseFireCsvData w csv))
                        ("nasa-firms:" +:+ toLowerCase d) None
               /\ Worker.cache st' = <[key := r]> (Worker.cache st)
         | Throw e =>
             n = length datasets /\ Worker.cache st' = Worker.cache st
         | Diverge => False
         end.
Proof.
  induction datasets as [|d rest IH]; intros lastError st o st' E.
  - cbn in E. injection E as <- <-. exists 0%nat. cbn.
    rewrite app_nil_r. auto.
  - cbn [Worker.tryDatasets] in E. unfold try_catch, Worker.do_fetch in E.
    unfold mbind at 1, SE_bind at 1 in E.
    assert (Step : forall e st1,
               Worker.cache st1 = Worker.cache st ->
               Worker.calls st1
               = (Worker.calls st ++ [CallFirms apiKey d region days date])%list ->
               Worker.rand_next st1 = Worker.rand_next st ->
               Worker.tryDatasets w apiKey region days date key rest (Some e) st1
               = (o, st') ->
               exists n,
                 (n <= length (d :: rest))%nat
                 /\ Worker.calls st'
                    = (Worker.calls st
                       ++ ((fun d => CallFirms apiKey d region days date)
                           <$> take n (d :: rest)))%list
                 /\ Worker.rand_next st' = Worker.rand_next st
                 /\ match o with
                    | Ret r =>
                        exists d0 s csv,
                          (d :: rest) !! (n - 1)%nat = Some d0 /\ (0 < n)%nat
                          /\ firms w apiKey d0 region days date = Http s csv
                          /\ http_ok s = true
                          /\ r = Worker.json_ok
                                   (Worker.DAlerts (Worker.parseFireCsvData w csv))
                                   ("nasa-firms:" +:+ toLowerCase d0) None
                          /\ Worker.cache st' = <[key := r]> (Worker.cache st)
                    | Throw e =>
                        n = length (d :: rest)
                        /\ Worker.cache st' = Worker.cache st
                    | Diverge => False
                    end).
    { intros e st1 Hc1 Hl1 Hr1 E1.
      destruct (IH _ _ _ _ E1) as (n & Hn & Hc & Hr & Hm).
      exists (S n). split; [cbn; lia|].
      split; [rewrite Hc, Hl1; cbn; now rewrite <- app_assoc|].
      split; [congruence|].
      destruct o as [r|e'|]; [| |exact Hm].
      - destruct Hm as (d' & s & csv & Hd & Hpos & Hf & Hs & Hr' & Hk).
        exists d', s, csv. repeat split; try assumption; try lia.
        + destruct n; [lia|]. cbn in *. now rewrite Nat.sub_0_r in Hd.
        + now rewrite Hk, Hc1.
      - destruct Hm as [-> Hm]. split; [reflexivity | congruence]. }
    destruct (firms w apiKey d region days date) as [msg | s csv] eqn:Ef.
    + cbn in E. eapply Step; [| | |exact E]; reflexivity.
    + cbn in E. destruct (http_ok s) eqn:Hs; cbn in E.
      * injection E as <- <-. exists 1%nat. cbn. split; [lia|].
        split; [reflexivity|]. split; [reflexivity|].
        exists d, s, csv. auto 10.
      * eapply Step; [| | |exact E]; reflexivity.
Qed.

(** What [handleFireAlerts] does when its key misses the cache. *)
Lemma handleFireAlerts_miss w u env st o st' :
  Worker.cache st !! Answers.fire_key u = None ->
  Worker.handleFireAlerts w u env st = (o, st') ->
  exists r n,
    o = Ret r
    /\ Worker.rand_next st' = Worker.rand_next st
    /\ (n <= length (Answers.firms_datasets u))%nat
    /\ Worker.calls st'
       = (Worker.calls st
          ++ ((fun d =>
                 CallFirms (Answers.firms_api_key u env) d
                   (or_str (Worker.get u "region")
                      (or_str (Worker.get u "area") "world"))
                   (or_str (Worker.get u "days") "1")
                   (Answers.firms_date w u))
              <$> take n (Answers.firms_datasets u)))%list
    /\ ((Answers.firms_api_key u env = Worker.FIRMS_PLACEHOLDER
         /\ n = 0%nat
         /\ (Worker.no_mock u = true
             /\ r = Worker.json_error "NASA FIRMS key not configured" 502
             /\ Worker.cache st' = Worker.cache st
             \/ Worker.no_mock u = false
                /\ r = Worker.json_ok
                         (Worker.DAlerts (Worker.generateMockFireAlerts w))
                         "mock" None
                /\ Worker.cache st'
                   = <[Answers.fire_key u := r]> (Worker.cache st)))
        \/ (Answers.firms_api_key u env <> Worker.FIRMS_PLACEHOLDER
            /\ ((exists d s csv,
                    Answers.firms_datasets u !! (n - 1)%nat = Some d
                    /\ (0 < n)%nat
                    /\ firms w (Answers.firms_api_key u env) d
                         (or_str (Worker.get u "region")
                            (or_str (Worker.get u "area") "world"))
                         (or_str (Worker.get u "days") "1")
                         (Answers.firms_date w u) = Http s csv
                    /\ http_ok s = true
                    /\ r = Worker.json_ok
                             (Worker.DAlerts (Worker.parseFireCsvData w csv))
                             ("nasa-firms:" +:+ toLowerCase d) None
                    /\ Worker.cache st'
                       = <[Answers.fire_key u := r]> (Worker.cache st))
                \/ (n = length (Answers.firms_datasets u)
                    /\ Worker.cache st' = Worker.cache st
                    /\ (Worker.no_mock u = true
                        /\ (exists msg, r = Worker.json_error msg 502)
                        \/ Worker.no_mock u = false
                           /\ exists e,
                               r = Worker.json_ok
                                     (Worker.DAlerts
                                        (Worker.generateMockFireAlerts w))
                                     "mock-fallback" (Some e)))))).
Proof.
  intros Hmiss E.
  unfold Worker.handleFireAlerts, Worker.cache_match in E.
  unfold mbind at 1, SE_bind at 1 in E.
  fold (Answers.fire_key u) in E. rewrite Hmiss in E.
  fold (Answers.firms_api_key u env) in E.
  fold (Answers.firms_date w u) in E.
  unfold try_catch in E.
  destruct (String.eqb (Answers.firms_api_key u env) Worker.FIRMS_PLACEHOLDER)
    eqn:Hkey.
  - apply String.eqb_eq in Hkey.
    destruct (Worker.no_mock u) eqn:Hnm; cbn in E; injection E as <- <-.
    + eexists _, 0%nat. cbn. rewrite app_nil_r.
      repeat split; try lia. left. auto 10.
    + eexists _, 0%nat. cbn. rewrite app_nil_r.
      repeat split; try lia. left. split; [exact Hkey|]. split; [reflexivity|].
      right. auto.
  - apply String.eqb_neq in Hkey.
    fold (Answers.firms_datasets u) in E.
    destruct (Worker.tryDatasets w _ _ _ _ _ (Answers.firms_datasets u) None st)
      as [o1 st1] eqn:E1.
    destruct (tryDatasets_spec _ _ _ _ _ _ _ _ _ _ _ E1)
      as (n & Hn & Hc & Hr & Hm).
    destruct o1 as [r|e|]; [| |contradiction].
    + injection E as <- <-. exists r, n. repeat split; try assumption.
      right. split; [exact Hkey|]. left. exact Hm.
    + destruct Hm as [-> Hk].
      destruct (Worker.no_mock u) eqn:Hnm; cbn in E; injection E as <- <-;
        eexists _, _;
        (split; [reflexivity|]); (split; [exact Hr|]); (split; [exact Hn|]);
        (split; [exact Hc|]);
        right; (split; [exact Hkey|]); right; (split; [reflexivity|]);
        (split; [exact Hk|]); [left | right]; (split; [reflexivity|]); eauto.
Qed.

(** ** The deforestation-alerts and weather handlers *)

Lemma parseGladAlertsData_returns w data st :
  exists out st',
    Worker.parseGladAlertsData w data st = (Ret out, st')
    /\ Worker.cache st' = Worker.cache st
    /\ Worker.calls st' = Worker.calls st
    /\ length out = length (take 25 (default [] data))
    /\ Forall (fun a => a_type a = deforestation) out.
Proof.
  destruct data as [items|]; cbn.
  - generalize (take 25 items) as l. generalize 0%nat as i. intros i l.
    revert i st. induction l as [|alert rest IH]; intros i st.
    + exists [], st. cbn. auto.
    + destruct (parseGladAlert_confidence w i alert st)
        as (a & st1 & E1 & _ & Hc1 & Hl1).
      assert (Ht : a_type a = deforestation).
      { revert E1. unfold Worker.parseGladAlert, Worker.or_random.
        destruct (Worker.or_opt_num (g_lat alert) None),
          (Worker.or_opt_num (g_lng alert) None); cbn; intros [= <- _];
          reflexivity. }
      destruct (IH (S i) st1) as (out & st2 & E2 & Hc2 & Hl2 & Hlen & Hty).
      exists (a :: out), st2. cbn. unfold mbind, SE_bind.
      rewrite E1. cbn. unfold mbind, SE_bind. rewrite E2. cbn.
      repeat split; [congruence | congruence | now rewrite Hlen
                    | constructor; assumption].
  - exists [], st. cbn. auto.
Qed.

(** What [handleDeforestationAlerts] does when [days] reads as a number in
    range and its key misses the cache. *)
Lemma handleDeforestationAlerts_miss w u st o st' days :
  parseInt (or_str (Worker.get u "days") "90") = Some days ->
  Worker.valid_time (Answers.gfw_start w days) = true ->
  Worker.cache st !! Answers.deforestation_key w u = None ->
  Worker.handleDeforestationAlerts w u st = (o, st') ->
  exists r,
    o = Ret r
    /\ Worker.calls st'
       = (Worker.calls st
          ++ [CallGfw (or_str (Worker.get u "region") "BRA")
                (isoDate w (Answers.gfw_start w days)) (isoDate w (now w))
                (parseInt (or_str (Worker.get u "limit") "50"))])%list
    /\ ((exists out,
            r = Worker.json_ok (Worker.DAlerts out) "global-forest-watch" None
            /\ (length out <= 25)%nat
            /\ Worker.cache st'
               = <[Answers.deforestation_key w u := r]> (Worker.cache st))
        \/ (Worker.no_mock u = true
            /\ (exists msg, r = Worker.json_error msg 502)
            /\ Worker.cache st' = Worker.cache st)
        \/ (Worker.no_mock u = false
            /\ (exists e,
                   r = Worker.json_ok
                         (Worker.DAlerts
                            (Worker.generateMockDeforestationAlerts w))
                         "mock-fallback" (Some e))
            /\ Worker.cache st'
               = <[Answers.deforestation_key w u := r]> (Worker.cache st))).
Proof.
  intros Hd Hv Hmiss E.
  unfold Worker.handleDeforestationAlerts in E.
  rewrite Hd in E. cbn [fmap option_fmap option_map] in E.
  fold (Answers.gfw_start w days) in E. rewrite Hv in E. cbn [negb] in E.
  unfold Worker.cache_match in E.
  unfold mbind at 1, SE_bind at 1 in E.
  replace ("https://cache.deforestation-alerts/"
           +:+ or_str (Worker.get u "region") "BRA" +:+ "/"
           +:+ int_to_string (Some days) +:+ "/" +:+ isoDate w (now w)
           +:+ "/"
           +:+ int_to_string (parseInt (or_str (Worker.get u "limit") "50")))
    with (Answers.deforestation_key w u) in E
    by (unfold Answers.deforestation_key; now rewrite Hd).
  rewrite Hmiss in E.
  unfold try_catch, Worker.do_fetch in E.
  unfold mbind at 1, SE_bind at 1 in E.
  set (c := CallGfw _ _ _ _) in E.
  set (st1 := {| Worker.cache := Worker.cache st;
                 Worker.calls := (Worker.calls st ++ [c])%list;
                 Worker.rand_next := Worker.rand_next st |}) in E.
  destruct (Worker.no_mock u) eqn:Hnm;
    (destruct (gfw w _ _ _ _) as [msg | s [jsonData|]]; cbn in E;
     [ | destruct (http_ok s); cbn in E | destruct (http_ok s); cbn in E ]);
    try (injection E as <- <-;
         eexists; (split; [reflexivity|]); (split; [reflexivity|]); right;
         solve [left; eauto | right; eauto]).
  all: unfold mbind at 1, SE_bind at 1 in E;
    destruct (parseGladAlertsData_returns w jsonData st1)
      as (out & st2 & E2 & Hc2 & Hl2 & Hlen & _);
    rewrite E2 in E; cbn in E; injection E as <- <-;
    eexists; (split; [reflexivity|]); cbn; (split; [exact Hl2|]);
    left; exists out; (split; [reflexivity|]);
    (split; [rewrite Hlen, length_take; lia|]); now rewrite Hc2.
Qed.

Lemma mockWeather_returns w lat lng st :
  exists d,
    Worker.mockWeather w lat lng st
    = (Ret d, {| Worker.cache := Worker.cache st;
                 Worker.calls := Worker.calls st;
                 Worker.rand_next := (6 + Worker.rand_next st)%nat |})
    /\ w_humidity d = Num (60 + random w (1 + Worker.rand_next st)%nat * 30)
    /\ w_windSpeed d = Num (5 + random w (3 + Worker.rand_next st)%nat * 15)
    /\ w_pressure d
       = Num (1013 + (random w (4 + Worker.rand_next st)%nat - 0.5) * 20)
    /\ w_cloudCover d = Num (random w (5 + Worker.rand_next st)%nat * 100)
    /\ w_fireWeatherIndex d
       = Worker.calculateFireWeatherIndex (w_temperature d) (w_humidity d)
           (w_precipitation d)
    /\ w_location d = Some (Worker.getLocationName lat lng)
    /\ w_temperature d
       = add (sub (of_Z 30) (mul_const (Math_abs lat) 0.6))
           (Num ((random w (Worker.rand_next st) - 0.5) * 10))
    /\ w_precipitation d
       = add (Math_max (of_Z 0)
                (sub (of_Z 20) (mul_const (Math_abs lat) 0.2)))
           (Num (random w (2 + Worker.rand_next st)%nat * 5)).
Proof.
  unfold Worker.mockWeather.
  unfold mbind, SE_bind, Worker.Math_random, mret, SE_ret.
  cbv beta iota zeta.
  cbn [Worker.cache Worker.calls Worker.rand_next Nat.add].
  eexists. split; [reflexivity|].
  cbn [w_humidity w_windSpeed w_pressure w_cloudCover w_fireWeatherIndex
       w_temperature w_precipitation w_location].
  repeat split.
Qed.

(** What [handleWeather] does when both coordinates are given and its key
    misses the cache. *)
Lemma handleWeather_miss w u env st o st' :
  falsy_str (Worker.get u "lat") = false ->
  falsy_str (Worker.get u "lng") = false ->
  Worker.cache st !! Answers.weather_key u = None ->
  Worker.handleWeather w u env st = (o, st') ->
  exists r,
    o = Ret r
    /\ ((or_str (Worker.OPENWEATHER_API_KEY env) Worker.OPENWEATHER_PLACEHOLDER
         = Worker.OPENWEATHER_PLACEHOLDER
         /\ Worker.calls st' = Worker.calls st
         /\ (Worker.no_mock u = true
             /\ r = Worker.json_error "OpenWeather key not configured" 502
             /\ Worker.cache st' = Worker.cache st
             \/ Worker.no_mock u = false
                /\ (exists d, r = Worker.json_ok (Worker.DWeather d) "mock" None)
                /\ Worker.cache st'
                   = <[Answers.weather_key u := r]> (Worker.cache st)))
        \/ (or_str (Worker.OPENWEATHER_API_KEY env)
              Worker.OPENWEATHER_PLACEHOLDER
            <> Worker.OPENWEATHER_PLACEHOLDER
            /\ Worker.calls st'
               = (Worker.calls st
                  ++ [CallOpenWeather (or_str (Worker.get u "lat") "")
                        (or_str (Worker.get u "lng") "")
                        (or_str (Worker.OPENWEATHER_API_KEY env)
                           Worker.OPENWEATHER_PLACEHOLDER)])%list
            /\ ((exists s d,
                    openweather w (or_str (Worker.get u "lat") "")
                      (or_str (Worker.get u "lng") "")
                      (or_str (Worker.OPENWEATHER_API_KEY env)
                         Worker.OPENWEATHER_PLACEHOLDER) = Http s (Some d)
                    /\ http_ok s = true
                    /\ r = Worker.json_ok
                             (Worker.DWeather (Worker.parseOpenWeatherData d))
                             "openweather" None
                    /\ Worker.cache st'
                       = <[Answers.weather_key u := r]> (Worker.cache st))
                \/ (Worker.no_mock u = true
                    /\ (exists msg, r = Worker.json_error msg 502)
                    /\ Worker.cache st' = Worker.cache st)
                \/ (Worker.no_mock u = false
                    /\ (exists d e,
                           r = Worker.json_ok (Worker.DWeather d)
                                 "mock-fallback" (Some e))
                    /\ Worker.cache st' = Worker.cache st)))).
Proof.
  intros Hlat Hlng Hmiss E.
  unfold Worker.handleWeather in E. rewrite Hlat, Hlng in E.
  cbn [orb] in E. unfold Worker.cache_match in E.
  unfold mbind at 1, SE_bind at 1 in E.
  fold (Answers.weather_key u) in E. rewrite Hmiss in E.
  pose proof (mockWeather_returns w
                (parseFloat (or_str (Worker.get u "lat") ""))
                (parseFloat (or_str (Worker.get u "lng") ""))) as Hmw.
  remember (Worker.mockWeather w _ _) as mw eqn:Emw in E, Hmw. clear Emw.
  unfold try_catch in E.
  destruct (String.eqb _ Worker.OPENWEATHER_PLACEHOLDER) eqn:Hkey.
  - apply String.eqb_eq in Hkey.
    destruct (Worker.no_mock u) eqn:Hnm.
    + injection E as <- <-. eexists. split; [reflexivity|].
      left. auto 10.
    + unfold mbind at 1, SE_bind at 1 in E.
      destruct (Hmw st) as (d & Ed & _).
      rewrite Ed in E.
      unfold mbind, SE_bind, mret, SE_ret, Worker.cache_put in E.
      cbn [Worker.cache Worker.calls Worker.rand_next] in E.
      injection E as <- <-.
      eexists. split; [reflexivity|]. left.
      split; [exact Hkey|]. split; [reflexivity|]. right. eauto.
  - apply String.eqb_neq in Hkey.
    unfold Worker.do_fetch in E. unfold mbind at 1, SE_bind at 1 in E.
    set (c := CallOpenWeather _ _ _) in *.
    remember {| Worker.cache := Worker.cache st;
                Worker.calls := (Worker.calls st ++ [c])%list;
                Worker.rand_next := Worker.rand_next st |} as st1 eqn:Est1.
    destruct (Hmw st1) as (dm & Edm & _).
    assert (Hc1 : Worker.cache st1 = Worker.cache st) by now subst st1.
    assert (Hl1 : Worker.calls st1 = (Worker.calls st ++ [c])%list)
      by now subst st1.
    clear Est1.
    destruct (Worker.no_mock u) eqn:Hnm;
      (destruct (openweather w _ _ _) as [msg | s [d|]] eqn:Eo;
       [ | destruct (http_ok s) eqn:Hs | destruct (http_ok s) eqn:Hs ]);
      unfold mbind, SE_bind, mret, SE_ret, throw, Worker.cache_put in E;
      cbn [negb Worker.cache Worker.calls Worker.rand_next] in E;
      rewrite ?Edm in E;
      injection E as <- <-; cbn [Worker.cache Worker.calls];
      eexists; (split; [reflexivity|]); right; (split; [exact Hkey|]);
      (split; [exact Hl1|]); rewrite ?Hc1;
      first
        [ solve [left; exists s, d; repeat split; reflexivity || assumption]
        | solve [right; left; (split; [reflexivity|]);
                 split; [eexists; reflexivity | reflexivity]]
        | solve [right; right; (split; [reflexivity|]);
                 split; [do 2 eexists; reflexivity | reflexivity]] ].
Qed.

(** ** The worker's handlers, as seen by a caller *)

Lemma handleFireAlerts_hit w u env st r :
  Worker.cache st !! Answers.fire_key u = Some r ->
  Worker.handleFireAlerts w u env st = (Ret r, st).
Proof.
  intros H. unfold Worker.handleFireAlerts, Worker.cache_match.
  unfold mbind at 1, SE_bind at 1.
  fold (Answers.fire_key u). now rewrite H.
Qed.

Lemma handleWeather_hit w u env st r :
  falsy_str (Worker.get u "lat") = false ->
  falsy_str (Worker.get u "lng") = false ->
  Worker.cache st !! Answers.weather_key u = Some r ->
  Worker.handleWeather w u env st = (Ret r, st).
Proof.
  intros Hlat Hlng H. unfold Worker.handleWeather, Worker.cache_match.
  rewrite Hlat, Hlng. cbn [orb].
  unfold mbind at 1, SE_bind at 1.
  fold (Answers.weather_key u). now rewrite H.
Qed.

Lemma handleDeforestationAlerts_hit w u st r days :
  parseInt (or_str (Worker.get u "days") "90") = Some days ->
  Worker.valid_time (Answers.gfw_start w days) = true ->
  Worker.cache st !! Answers.deforestation_key w u = Some r ->
  Worker.handleDeforestationAlerts w u st = (Ret r, st).
Proof.
  intros Hd Hv H. unfold Worker.handleDeforestationAlerts.
  unfold Answers.deforestation_key in H. rewrite Hd in *.
  cbn [fmap option_fmap option_map].
  fold (Answers.gfw_start w days). rewrite Hv. cbn [negb].
  unfold Worker.cache_match. unfold mbind at 1, SE_bind at 1.
  now rewrite H.
Qed.

Lemma not_tagged_mock_error msg s : ~ Answers.tagged_mock (Worker.json_error msg s).
Proof. intros (d & e & [H | H]); discriminate H. Qed.

Lemma not_tagged_mock_source d src e :
  src <> "mock" -> src <> "mock-fallback" ->
  ~ Answers.tagged_mock (Worker.json_ok d src e).
Proof.
  intros H1 H2 (d' & e' & [H | H]); injection H as _ H _; congruence.
Qed.

(** X3. Live-only mode of the fire-alert handler: with [no_mock=1] and no
    cached answer, the handler answers either a 502 error, leaving the cache
    as it was, or the alerts parsed from the CSV that one of the datasets
    it was to try answered with an ok status, tagged with that dataset,
    which it stores; the answer is never tagged as synthetic. *)
Theorem handleFireAlerts_live_only w u env st o st' :
  Worker.no_mock u = true ->
  Worker.cache st !! Answers.fire_key u = None ->
  Worker.handleFireAlerts w u env st = (o, st') ->
  exists r,
    o = Ret r
    /\ ~ Answers.tagged_mock r
    /\ ((exists msg, r = Worker.json_error msg 502)
        /\ Worker.cache st' = Worker.cache st
        \/ (exists d s csv,
               d ∈ Answers.firms_datasets u
               /\ firms w (Answers.firms_api_key u env) d
                    (or_str (Worker.get u "region")
                       (or_str (Worker.get u "area") "world"))
                    (or_str (Worker.get u "days") "1")
                    (Answers.firms_date w u) = Http s csv
               /\ http_ok s = true
               /\ r = Worker.json_ok
                        (Worker.DAlerts (Worker.parseFireCsvData w csv))
                        ("nasa-firms:" +:+ toLowerCase d) None)
           /\ Worker.cache st'
              = <[Answers.fire_key u := r]> (Worker.cache st)).
Proof.
  intros Hnm Hmiss E.
  destruct (handleFireAlerts_miss w u env st o st' Hmiss E)
    as (r & n & -> & _ & _ & _ & H).
  exists r. split; [reflexivity|].
  destruct H as [(_ & _ & [(_ & -> & Hc) | (Hf & _)])
                | (_ & [(d & s & csv & Hd & _ & Hf & Hs & -> & Hc)
                       | (_ & Hc & [(_ & msg & ->) | (Hf & _)])])];
    try congruence.
  - split; [apply not_tagged_mock_error|]. left. eauto.
  - split; [apply not_tagged_mock_source; discriminate|].
    right. split; [|exact Hc].
    exists d, s, csv. split; [|auto].
    eapply list_elem_of_lookup_2, Hd.
  - split; [apply not_tagged_mock_error|]. left. eauto.
Qed.

(** An instance of [handleFireAlerts_live_only]: a key is configured, the
    first dataset is unreachable and the second answers with one
    detection, which is the answer stored. *)
Lemma handleFireAlerts_live_only_witness :
  exists r d s csv,
    (Worker.handleFireAlerts Scenarios.flaky_firms Scenarios.live_only_url
       Scenarios.with_keys Worker.empty_state).1 = Ret r
    /\ ~ Answers.tagged_mock r
    /\ d ∈ Answers.firms_datasets Scenarios.live_only_url
    /\ firms Scenarios.flaky_firms
         (Answers.firms_api_key Scenarios.live_only_url Scenarios.with_keys)
         d "BRA" "7"
         (Answers.firms_date Scenarios.flaky_firms Scenarios.live_only_url)
       = Http s csv
    /\ http_ok s = true
    /\ r = Worker.json_ok
             (Worker.DAlerts
                (Worker.parseFireCsvData Scenarios.flaky_firms csv))
             ("nasa-firms:" +:+ toLowerCase d) None
    /\ Worker.cache
         (Worker.handleFireAlerts Scenarios.flaky_firms
            Scenarios.live_only_url Scenarios.with_keys Worker.empty_state).2
       = <[Answers.fire_key Scenarios.live_only_url := r]>
           (Worker.cache Worker.empty_state).
Proof.
  destruct (handleFireAlerts_live_only Scenarios.flaky_firms
              Scenarios.live_only_url Scenarios.with_keys Worker.empty_state
              (Worker.handleFireAlerts Scenarios.flaky_firms
                 Scenarios.live_only_url Scenarios.with_keys
                 Worker.empty_state).1
              (Worker.handleFireAlerts Scenarios.flaky_firms
                 Scenarios.live_only_url Scenarios.with_keys
                 Worker.empty_state).2)
    as (r & E & Hnt & [[(msg & ->) _] | [(d & s & csv & Hd & Hf & Hs & Hr) Hc]]).
  - reflexivity.
  - reflexivity.
  - apply surjective_pairing.
  - exfalso. revert E. vm_compute. discriminate.
  - exists r, d, s, csv. auto 10.
Defined.

(** X4. Live-only mode of the deforestation handler: with [no_mock=1], a
    usable [days] and no cached answer, exactly one request goes to Global
    Forest Watch and the answer is either a 502 error, the cache left as it
    was, or at most 25 live alerts, which are stored; it is never tagged as
    synthetic. *)
Theorem handleDeforestationAlerts_live_only w u st o st' :
  Worker.no_mock u = true ->
  Answers.days_ok w u = true ->
  Worker.cache st !! Answers.deforestation_key w u = None ->
  Worker.handleDeforestationAlerts w u st = (o, st') ->
  exists r,
    o = Ret r
    /\ ~ Answers.tagged_mock r
    /\ length (Worker.calls st') = S (length (Worker.calls st))
    /\ ((exists msg, r = Worker.json_error msg 502)
        /\ Worker.cache st' = Worker.cache st
        \/ (exists alerts,
               (length alerts <= 25)%nat
               /\ r = Worker.json_ok (Worker.DAlerts alerts)
                        "global-forest-watch" None)
           /\ Worker.cache st'
              = <[Answers.deforestation_key w u := r]> (Worker.cache st)).
Proof.
  intros Hnm Hok Hmiss E. unfold Answers.days_ok in Hok.
  destruct (parseInt _) as [days|] eqn:Hd; [|discriminate].
  destruct (handleDeforestationAlerts_miss w u st o st' days Hd Hok Hmiss E)
    as (r & -> & Hcalls & H).
  exists r. split; [reflexivity|].
  assert (Hlen : length (Worker.calls st') = S (length (Worker.calls st))).
  { rewrite Hcalls, length_app. cbn. lia. }
  destruct H as [(out & -> & Hl & Hc) | [(_ & (msg & ->) & Hc) | (Hf & _)]];
    try congruence.
  - split; [apply not_tagged_mock_source; discriminate|].
    split; [exact Hlen|]. right. eauto.
  - split; [apply not_tagged_mock_error|].
    split; [exact Hlen|]. left. eauto.
Qed.

(** An instance of [handleDeforestationAlerts_live_only]: Global Forest
    Watch is unreachable. *)
Lemma handleDeforestationAlerts_live_only_witness :
  exists r,
    (Worker.handleDeforestationAlerts (Examples.offline 0)
       Scenarios.live_only_url Worker.empty_state).1 = Ret r
    /\ ~ Answers.tagged_mock r
    /\ length (Worker.calls
                 (Worker.handleDeforestationAlerts (Examples.offline 0)
                    Scenarios.live_only_url Worker.empty_state).2)
       = S (length (Worker.calls Worker.empty_state))
    /\ ((exists msg, r = Worker.json_error msg 502)
        /\ Worker.cache
             (Worker.handleDeforestationAlerts (Examples.offline 0)
                Scenarios.live_only_url Worker.empty_state).2
           = Worker.cache Worker.empty_state
        \/ (exists alerts,
               (length alerts <= 25)%nat
               /\ r = Worker.json_ok (Worker.DAlerts alerts)
                        "global-forest-watch" None)
           /\ Worker.cache
                (Worker.handleDeforestationAlerts (Examples.offline 0)
                   Scenarios.live_only_url Worker.empty_state).2
              = <[Answers.deforestation_key (Examples.offline 0)
                    Scenarios.live_only_url := r]>
                  (Worker.cache Worker.empty_state)).
Proof.
  apply (handleDeforestationAlerts_live_only (Examples.offline 0)
           Scenarios.live_only_url Worker.empty_state).
  - reflexivity.
  - reflexivity.
  - reflexivity.
  - apply surjective_pairing.
Defined.



(** ** The biodiversity handler *)

Lemma parseGBIFSpeciesData_returns w g st :
  exists s,
    Worker.parseGBIFSpeciesData w g st
    = (Ret s, {| Worker.cache := Worker.cache st;
                 Worker.calls := Worker.calls st;
                 Worker.rand_next := (5 + Worker.rand_next st)%nat |})
    /\ s_population s
       = (Qfloor (random w (Worker.rand_next st) * 100000) + 1000)%Z
    /\ s_trend s = ((random w (1 + Worker.rand_next st)%nat - 0.5) * 6)%Q
    /\ s_lastSeen s
       = TsAt (Worker.Qtrunc
                 (inject_Z (now w)
                  - random w (2 + Worker.rand_next st)%nat
                    * inject_Z (30 * Worker.day_ms)))
    /\ s_confidence s = (85 + random w (3 + Worker.rand_next st)%nat * 10)%Q
    /\ s_threatLevel s = Qfloor (random w (4 + Worker.rand_next st)%nat * 100)
    /\ s_status s = Worker.determineConservationStatus g.
Proof.
  unfold Worker.parseGBIFSpeciesData.
  unfold mbind, SE_bind, Worker.Math_random, mret, SE_ret.
  cbv beta iota zeta.
  cbn [Worker.cache Worker.calls Worker.rand_next Nat.add].
  eexists. split; [reflexivity|].
  cbn [s_population s_trend s_lastSeen s_confidence s_threatLevel s_status].
  repeat split.
Qed.

Lemma collectSpecies_spec w : forall qs results st,
  exists found st',
    Worker.collectSpecies w qs results st = (Ret (results ++ found)%list, st')
    /\ Worker.cache st' = Worker.cache st
    /\ Worker.calls st' = (Worker.calls st ++ (CallGbif <$> qs))%list
    /\ (length found <= length qs)%nat.
Proof.
  induction qs as [|q rest IH]; intros results st.
  - exists [], st. cbn. rewrite !app_nil_r. auto.
  - cbn [Worker.collectSpecies].
    unfold mbind at 1, SE_bind at 1.
    unfold try_catch, Worker.do_fetch.
    unfold mbind at 1, SE_bind at 1.
    remember {| Worker.cache := Worker.cache st;
                Worker.calls := (Worker.calls st ++ [CallGbif q])%list;
                Worker.rand_next := Worker.rand_next st |} as st1 eqn:Est1.
    assert (Hc1 : Worker.cache st1 = Worker.cache st) by now subst st1.
    assert (Hl1 : Worker.calls st1 = (Worker.calls st ++ [CallGbif q])%list)
      by now subst st1.
    clear Est1.
    assert (Keep : forall st2,
               Worker.cache st2 = Worker.cache st ->
               Worker.calls st2 = (Worker.calls st ++ [CallGbif q])%list ->
               forall found1, (length found1 <= 1)%nat ->
               exists found st',
                 Worker.collectSpecies w rest (results ++ found1)%list st2
                 = (Ret (results ++ found)%list, st')
                 /\ Worker.cache st' = Worker.cache st
                 /\ Worker.calls st'
                    = (Worker.calls st ++ CallGbif q :: (CallGbif <$> rest))%list
                 /\ (length found <= S (length rest))%nat).
    { intros st2 Hc2 Hl2 found1 Hlen.
      destruct (IH (results ++ found1)%list st2)
        as (found & st' & E' & Hc & Hl & Hn).
      exists (found1 ++ found)%list, st'.
      rewrite E', app_assoc. split; [reflexivity|].
      split; [congruence|]. split.
      - rewrite Hl, Hl2, <- app_assoc. reflexivity.
      - rewrite length_app. lia. }
    pose proof (Keep st1 Hc1 Hl1 [] (Nat.le_0_l 1)) as Keep0.
    rewrite app_nil_r in Keep0.
    destruct (gbif w q) as [msg | s [[|g gs]|]];
      [ | destruct (http_ok s) .. ];
      cbv beta iota; unfold throw, mret, SE_ret; cbv beta iota;
      try exact Keep0.
    destruct (parseGBIFSpeciesData_returns w g st1) as (sp & Esp & _).
    unfold mbind, SE_bind. rewrite Esp. cbv beta iota.
    apply (Keep _) with (found1 := [sp]); cbn; [exact Hc1 | exact Hl1 | lia].
Qed.

(** X6. The species loop of the biodiversity handler: whatever GBIF
    answers, the loop ends normally, having sent exactly one search per
    name of [speciesQueries], in that order; it keeps what was found so far
    in front, adds at most one record per name and leaves the cache
    alone. *)
Theorem collectSpecies_one_search_per_name w results st :
  exists found st',
    Worker.collectSpecies w Worker.speciesQueries results st
    = (Ret (results ++ found)%list, st')
    /\ (length found <= 5)%nat
    /\ Worker.cache st' = Worker.cache st
    /\ Worker.calls st'
       = (Worker.calls st
          ++ [CallGbif "Pongo abelii"; CallGbif "Panthera onca";
              CallGbif "Gorilla beringei"; CallGbif "Harpia harpyja";
              CallGbif "Ara macao"])%list.
Proof.
  destruct (collectSpecies_spec w Worker.speciesQueries results st)
    as (found & st' & E & Hc & Hl & Hn).
  exists found, st'. auto.
Qed.

(** The records the backfill loop is able to add to a list of length [n]. *)
Lemma backfill_small w limit results :
  length_lt (length results)
    (int_min limit (Z.of_nat (length Worker.speciesQueries))) = true ->
  length_lt (Nat.max 2 (length results))
    (int_min limit (Z.of_nat (length Worker.speciesQueries))) = false ->
  exists out,
    Worker.backfill 3 w false limit results = Some out
    /\ length_lt (length out)
         (int_min limit (Z.of_nat (length Worker.speciesQueries))) = false
    /\ (length out <= 2)%nat
    /\ exists added, out = (results ++ added)%list
                     /\ added `sublist_of` Worker.generateMockBiodiversityData w.
Proof.
  change (Z.of_nat (length Worker.speciesQueries)) with 5.
  destruct limit as [l|]; [|discriminate].
  cbn [int_min fmap option_fmap option_map length_lt].
  intros H1 H2. apply Z.ltb_lt in H1. apply Z.ltb_ge in H2.
  destruct results as [|x [|y rest]]; cbn [length Nat.max] in H1, H2; [| |lia].
  - assert (l = 1 \/ l = 2) as [-> | ->] by lia.
    + eexists. split; [reflexivity|]. split; [reflexivity|].
      split; [vm_compute; lia|].
      exists (take 1 (Worker.generateMockBiodiversityData w)).
      split; [reflexivity|]. apply sublist_take.
    + eexists. split; [reflexivity|]. split; [reflexivity|].
      split; [vm_compute; lia|].
      exists (Worker.generateMockBiodiversityData w).
      split; reflexivity.
  - assert (l = 2) as -> by lia.
    eexists. split; [reflexivity|]. split; [reflexivity|].
    split; [vm_compute; lia|].
    exists (drop 1 (Worker.generateMockBiodiversityData w)).
    split; [reflexivity|]. apply sublist_drop.
Qed.

Lemma backfill_post w noMock limit : forall fuel results out,
  Worker.backfill fuel w noMock limit results = Some out ->
  results `prefix_of` out
  /\ (noMock = true -> out = results)
  /\ (noMock = false ->
      length_lt (length out)
        (int_min limit (Z.of_nat (length Worker.speciesQueries))) = false).
Proof.
  induction fuel as [|fuel IH]; intros results out E; [discriminate|].
  cbn [Worker.backfill] in E.
  destruct (length_lt (length results) _) eqn:Hlt.
  - destruct noMock.
    + injection E as <-. split; [reflexivity|]. split; [auto|discriminate].
    + destruct (IH _ _ E) as (Hp & _ & Hb).
      split; [|split; [discriminate|exact Hb]].
      etransitivity; [|exact Hp]. now apply prefix_app_r.
  - injection E as <-. split; [reflexivity|]. split; auto.
Qed.

(** X7. The backfill loop of the biodiversity handler ends exactly when
    live-only mode is on or the bound [min(limit, 5)] does not exceed the
    larger of 2 and the length of the list (a [limit] that is not a number
    gives no bound): the mock generator has two records, so the loop can
    fill a list up to length 2 and no further. When the loop ends, the
    list it started from is a prefix of the result, unchanged in live-only
    mode, and with mocks allowed the result has reached the bound. *)
Theorem backfill_terminates_iff w noMock limit results :
  ((exists fuel out, Worker.backfill fuel w noMock limit results = Some out)
   <-> noMock = true
       \/ length_lt (Nat.max 2 (length results))
            (int_min limit (Z.of_nat (length Worker.speciesQueries))) = false)
  /\ (forall fuel out,
        Worker.backfill fuel w noMock limit results = Some out ->
        results `prefix_of` out
        /\ (noMock = true -> out = results)
        /\ (noMock = false ->
            length_lt (length out)
              (int_min limit (Z.of_nat (length Worker.speciesQueries)))
            = false)).
Proof.
  split; [|intros fuel out; apply backfill_post]. split.
  - intros (fuel & out & E). destruct noMock; [now left|right].
    destruct (length_lt (Nat.max 2 _) _) eqn:Hlt; [|reflexivity].
    rewrite (backfill_diverges w limit fuel results Hlt) in E. discriminate.
  - intros [-> | Hlt].
    + exists 1%nat, results. apply backfill_exits. now left.
    + destruct noMock.
      { exists 1%nat, results. apply backfill_exits. now left. }
      destruct (length_lt (length results)
                  (int_min limit (Z.of_nat (length Worker.speciesQueries))))
        eqn:Hlt'.
      * destruct (backfill_small w limit results Hlt' Hlt) as (out & E & _).
        eauto.
      * exists 1%nat, results. apply backfill_exits. now right.
Qed.

Lemma handleBiodiversity_hit fuel w u st r :
  Worker.cache st !! Answers.biodiversity_key u = Some r ->
  Worker.handleBiodiversity fuel w u st = (Ret r, st).
Proof.
  intros H. unfold Worker.handleBiodiversity, Worker.cache_match.
  unfold mbind at 1, SE_bind at 1.
  fold (Answers.biodiversity_key u). now rewrite H.
Qed.

(** On a miss the handler runs the species loop and then the backfill. *)
Lemma handleBiodiversity_miss fuel w u st :
  Worker.cache st !! Answers.biodiversity_key u = None ->
  exists live st1,
    Worker.collectSpecies w Worker.speciesQueries [] st = (Ret live, st1)
    /\ (length live <= 5)%nat
    /\ Worker.cache st1 = Worker.cache st
    /\ Worker.calls st1
       = (Worker.calls st ++ (CallGbif <$> Worker.speciesQueries))%list
    /\ Worker.handleBiodiversity fuel w u st
       = match Worker.backfill fuel w (Worker.no_mock u)
                 (parseInt (or_str (Worker.get u "limit") "20")) live with
         | None => (Diverge, st1)
         | Some results =>
             let r := Worker.json_ok
                        (Worker.DSpecies
                           (slice results (Some 0)
                              (parseInt (or_str (Worker.get u "limit") "20"))))
                        (if (5 <=? length results)%nat
                         then "gbif-enhanced" else "mock") None in
             (Ret r,
              {| Worker.cache :=
                   <[Answers.biodiversity_key u := r]> (Worker.cache st1);
                 Worker.calls := Worker.calls st1;
                 Worker.rand_next := Worker.rand_next st1 |})
         end.
Proof.
  intros Hmiss.
  destruct (collectSpecies_spec w Worker.speciesQueries [] st)
    as (live & st1 & E & Hc & Hl & Hn).
  cbn [app] in E. exists live, st1.
  split; [exact E|]. split; [exact Hn|]. split; [exact Hc|].
  split; [exact Hl|].
  unfold Worker.handleBiodiversity, Worker.cache_match.
  unfold mbind at 1, SE_bind at 1.
  fold (Answers.biodiversity_key u). rewrite Hmiss.
  unfold mbind at 1, SE_bind at 1. rewrite E.
  destruct (Worker.backfill _ _ _ _ _); reflexivity.
Qed.

(** X8. Live-only mode of the biodiversity handler: with [no_mock=1] and no
    cached answer the handler returns after its five searches; the answer
    holds the first [limit] of the records found, all of them live, and is
    stored. It is labelled [gbif-enhanced] only when all five names were
    found and [mock] otherwise, although it holds no mock record. *)
Theorem handleBiodiversity_live_only fuel w u st :
  Worker.no_mock u = true ->
  Worker.cache st !! Answers.biodiversity_key u = None ->
  exists live st1 r st',
    Worker.collectSpecies w Worker.speciesQueries [] st = (Ret live, st1)
    /\ Worker.handleBiodiversity (S fuel) w u st = (Ret r, st')
    /\ r = Worker.json_ok
             (Worker.DSpecies
                (slice live (Some 0)
                   (parseInt (or_str (Worker.get u "limit") "20"))))
             (if (5 <=? length live)%nat then "gbif-enhanced" else "mock")
             None
    /\ ((length live < 5)%nat -> Answers.tagged_mock r)
    /\ Worker.cache st' = <[Answers.biodiversity_key u := r]> (Worker.cache st)
    /\ length (Worker.calls st') = (length (Worker.calls st) + 5)%nat.
Proof.
  intros Hnm Hmiss.
  destruct (handleBiodiversity_miss (S fuel) w u st Hmiss)
    as (live & st1 & E & Hn & Hc & Hl & Eh).
  rewrite Hnm, backfill_exits in Eh by now left.
  exists live, st1. eexists. eexists.
  split; [exact E|]. split; [exact Eh|]. split; [reflexivity|].
  split; [|split].
  - intros Hlt. apply Nat.leb_gt in Hlt. rewrite Hlt.
    eexists _, None. left. reflexivity.
  - cbn [Worker.cache]. now rewrite Hc.
  - cbn [Worker.calls]. rewrite Hl, length_app. reflexivity.
Qed.

(** An instance of [handleBiodiversity_live_only]: GBIF answers two of the
    five searches. *)
Lemma handleBiodiversity_live_only_witness :
  exists live st1 r st',
    Worker.collectSpecies (Examples.two_live 0) Worker.speciesQueries []
      Worker.empty_state = (Ret live, st1)
    /\ Worker.handleBiodiversity 1 (Examples.two_live 0)
         Scenarios.live_only_url Worker.empty_state = (Ret r, st')
    /\ r = Worker.json_ok
             (Worker.DSpecies
                (slice live (Some 0)
                   (parseInt
                      (or_str (Worker.get Scenarios.live_only_url "limit")
                         "20"))))
             (if (5 <=? length live)%nat then "gbif-enhanced" else "mock")
             None
    /\ ((length live < 5)%nat -> Answers.tagged_mock r)
    /\ Worker.cache st'
       = <[Answers.biodiversity_key Scenarios.live_only_url := r]>
           (Worker.cache Worker.empty_state)
    /\ length (Worker.calls st')
       = (length (Worker.calls Worker.empty_state) + 5)%nat.
Proof.
  apply (handleBiodiversity_live_only 0 (Examples.two_live 0)
           Scenarios.live_only_url Worker.empty_state).
  - reflexivity.
  - reflexivity.
Defined.

(** ** Rejections *)

Lemma handleFireAlerts_returns w u env st :
  exists r st', Worker.handleFireAlerts w u env st = (Ret r, st').
Proof.
  destruct (Worker.cache st !! Answers.fire_key u) as [r|] eqn:Hk.
  - exists r, st. now apply handleFireAlerts_hit.
  - destruct (Worker.handleFireAlerts w u env st) as [o st'] eqn:E.
    destruct (handleFireAlerts_miss w u env st o st' Hk E)
      as (r & _ & -> & _).
    eauto.
Qed.

Lemma handleWeather_returns w u env st :
  exists r st', Worker.handleWeather w u env st = (Ret r, st').
Proof.
  destruct (falsy_str (Worker.get u "lat")) eqn:Hlat.
  { unfold Worker.handleWeather. rewrite Hlat. cbn [orb]. eauto. }
  destruct (falsy_str (Worker.get u "lng")) eqn:Hlng.
  { unfold Worker.handleWeather. rewrite Hlat, Hlng. cbn [orb]. eauto. }
  destruct (Worker.cache st !! Answers.weather_key u) as [r|] eqn:Hk.
  - exists r, st. now apply handleWeather_hit.
  - destruct (Worker.handleWeather w u env st) as [o st'] eqn:E.
    destruct (handleWeather_miss w u env st o st' Hlat Hlng Hk E)
      as (r & -> & _).
    eauto.
Qed.

Lemma handleDeforestationAlerts_returns w u st :
  Answers.days_ok w u = true ->
  exists r st', Worker.handleDeforestationAlerts w u st = (Ret r, st').
Proof.
  unfold Answers.days_ok. intros Hok.
  destruct (parseInt _) as [days|] eqn:Hd; [|discriminate].
  destruct (Worker.cache st !! Answers.deforestation_key w u) as [r|] eqn:Hk.
  - exists r, st. now apply handleDeforestationAlerts_hit with days.
  - destruct (Worker.handleDeforestationAlerts w u st) as [o st'] eqn:E.
    destruct (handleDeforestationAlerts_miss w u st o st' days Hd Hok Hk E)
      as (r & -> & _).
    eauto.
Qed.

Lemma handleDeforestationAlerts_throws w u st :
  Answers.days_ok w u = false ->
  Worker.handleDeforestationAlerts w u st = (Throw "Invalid time value", st).
Proof.
  unfold Answers.days_ok, Worker.handleDeforestationAlerts. intros Hok.
  destruct (parseInt _) as [days|]; [|reflexivity].
  cbn [fmap option_fmap option_map].
  fold (Answers.gfw_start w days). now rewrite Hok.
Qed.

Lemma handleBiodiversity_no_throw fuel w u st msg st' :
  Worker.handleBiodiversity fuel w u st <> (Throw msg, st').
Proof.
  destruct (Worker.cache st !! Answers.biodiversity_key u) as [r|] eqn:Hk.
  - now rewrite (handleBiodiversity_hit fuel w u st r Hk).
  - destruct (handleBiodiversity_miss fuel w u st Hk)
      as (live & st1 & _ & _ & _ & _ & ->).
    now destruct (Worker.backfill _ _ _ _ _).
Qed.

(** X9. The only way a request is rejected instead of answered: the worker's
    [fetch] throws exactly for a request to [/deforestation-alerts] whose
    [days] parameter gives no printable start date (not a number, or out of
    the range of dates); the exception is then [Invalid time value], raised
    before the cache or any upstream is touched. Every other request is
    answered, or - the biodiversity backfill - never returns. *)
Theorem fetch_rejects_iff fuel w request env st :
  let rejected :=
    Worker.method request <> "OPTIONS"
    /\ Worker.route_path (Worker.url request) = "/deforestation-alerts"
    /\ Answers.days_ok w (Worker.url request) = false in
  (rejected ->
   Worker.fetch fuel w request env st = (Throw "Invalid time value", st))
  /\ (~ rejected ->
      forall msg st', Worker.fetch fuel w request env st <> (Throw msg, st')).
Proof.
  intros rejected. subst rejected. unfold Worker.fetch. cbv zeta. split.
  - intros (Hm & Hp & Hd). apply String.eqb_neq in Hm. rewrite Hm, Hp.
    cbn [String.eqb Ascii.eqb Bool.eqb].
    now apply handleDeforestationAlerts_throws.
  - intros Hnot msg st'.
    destruct (String.eqb (Worker.method request) "OPTIONS") eqn:Hm;
      [discriminate|].
    apply String.eqb_neq in Hm.
    destruct (String.eqb _ "/health"); [discriminate|].
    destruct (String.eqb _ "/fire-alerts").
    { destruct (handleFireAlerts_returns w (Worker.url request) env st)
        as (r & st2 & ->). discriminate. }
    destruct (String.eqb _ "/deforestation-alerts") eqn:Hp.
    { apply String.eqb_eq in Hp.
      destruct (Answers.days_ok w (Worker.url request)) eqn:Hd.
      - destruct (handleDeforestationAlerts_returns w (Worker.url request) st Hd)
          as (r & st2 & ->). discriminate.
      - destruct Hnot. auto. }
    destruct (String.eqb _ "/weather").
    { destruct (handleWeather_returns w (Worker.url request) env st)
        as (r & st2 & ->). discriminate. }
    destruct (String.eqb _ "/forest-regions").
    { unfold Worker.handleForestRegions, Worker.cache_match.
      unfold mbind at 1, SE_bind at 1.
      destruct (Worker.cache st !! _); discriminate. }
    destruct (String.eqb _ "/biodiversity").
    { apply handleBiodiversity_no_throw. }
    destruct (String.eqb _ "/satellite-data").
    { unfold Worker.handleSatelliteData.
      destruct (falsy_str _ || falsy_str _); discriminate. }
    destruct (String.eqb _ "/user-profile").
    { unfold Worker.handleUserProfile.
      destruct (falsy_str _); discriminate. }
    discriminate.
Qed.

(** ** What the edge cache keeps *)

(** X10. The edge cache is consulted before [no_mock]: once a request
    without a key and with mocks allowed has been answered, every later
    request for the same region and days - also one in live-only mode, with
    a key, at any time - is answered with the stored mock alerts, tagged
    [mock], and no upstream is called. *)
Theorem cached_mock_answers_live_only w w2 u1 u2 env1 env2 st o st1 :
  Answers.fire_key u2 = Answers.fire_key u1 ->
  Worker.no_mock u1 = false ->
  Answers.firms_api_key u1 env1 = Worker.FIRMS_PLACEHOLDER ->
  Worker.cache st !! Answers.fire_key u1 = None ->
  Worker.handleFireAlerts w u1 env1 st = (o, st1) ->
  Worker.handleFireAlerts w2 u2 env2 st1
  = (Ret (Worker.json_ok (Worker.DAlerts (Worker.generateMockFireAlerts w))
            "mock" None), st1).
Proof.
  intros Hkey Hnm Hph Hmiss E.
  destruct (handleFireAlerts_miss w u1 env1 st o st1 Hmiss E)
    as (r & n & -> & _ & _ & _ & H).
  destruct H as [(_ & _ & [(Hf & _) | (_ & -> & Hc)]) | (Hk & _)];
    try congruence.
  apply handleFireAlerts_hit. rewrite Hkey, Hc. apply lookup_insert_eq.
Qed.

(** An instance of [cached_mock_answers_live_only]: the second request
    carries [no_mock=1] and a key is configured by then. *)
Lemma cached_mock_answers_live_only_witness :
  Worker.no_mock Scenarios.live_only_url = true
  /\ Worker.handleFireAlerts (Examples.firms_500 60000)
       Scenarios.live_only_url Scenarios.with_keys
       (Worker.handleFireAlerts (Examples.offline 0) Scenarios.mock_url
          Examples.no_keys Worker.empty_state).2
     = (Ret (Worker.json_ok
               (Worker.DAlerts
                  (Worker.generateMockFireAlerts (Examples.offline 0)))
               "mock" None),
        (Worker.handleFireAlerts (Examples.offline 0) Scenarios.mock_url
           Examples.no_keys Worker.empty_state).2).
Proof.
  split; [reflexivity|].
  apply (cached_mock_answers_live_only (Examples.offline 0)
           (Examples.firms_500 60000) Scenarios.mock_url
           Scenarios.live_only_url Examples.no_keys Scenarios.with_keys
           Worker.empty_state
           (Worker.handleFireAlerts (Examples.offline 0) Scenarios.mock_url
              Examples.no_keys Worker.empty_state).1).
  - reflexivity.
  - reflexivity.
  - reflexivity.
  - reflexivity.
  - apply surjective_pairing.
Defined.

(** X11. The deforestation handler stores whatever it answers with mocks
    allowed - the fallback too: after a miss, the same request is answered
    from the cache with the same body and without a call to Global Forest
    Watch at any later time of the same day (a time at which the [days]
    parameter still gives a printable start date), whatever the upstream
    would now answer; if the upstream was unreachable, that body is the
    mock list tagged [mock-fallback]. *)
Theorem deforestation_fallback_is_cached w w2 u st o st1 :
  Worker.no_mock u = false ->
  Answers.days_ok w u = true ->
  Worker.cache st !! Answers.deforestation_key w u = None ->
  Answers.days_ok w2 u = true ->
  isoDate w2 (now w2) = isoDate w (now w) ->
  Worker.handleDeforestationAlerts w u st = (o, st1) ->
  exists r,
    o = Ret r
    /\ Worker.handleDeforestationAlerts w2 u st1 = (Ret r, st1)
    /\ forall msg days,
         parseInt (or_str (Worker.get u "days") "90") = Some days ->
         gfw w (or_str (Worker.get u "region") "BRA")
           (isoDate w (Answers.gfw_start w days)) (isoDate w (now w))
           (parseInt (or_str (Worker.get u "limit") "50")) = NetFail msg ->
         r = Worker.json_ok
               (Worker.DAlerts (Worker.generateMockDeforestationAlerts w))
               "mock-fallback" (Some msg).
Proof.
  intros Hnm Hok Hmiss Hok2 Hiso E.
  pose proof Hok as Hok'. unfold Answers.days_ok in Hok', Hok2.
  destruct (parseInt (or_str (Worker.get u "days") "90")) as [days|] eqn:Hd;
    [|discriminate].
  destruct (handleDeforestationAlerts_miss w u st o st1 days Hd Hok' Hmiss E)
    as (r & -> & _ & H).
  exists r. split; [reflexivity|].
  assert (Hc : Worker.cache st1
               = <[Answers.deforestation_key w u := r]> (Worker.cache st)).
  { destruct H as [(out & _ & _ & Hc) | [(Hf & _) | (_ & _ & Hc)]];
      congruence. }
  split.
  - apply handleDeforestationAlerts_hit with days; [exact Hd | |].
    + exact Hok2.
    + replace (Answers.deforestation_key w2 u)
        with (Answers.deforestation_key w u)
        by (unfold Answers.deforestation_key; now rewrite Hiso).
      rewrite Hc. apply lookup_insert_eq.
  - intros msg days' Hd' Hfail. assert (days' = days) as -> by congruence.
    clear Hc.
    revert E. unfold Worker.handleDeforestationAlerts.
    rewrite Hd. cbn [fmap option_fmap option_map].
    fold (Answers.gfw_start w days). rewrite Hok'. cbn [negb].
    unfold Worker.cache_match. unfold mbind at 1, SE_bind at 1.
    replace ("https://cache.deforestation-alerts/"
             +:+ or_str (Worker.get u "region") "BRA" +:+ "/"
             +:+ int_to_string (Some days) +:+ "/" +:+ isoDate w (now w)
             +:+ "/"
             +:+ int_to_string (parseInt (or_str (Worker.get u "limit") "50")))
      with (Answers.deforestation_key w u)
      by (unfold Answers.deforestation_key; now rewrite Hd).
    rewrite Hmiss. unfold try_catch, Worker.do_fetch.
    unfold mbind at 1, SE_bind at 1. rewrite Hfail, Hnm.
    unfold mbind, SE_bind, mret, SE_ret, Worker.cache_put.
    intros E. now injection E as <- _.
Qed.

(** An instance of [deforestation_fallback_is_cached]: the upstream is
    unreachable at the first request; the second request comes an hour
    later. *)
Lemma deforestation_fallback_is_cached_witness :
  exists r,
    (Worker.handleDeforestationAlerts (Examples.offline 0) Scenarios.mock_url
       Worker.empty_state).1 = Ret r
    /\ Worker.handleDeforestationAlerts (Examples.two_live 3600000)
         Scenarios.mock_url
         (Worker.handleDeforestationAlerts (Examples.offline 0)
            Scenarios.mock_url Worker.empty_state).2
       = (Ret r,
          (Worker.handleDeforestationAlerts (Examples.offline 0)
             Scenarios.mock_url Worker.empty_state).2)
    /\ forall msg days,
         parseInt (or_str (Worker.get Scenarios.mock_url "days") "90")
         = Some days ->
         gfw (Examples.offline 0)
           (or_str (Worker.get Scenarios.mock_url "region") "BRA")
           (isoDate (Examples.offline 0)
              (Answers.gfw_start (Examples.offline 0) days))
           (isoDate (Examples.offline 0) (now (Examples.offline 0)))
           (parseInt (or_str (Worker.get Scenarios.mock_url "limit") "50"))
         = NetFail msg ->
         r = Worker.json_ok
               (Worker.DAlerts
                  (Worker.generateMockDeforestationAlerts (Examples.offline 0)))
               "mock-fallback" (Some msg).
Proof.
  apply (deforestation_fallback_is_cached (Examples.offline 0)
           (Examples.two_live 3600000) Scenarios.mock_url Worker.empty_state).
  - reflexivity.
  - reflexivity.
  - reflexivity.
  - reflexivity.
  - reflexivity.
  - apply surjective_pairing.
Defined.

Lemma handleFireAlerts_stores w u env st o st' :
  Worker.handleFireAlerts w u env st = (o, st') ->
  Answers.stores_error_free st st'.
Proof.
  intros E.
  destruct (Worker.cache st !! Answers.fire_key u) as [r|] eqn:Hk.
  - rewrite (handleFireAlerts_hit w u env st r Hk) in E.
    injection E as _ <-. now left.
  - destruct (handleFireAlerts_miss w u env st o st' Hk E)
      as (r & n & _ & _ & _ & _ & H).
    destruct H as [(_ & _ & [(_ & _ & Hc) | (_ & -> & Hc)])
                  | (_ & [(d & s & csv & _ & _ & _ & _ & -> & Hc)
                         | (_ & Hc & _)])];
      try (now left); right; eexists _, _; (split; [|exact Hc]);
      eexists _, _; reflexivity.
Qed.

Lemma handleWeather_stores w u env st o st' :
  Worker.handleWeather w u env st = (o, st') ->
  Answers.stores_error_free st st'.
Proof.
  intros E.
  destruct (falsy_str (Worker.get u "lat")) eqn:Hlat.
  { unfold Worker.handleWeather in E. rewrite Hlat in E. cbn [orb] in E.
    injection E as _ <-. now left. }
  destruct (falsy_str (Worker.get u "lng")) eqn:Hlng.
  { unfold Worker.handleWeather in E. rewrite Hlat, Hlng in E.
    cbn [orb] in E. injection E as _ <-. now left. }
  destruct (Worker.cache st !! Answers.weather_key u) as [r|] eqn:Hk.
  - rewrite (handleWeather_hit w u env st r Hlat Hlng Hk) in E.
    injection E as _ <-. now left.
  - destruct (handleWeather_miss w u env st o st' Hlat Hlng Hk E)
      as (r & _ & H).
    destruct H as [(_ & _ & [(_ & _ & Hc) | (_ & (d & ->) & Hc)])
                  | (_ & _ & [(s & d & _ & _ & -> & Hc)
                             | [(_ & _ & Hc) | (_ & _ & Hc)]])];
      try (now left); right; eexists _, _; (split; [|exact Hc]);
      eexists _, _; reflexivity.
Qed.

Lemma handleBiodiversity_stores fuel w u st o st' :
  Worker.handleBiodiversity fuel w u st = (o, st') ->
  Answers.stores_error_free st st'.
Proof.
  intros E.
  destruct (Worker.cache st !! Answers.biodiversity_key u) as [r|] eqn:Hk.
  - rewrite (handleBiodiversity_hit fuel w u st r Hk) in E.
    injection E as _ <-. now left.
  - destruct (handleBiodiversity_miss fuel w u st Hk)
      as (live & st1 & _ & _ & Hc & _ & Eh).
    rewrite Eh in E.
    destruct (Worker.backfill _ _ _ _ _); injection E as _ <-.
    + right. eexists _, _. split; [eexists _, _; reflexivity|].
      cbn [Worker.cache]. now rewrite Hc.
    + now left.
Qed.

(** X12. An invariant of the edge cache: as long as no request goes to
    [/deforestation-alerts], every stored answer is one without an error
    field - no handler but the deforestation handler ever stores a fallback
    or an error answer. *)
Theorem cache_keeps_error_free fuel w request env st o st' :
  Worker.route_path (Worker.url request) <> "/deforestation-alerts" ->
  map_Forall (fun _ r => Answers.error_free r) (Worker.cache st) ->
  Worker.fetch fuel w request env st = (o, st') ->
  map_Forall (fun _ r => Answers.error_free r) (Worker.cache st').
Proof.
  intros Hp Hinv E.
  assert (Hstep : Answers.stores_error_free st st').
  { revert E. unfold Worker.fetch. cbv zeta.
    destruct (String.eqb (Worker.method request) "OPTIONS").
    { intros E. injection E as _ <-. now left. }
    destruct (String.eqb _ "/health").
    { intros E. injection E as _ <-. now left. }
    destruct (String.eqb _ "/fire-alerts").
    { apply handleFireAlerts_stores. }
    destruct (String.eqb _ "/deforestation-alerts") eqn:Hd.
    { apply String.eqb_eq in Hd. contradiction. }
    destruct (String.eqb _ "/weather").
    { apply handleWeather_stores. }
    destruct (String.eqb _ "/forest-regions").
    { unfold Worker.handleForestRegions, Worker.cache_match.
      unfold mbind at 1, SE_bind at 1.
      destruct (Worker.cache st !! _); intros E; injection E as _ <-.
      - now left.
      - right. eexists _, _. split; [eexists _, _; reflexivity|reflexivity]. }
    destruct (String.eqb _ "/biodiversity").
    { apply handleBiodiversity_stores. }
    destruct (String.eqb _ "/satellite-data").
    { unfold Worker.handleSatelliteData.
      destruct (falsy_str _ || falsy_str _); intros E; injection E as _ <-;
        now left. }
    destruct (String.eqb _ "/user-profile").
    { unfold Worker.handleUserProfile.
      destruct (falsy_str _); intros E; injection E as _ <-; now left. }
    intros E. injection E as _ <-. now left. }
  destruct Hstep as [-> | (k & r & Hr & ->)]; [exact Hinv|].
  now apply map_Forall_insert_2.
Qed.

(** An instance of [cache_keeps_error_free]: a fire-alert request whose
    upstream fails, on an empty cache. *)
Lemma cache_keeps_error_free_witness :
  map_Forall (fun _ r => Answers.error_free r)
    (Worker.cache
       (Worker.fetch 0 (Examples.firms_500 0)
          {| Worker.method := "GET"; Worker.url := Scenarios.mock_url;
             Worker.authorization := None |}
          Scenarios.with_keys Worker.empty_state).2).
Proof.
  apply (cache_keeps_error_free 0 (Examples.firms_500 0)
           {| Worker.method := "GET"; Worker.url := Scenarios.mock_url;
              Worker.authorization := None |}
           Scenarios.with_keys Worker.empty_state
           (Worker.fetch 0 (Examples.firms_500 0)
              {| Worker.method := "GET"; Worker.url := Scenarios.mock_url;
                 Worker.authorization := None |}
              Scenarios.with_keys Worker.empty_state).1).
  - discriminate.
  - apply map_Forall_empty.
  - apply surjective_pairing.
Defined.

(** X13. The fire-alert handler's upstream traffic, for every request and
    state: it sends FIRMS requests only, for a prefix of the datasets it is
    to try and in their order - at most three, at most one when the request
    names a dataset, none when the answer is cached or no key is
    configured - all with the same key, region, days and date; it draws no
    random number. *)
Theorem handleFireAlerts_upstream_calls w u env st :
  exists n,
    (n <= length (Answers.firms_datasets u) <= 3)%nat
    /\ (Worker.get u "dataset" <> None ->
        Worker.get u "dataset" <> Some "" -> (n <= 1)%nat)
    /\ (Answers.firms_api_key u env = Worker.FIRMS_PLACEHOLDER -> n = 0%nat)
    /\ (Worker.cache st !! Answers.fire_key u <> None -> n = 0%nat)
    /\ Worker.calls (Worker.handleFireAlerts w u env st).2
       = (Worker.calls st
          ++ ((fun d =>
                 CallFirms (Answers.firms_api_key u env) d
                   (or_str (Worker.get u "region")
                      (or_str (Worker.get u "area") "world"))
                   (or_str (Worker.get u "days") "1")
                   (Answers.firms_date w u))
              <$> take n (Answers.firms_datasets u)))%list
    /\ Worker.rand_next (Worker.handleFireAlerts w u env st).2
       = Worker.rand_next st.
Proof.
  assert (Hlen : (length (Answers.firms_datasets u) <= 3)%nat).
  { unfold Answers.firms_datasets. destruct (String.eqb _ ""); cbn; lia. }
  assert (Hforced : Worker.get u "dataset" <> None ->
                    Worker.get u "dataset" <> Some "" ->
                    (length (Answers.firms_datasets u) <= 1)%nat).
  { unfold Answers.firms_datasets.
    destruct (String.eqb _ "") eqn:He; [|cbn; lia].
    intros H1 H2. exfalso. apply String.eqb_eq in He.
    destruct (Worker.get u "dataset") as [[|c s]|]; [congruence| |congruence].
    cbn in He. discriminate He. }
  destruct (Worker.cache st !! Answers.fire_key u) as [r|] eqn:Hk.
  - exists 0%nat. rewrite (handleFireAlerts_hit w u env st r Hk).
    cbn [snd take fmap list_fmap]. rewrite app_nil_r.
    repeat split; auto; lia.
  - destruct (Worker.handleFireAlerts w u env st) as [o st'] eqn:E.
    destruct (handleFireAlerts_miss w u env st o st' Hk E)
      as (r & n & _ & Hr & Hn & Hcalls & H).
    exists n. cbn [snd].
    split; [lia|]. split; [intros; specialize (Hforced ltac:(auto) ltac:(auto)); lia|].
    split; [|split; [congruence|split; [exact Hcalls|exact Hr]]].
    intros Hph. destruct H as [(_ & -> & _) | (Hne & _)];
      [reflexivity|contradiction].
Qed.

(** ** Species records *)

Lemma starts_with_elem p : forall cs c,
  starts_with p cs = true -> c ∈ p -> c ∈ cs.
Proof.
  induction p as [|a p IH]; intros cs c H Hc; [inversion Hc|].
  destruct cs as [|b cs]; [discriminate|]. cbn in H.
  apply andb_true_iff in H as [Hab Hp]. apply Ascii.eqb_eq in Hab. subst b.
  apply elem_of_cons in Hc as [-> | Hc].
  - apply list_elem_of_here.
  - apply list_elem_of_further. now apply IH.
Qed.

Lemma includes_chars_elem p c : forall cs,
  includes_chars p cs = true -> c ∈ p -> c ∈ cs.
Proof.
  induction cs as [|b cs IH]; intros H Hc; cbn in H;
    apply orb_true_iff in H as [H | H].
  - now apply starts_with_elem with p.
  - discriminate.
  - now apply starts_with_elem with p.
  - apply list_elem_of_further. now apply IH.
Qed.

Lemma lower_char_blank c : lower_char c = " "%char -> c = " "%char.
Proof.
  destruct c as [[] [] [] [] [] [] [] []]; vm_compute; congruence.
Qed.

Lemma lower_upper_char c : lower_char (upper_char c) = lower_char c.
Proof. destruct c as [[] [] [] [] [] [] [] []]; reflexivity. Qed.

Lemma toLowerCase_toUpperCase s : toLowerCase (toUpperCase s) = toLowerCase s.
Proof.
  unfold toLowerCase, toUpperCase.
  rewrite list_ascii_of_string_of_list_ascii, map_map.
  f_equal. apply map_ext. intros c. apply lower_upper_char.
Qed.

Lemma toUpperCase_empty s : toUpperCase s = "" -> s = "".
Proof. destruct s; [reflexivity|discriminate]. Qed.

(** X14. Classification of the GBIF threat status ignores the case of
    letters, and a status without a blank is never classified as critically
    endangered: the test looks for the words [critically endangered]
    separated by a blank, so a status written with an underscore falls
    through to the next test. *)
Theorem determineConservationStatus_wording g s :
  gb_threatStatus g = Some s ->
  Worker.determineConservationStatus
    {| gb_key := gb_key g; gb_scientificName := gb_scientificName g;
       gb_vernacularName := gb_vernacularName g;
       gb_canonicalName := gb_canonicalName g;
       gb_threatStatus := Some (toUpperCase s);
       gb_habitat := gb_habitat g |}
  = Worker.determineConservationStatus g
  /\ (" "%char ∉ list_ascii_of_string s ->
      Worker.determineConservationStatus g <> critically_endangered
      /\ (includes (toLowerCase s) "endangered" = true ->
          Worker.determineConservationStatus g = declining)).
Proof.
  intros Hs. unfold Worker.determineConservationStatus.
  cbn [gb_threatStatus]. rewrite Hs. split.
  - assert (E : toLowerCase (or_str (Some (toUpperCase s)) "")
                = toLowerCase (or_str (Some s) "")).
    { unfold or_str. destruct (String.eqb (toUpperCase s) "") eqn:E1.
      - apply String.eqb_eq, toUpperCase_empty in E1. now subst s.
      - destruct (String.eqb s "") eqn:E2.
        + apply String.eqb_eq in E2. now subst s.
        + apply toLowerCase_toUpperCase. }
    now rewrite E.
  - intros Hblank.
    assert (Hnot : includes (toLowerCase (or_str (Some s) ""))
                     "critically endangered" = false).
    { destruct (includes _ "critically endangered") eqn:Hi; [|reflexivity].
      exfalso. apply Hblank. unfold includes in Hi.
      apply includes_chars_elem with (c := " "%char) in Hi.
      - unfold toLowerCase in Hi.
        rewrite list_ascii_of_string_of_list_ascii in Hi.
        apply list_elem_of_fmap in Hi as (c & Hc & Hin).
        symmetry in Hc. apply lower_char_blank in Hc. subst c.
        unfold or_str in Hin. destruct (String.eqb s ""); [inversion Hin|].
        exact Hin.
      - cbn. repeat first [apply list_elem_of_here | apply list_elem_of_further]. }
    rewrite Hnot. split.
    + destruct (_ || _); [discriminate|]. destruct (_ || _); discriminate.
    + intros He.
      assert (E : or_str (Some s) "" = s).
      { unfold or_str. destruct (String.eqb s "") eqn:E2; [|reflexivity].
        apply String.eqb_eq in E2. now subst s. }
      rewrite E, He. reflexivity.
Qed.

(** An instance of [determineConservationStatus_wording]: the status as the
    IUCN category is spelled by GBIF. *)
Lemma determineConservationStatus_wording_witness :
  Worker.determineConservationStatus
    (Scenarios.gbif_status "CRITICALLY_ENDANGERED") = declining.
Proof.
  apply (determineConservationStatus_wording
           (Scenarios.gbif_status "CRITICALLY_ENDANGERED")
           "CRITICALLY_ENDANGERED" eq_refl).
  - refine (bool_decide_unpack _ _). vm_compute. exact I.
  - reflexivity.
Defined.

Lemma Qtrunc_range q (a b : Z) :
  (inject_Z a <= q)%Q -> (q <= inject_Z b)%Q -> a <= Worker.Qtrunc q <= b.
Proof.
  intros Ha Hb. unfold Worker.Qtrunc. destruct (Qle_bool 0 q); split.
  - rewrite <- (Qfloor_Z a). now apply Qfloor_resp_le.
  - rewrite Zle_Qle. eapply Qle_trans; [apply Qfloor_le|exact Hb].
  - rewrite Zle_Qle. eapply Qle_trans; [exact Ha|apply Qle_ceiling].
  - rewrite <- (Qceiling_Z b). now apply Qceiling_resp_le.
Qed.

Lemma rounding_exact : Answers.rounding Answers.exact.
Proof. split; [intros x y H; exact H | intros z _; reflexivity]. Qed.

(** A rounding keeps a result between two halves of integers. *)
Lemma rounding_keeps fl (lo hi : Z) (x : Q) :
  Answers.rounding fl ->
  Z.abs lo <= 2 ^ 53 -> Z.abs hi <= 2 ^ 53 ->
  (lo # 2 <= x <= hi # 2)%Q -> (lo # 2 <= fl x <= hi # 2)%Q.
Proof.
  intros [Hmono Hfix] Hlo Hhi [H1 H2]. split.
  - rewrite <- (Hfix lo Hlo). now apply Hmono.
  - rewrite <- (Hfix hi Hhi). now apply Hmono.
Qed.

(** Arithmetic on rationals given by numerator and denominator. *)
Ltac q_unfold :=
  repeat match goal with
         | H : (_ <= _ <= _)%Q |- _ => destruct H as [? ?]
         end;
  repeat match goal with
         | x : Q |- _ => destruct x as [? ?]
         end;
  cbv [Qle Qlt Qeq Qplus Qminus Qmult Qopp inject_Z Qnum Qden] in *;
  rewrite ?Pos2Z.inj_mul in *;
  change (2 ^ 53) with 9007199254740992 in *;
  change (2 ^ 51) with 2251799813685248 in *.

Ltac q_arith := q_unfold; repeat split; lia.
Ltac q_narith := q_unfold; repeat split; nia.

(** The bounds of the result [y] of an operation after rounding, from
    bounds of the operands; the endpoints are given in halves. *)
Ltac rounded fl Hfl x lo hi y :=
  let H := fresh "Hb" in
  assert (H : (lo # 2 <= fl x <= hi # 2)%Q);
  [ apply (rounding_keeps fl lo hi x Hfl);
    [ change (2 ^ 53) with 9007199254740992;
      change (2 ^ 51) with 2251799813685248 in *; lia
    | change (2 ^ 53) with 9007199254740992;
      change (2 ^ 51) with 2251799813685248 in *; lia
    | try solve [q_arith | q_narith] ]
  | generalize dependent (fl x); intros y H ].

Lemma times_bounds fl r (k : Z) :
  Answers.rounding fl -> (0 <= r)%Q -> (r < 1)%Q -> 0 <= k <= 2 ^ 51 ->
  (0 <= Answers.times fl r (inject_Z k) <= inject_Z k)%Q.
Proof.
  intros Hfl H0 H1 Hk. unfold Answers.times.
  rounded fl Hfl (r * inject_Z k)%Q 0 (2 * k) y.
  q_arith.
Qed.

Lemma spread_bounds fl r (h : Z) :
  Answers.rounding fl -> (0 <= r)%Q -> (r < 1)%Q -> 0 <= h <= 2 ^ 51 ->
  (inject_Z (- h) <= Answers.spread fl r (inject_Z (2 * h)) <= inject_Z h)%Q.
Proof.
  intros Hfl H0 H1 Hk. unfold Answers.spread.
  rounded fl Hfl (r - 0.5)%Q (-1) 1 y.
  rounded fl Hfl (y * inject_Z (2 * h))%Q (- (2 * h)) (2 * h) z.
  q_arith.
Qed.

Lemma scaled_bounds fl (a k : Z) r :
  Answers.rounding fl -> (0 <= r)%Q -> (r < 1)%Q ->
  Z.abs a <= 2 ^ 51 -> 0 <= k <= 2 ^ 51 ->
  (inject_Z a <= Answers.scaled fl (inject_Z a) r (inject_Z k)
   <= inject_Z (a + k))%Q.
Proof.
  intros Hfl H0 H1 Ha Hk. unfold Answers.scaled.
  pose proof (times_bounds fl r k Hfl H0 H1 Hk) as Hy.
  generalize dependent (Answers.times fl r (inject_Z k)). intros y Hy.
  rounded fl Hfl (inject_Z a + y)%Q (2 * a) (2 * (a + k)) z.
  q_arith.
Qed.

Lemma centred_bounds fl (a h : Z) r :
  Answers.rounding fl -> (0 <= r)%Q -> (r < 1)%Q ->
  Z.abs a <= 2 ^ 51 -> 0 <= h <= 2 ^ 51 ->
  (inject_Z (a - h) <= Answers.centred fl (inject_Z a) r (inject_Z (2 * h))
   <= inject_Z (a + h))%Q.
Proof.
  intros Hfl H0 H1 Ha Hk. unfold Answers.centred.
  pose proof (spread_bounds fl r h Hfl H0 H1 Hk) as Hy.
  generalize dependent (Answers.spread fl r (inject_Z (2 * h))). intros y Hy.
  rounded fl Hfl (inject_Z a + y)%Q (2 * (a - h)) (2 * (a + h)) z.
  q_arith.
Qed.

Lemma Qfloor_between q (a b : Z) :
  (inject_Z a <= q <= inject_Z b)%Q -> a <= Qfloor q <= b.
Proof.
  intros [Ha Hb]. split.
  - rewrite <- (Qfloor_Z a). now apply Qfloor_resp_le.
  - rewrite <- (Qfloor_Z b). now apply Qfloor_resp_le.
Qed.

Lemma species_numbers_bounds fl r1 r2 r4 r5 :
  Answers.rounding fl ->
  (0 <= r1)%Q /\ (r1 < 1)%Q -> (0 <= r2)%Q /\ (r2 < 1)%Q ->
  (0 <= r4)%Q /\ (r4 < 1)%Q -> (0 <= r5)%Q /\ (r5 < 1)%Q ->
  let '(p, t, c, th) := Answers.species_numbers fl r1 r2 r4 r5 in
  1000 <= p <= 101000 /\ (-3 <= t <= 3)%Q /\ (85 <= c <= 95)%Q
  /\ 0 <= th <= 100.
Proof.
  intros Hfl [A1 B1] [A2 B2] [A4 B4] [A5 B5]. unfold Answers.species_numbers.
  pose proof (times_bounds fl r1 100000 Hfl A1 B1 ltac:(vm_compute; split; discriminate)) as H1.
  pose proof (spread_bounds fl r2 3 Hfl A2 B2 ltac:(vm_compute; split; discriminate)) as H2.
  pose proof (scaled_bounds fl 85 10 r4 Hfl A4 B4 ltac:(vm_compute; discriminate)
                ltac:(vm_compute; split; discriminate)) as H4.
  pose proof (times_bounds fl r5 100 Hfl A5 B5 ltac:(vm_compute; split; discriminate)) as H5.
  apply Qfloor_between in H1, H5. unfold inject_Z in H1, H5.
  split; [lia|]. split; [exact H2|]. split; [exact H4|]. exact H5.
Qed.

Lemma weather_numbers_bounds fl r2 r4 r5 r6 :
  Answers.rounding fl ->
  (0 <= r2)%Q /\ (r2 < 1)%Q -> (0 <= r4)%Q /\ (r4 < 1)%Q ->
  (0 <= r5)%Q /\ (r5 < 1)%Q -> (0 <= r6)%Q /\ (r6 < 1)%Q ->
  let '(humidity, windSpeed, pressure, cloudCover) :=
    Answers.weather_numbers fl r2 r4 r5 r6 in
  (60 <= humidity <= 90)%Q /\ (5 <= windSpeed <= 20)%Q
  /\ (1003 <= pressure <= 1023)%Q /\ (0 <= cloudCover <= 100)%Q.
Proof.
  intros Hfl [A2 B2] [A4 B4] [A5 B5] [A6 B6]. unfold Answers.weather_numbers.
  pose proof (scaled_bounds fl 60 30 r2 Hfl A2 B2 ltac:(vm_compute; discriminate)
                ltac:(vm_compute; split; discriminate)) as H2.
  pose proof (scaled_bounds fl 5 15 r4 Hfl A4 B4 ltac:(vm_compute; discriminate)
                ltac:(vm_compute; split; discriminate)) as H4.
  pose proof (centred_bounds fl 1013 10 r5 Hfl A5 B5 ltac:(vm_compute; discriminate)
                ltac:(vm_compute; split; discriminate)) as H5.
  pose proof (times_bounds fl r6 100 Hfl A6 B6 ltac:(vm_compute; split; discriminate)) as H6.
  split; [exact H2|]. split; [exact H4|]. split; [exact H5|]. exact H6.
Qed.

Lemma satellite_numbers_bounds fl r1 r2 :
  Answers.rounding fl ->
  (0 <= r1)%Q /\ (r1 < 1)%Q -> (0 <= r2)%Q /\ (r2 < 1)%Q ->
  let '(coverage, cloudCover) := Answers.satellite_numbers fl r1 r2 in
  (85 <= coverage <= 95)%Q /\ (0 <= cloudCover <= 30)%Q.
Proof.
  intros Hfl [A1 B1] [A2 B2]. unfold Answers.satellite_numbers.
  pose proof (scaled_bounds fl 85 10 r1 Hfl A1 B1 ltac:(vm_compute; discriminate)
                ltac:(vm_compute; split; discriminate)) as H1.
  pose proof (times_bounds fl r2 30 Hfl A2 B2 ltac:(vm_compute; split; discriminate)) as H2.
  split; [exact H1|exact H2].
Qed.

(** X15. A parsed GBIF record under the contract of [Math.random]: the
    parser returns after five draws, with a population in [1000, 101000],
    a trend in [-3, 3], a confidence in [85, 95], a threat level in
    [0, 100] and a last sighting within the thirty days before now. The
    intervals are closed: the numbers are those of
    [Answers.species_numbers] in exact arithmetic, and under every rounding
    of the operations they stay within the same bounds, which a draw
    close to 1 reaches in doubles. *)
Theorem parseGBIFSpeciesData_ranges w g st :
  Answers.unit_random w ->
  exists s st',
    Worker.parseGBIFSpeciesData w g st = (Ret s, st')
    /\ Worker.rand_next st' = (5 + Worker.rand_next st)%nat
    /\ 1000 <= s_population s <= 101000
    /\ (-3 <= s_trend s <= 3)%Q
    /\ (85 <= s_confidence s <= 95)%Q
    /\ 0 <= s_threatLevel s <= 100
    /\ (exists t, s_lastSeen s = TsAt t
                  /\ now w - 30 * Worker.day_ms <= t <= now w)
    /\ (s_population s, s_trend s, s_confidence s, s_threatLevel s)
       = Answers.species_numbers Answers.exact
           (random w (Worker.rand_next st))
           (random w (1 + Worker.rand_next st)%nat)
           (random w (3 + Worker.rand_next st)%nat)
           (random w (4 + Worker.rand_next st)%nat)
    /\ forall fl, Answers.rounding fl ->
         let '(population, trend, confidence, threatLevel) :=
           Answers.species_numbers fl
             (random w (Worker.rand_next st))
             (random w (1 + Worker.rand_next st)%nat)
             (random w (3 + Worker.rand_next st)%nat)
             (random w (4 + Worker.rand_next st)%nat) in
         1000 <= population <= 101000 /\ (-3 <= trend <= 3)%Q
         /\ (85 <= confidence <= 95)%Q /\ 0 <= threatLevel <= 100.
Proof.
  intros Hr.
  destruct (parseGBIFSpeciesData_returns w g st)
    as (s & E & Hp & Ht & Hl & Hc & Hth & _).
  exists s. eexists. split; [exact E|]. split; [reflexivity|].
  assert (Hnum : (s_population s, s_trend s, s_confidence s, s_threatLevel s)
                 = Answers.species_numbers Answers.exact
                     (random w (Worker.rand_next st))
                     (random w (1 + Worker.rand_next st)%nat)
                     (random w (3 + Worker.rand_next st)%nat)
                     (random w (4 + Worker.rand_next st)%nat))
    by (rewrite Hp, Ht, Hc, Hth; reflexivity).
  assert (Hall : forall fl, Answers.rounding fl ->
            let '(population, trend, confidence, threatLevel) :=
              Answers.species_numbers fl
                (random w (Worker.rand_next st))
                (random w (1 + Worker.rand_next st)%nat)
                (random w (3 + Worker.rand_next st)%nat)
                (random w (4 + Worker.rand_next st)%nat) in
            1000 <= population <= 101000 /\ (-3 <= trend <= 3)%Q
            /\ (85 <= confidence <= 95)%Q /\ 0 <= threatLevel <= 100)
    by (intros fl Hfl; apply species_numbers_bounds; auto).
  pose proof (Hall Answers.exact rounding_exact) as Hex.
  rewrite <- Hnum in Hex. destruct Hex as (B1 & B2 & B3 & B4).
  split; [exact B1|]. split; [exact B2|]. split; [exact B3|].
  split; [exact B4|]. split; [|split; [exact Hnum|exact Hall]].
  rewrite Hl. eexists. split; [reflexivity|].
  destruct (Hr (2 + Worker.rand_next st)%nat) as [H0 H1].
  apply Qtrunc_range; unfold Worker.day_ms;
    destruct (random w (2 + Worker.rand_next st)%nat) as [n d];
    cbv [Qle Qlt Qplus Qminus Qmult Qopp inject_Z Qnum Qden] in *;
    rewrite ?Pos2Z.inj_mul in *; lia.
Qed.

(** An instance of [parseGBIFSpeciesData_ranges]: every draw is 1/2. *)
Lemma parseGBIFSpeciesData_ranges_witness :
  exists s st',
    Worker.parseGBIFSpeciesData (Examples.offline 0)
      (Examples.gbif_hit "Pongo abelii") Worker.empty_state = (Ret s, st')
    /\ Worker.rand_next st' = (5 + Worker.rand_next Worker.empty_state)%nat
    /\ 1000 <= s_population s <= 101000
    /\ (-3 <= s_trend s <= 3)%Q
    /\ (85 <= s_confidence s <= 95)%Q
    /\ 0 <= s_threatLevel s <= 100
    /\ (exists t, s_lastSeen s = TsAt t
                  /\ now (Examples.offline 0) - 30 * Worker.day_ms <= t
                     <= now (Examples.offline 0))
    /\ (s_population s, s_trend s, s_confidence s, s_threatLevel s)
       = Answers.species_numbers Answers.exact 0.5 0.5 0.5 0.5
    /\ forall fl, Answers.rounding fl ->
         let '(population, trend, confidence, threatLevel) :=
           Answers.species_numbers fl 0.5 0.5 0.5 0.5 in
         1000 <= population <= 101000 /\ (-3 <= trend <= 3)%Q
         /\ (85 <= confidence <= 95)%Q /\ 0 <= threatLevel <= 100.
Proof.
  apply (parseGBIFSpeciesData_ranges (Examples.offline 0)
           (Examples.gbif_hit "Pongo abelii") Worker.empty_state).
  intros n. split; vm_compute; congruence.
Defined.

(** ** Synthetic weather and satellite records *)

(** X16. The mock weather record under the contract of [Math.random], for
    a finite latitude: the generator returns after six draws without
    touching the cache or any upstream; humidity lies in [60, 90], wind
    speed in [5, 20], pressure in [1003, 1023], cloud cover in [0, 100],
    and the fire-weather index, computed from the generated temperature,
    humidity and precipitation, in [0, 100]. The intervals are closed: the
    four numbers are those of [Answers.weather_numbers] in exact
    arithmetic, and under every rounding of the operations they stay
    within the same bounds. *)
Theorem mockWeather_ranges w q lng st :
  Answers.unit_random w ->
  exists d st',
    Worker.mockWeather w (Num q) lng st = (Ret d, st')
    /\ Worker.rand_next st' = (6 + Worker.rand_next st)%nat
    /\ Worker.cache st' = Worker.cache st
    /\ Worker.calls st' = Worker.calls st
    /\ Answers.between (w_humidity d) 60 90
    /\ Answers.between (w_windSpeed d) 5 20
    /\ Answers.between (w_pressure d) 1003 1023
    /\ Answers.between (w_cloudCover d) 0 100
    /\ in_percent_range (w_fireWeatherIndex d)
    /\ (let '(humidity, windSpeed, pressure, cloudCover) :=
          Answers.weather_numbers Answers.exact
            (random w (1 + Worker.rand_next st)%nat)
            (random w (3 + Worker.rand_next st)%nat)
            (random w (4 + Worker.rand_next st)%nat)
            (random w (5 + Worker.rand_next st)%nat) in
        w_humidity d = Num humidity /\ w_windSpeed d = Num windSpeed
        /\ w_pressure d = Num pressure /\ w_cloudCover d = Num cloudCover)
    /\ forall fl, Answers.rounding fl ->
         let '(humidity, windSpeed, pressure, cloudCover) :=
           Answers.weather_numbers fl
             (random w (1 + Worker.rand_next st)%nat)
             (random w (3 + Worker.rand_next st)%nat)
             (random w (4 + Worker.rand_next st)%nat)
             (random w (5 + Worker.rand_next st)%nat) in
         (60 <= humidity <= 90)%Q /\ (5 <= windSpeed <= 20)%Q
         /\ (1003 <= pressure <= 1023)%Q /\ (0 <= cloudCover <= 100)%Q.
Proof.
  intros Hr.
  destruct (mockWeather_returns w (Num q) lng st)
    as (d & E & Hh & Hw & Hp & Hc & Hf & _ & Ht & Hpr).
  exists d. eexists. split; [exact E|].
  split; [reflexivity|]. split; [reflexivity|]. split; [reflexivity|].
  assert (Hall : forall fl, Answers.rounding fl ->
            let '(humidity, windSpeed, pressure, cloudCover) :=
              Answers.weather_numbers fl
                (random w (1 + Worker.rand_next st)%nat)
                (random w (3 + Worker.rand_next st)%nat)
                (random w (4 + Worker.rand_next st)%nat)
                (random w (5 + Worker.rand_next st)%nat) in
            (60 <= humidity <= 90)%Q /\ (5 <= windSpeed <= 20)%Q
            /\ (1003 <= pressure <= 1023)%Q /\ (0 <= cloudCover <= 100)%Q)
    by (intros fl Hfl; apply weather_numbers_bounds; auto).
  pose proof (Hall Answers.exact rounding_exact) as Hex.
  unfold Answers.weather_numbers in Hex. destruct Hex as (B1 & B2 & B3 & B4).
  split; [rewrite Hh; exact B1|]. split; [rewrite Hw; exact B2|].
  split; [rewrite Hp; exact B3|]. split; [rewrite Hc; exact B4|].
  split; [|split; [|exact Hall]].
  - rewrite Hf, Ht, Hpr, Hh.
    unfold of_Z. cbn [Math_abs mul_const].
    change (sub (Num ?a) (Num ?b)) with (Num (a - b)).
    destruct (Math_max_num (inject_Z 0) (inject_Z 20 - Qabs q * 0.2))
      as (m & -> & _).
    cbn [add].
    destruct (fwi_refines_spec
                (inject_Z 30 - Qabs q * 0.6
                 + (random w (Worker.rand_next st) - 0.5) * 10)
                (60 + random w (1 + Worker.rand_next st)%nat * 30)
                (m + random w (2 + Worker.rand_next st)%nat * 5))
      as (x & -> & Hx).
    cbn [in_percent_range]. rewrite Hx. apply fwi_spec_bounds.
  - unfold Answers.weather_numbers. auto.
Qed.

(** An instance of [mockWeather_ranges]: every draw is 1/2. *)
Lemma mockWeather_ranges_witness :
  exists d st',
    Worker.mockWeather (Examples.offline 0) (Num (-3.5)) (Num (-62.1))
      Worker.empty_state = (Ret d, st')
    /\ Worker.rand_next st' = (6 + Worker.rand_next Worker.empty_state)%nat
    /\ Worker.cache st' = Worker.cache Worker.empty_state
    /\ Worker.calls st' = Worker.calls Worker.empty_state
    /\ Answers.between (w_humidity d) 60 90
    /\ Answers.between (w_windSpeed d) 5 20
    /\ Answers.between (w_pressure d) 1003 1023
    /\ Answers.between (w_cloudCover d) 0 100
    /\ in_percent_range (w_fireWeatherIndex d)
    /\ (let '(humidity, windSpeed, pressure, cloudCover) :=
          Answers.weather_numbers Answers.exact 0.5 0.5 0.5 0.5 in
        w_humidity d = Num humidity /\ w_windSpeed d = Num windSpeed
        /\ w_pressure d = Num pressure /\ w_cloudCover d = Num cloudCover)
    /\ forall fl, Answers.rounding fl ->
         let '(humidity, windSpeed, pressure, cloudCover) :=
           Answers.weather_numbers fl 0.5 0.5 0.5 0.5 in
         (60 <= humidity <= 90)%Q /\ (5 <= windSpeed <= 20)%Q
         /\ (1003 <= pressure <= 1023)%Q /\ (0 <= cloudCover <= 100)%Q.
Proof.
  apply (mockWeather_ranges (Examples.offline 0) (-3.5) (Num (-62.1))
           Worker.empty_state).
  intros n. split; vm_compute; congruence.
Defined.

(** X17. The satellite handler, given both coordinates and the contract of
    [Math.random]: it answers 200 with source [nasa-gibs] from two draws,
    reading neither the cache nor any upstream; coverage lies in [85, 95],
    cloud cover in [0, 30], and the resolution is 250 exactly when the
    layer name contains [MODIS], and 375 otherwise. The intervals are
    closed: the two numbers are those of [Answers.satellite_numbers] in
    exact arithmetic, and under every rounding of the operations they stay
    within the same bounds. *)
Theorem handleSatelliteData_answer w u st :
  Answers.unit_random w ->
  falsy_str (Worker.get u "lat") = false ->
  falsy_str (Worker.get u "lng") = false ->
  exists d st',
    Worker.handleSatelliteData w u st
    = (Ret (Worker.json_ok (Worker.DSatellite d) "nasa-gibs" None), st')
    /\ Worker.rand_next st' = (2 + Worker.rand_next st)%nat
    /\ Worker.cache st' = Worker.cache st
    /\ Worker.calls st' = Worker.calls st
    /\ (85 <= sat_coverage d <= 95)%Q
    /\ (0 <= sat_cloudCover d <= 30)%Q
    /\ sat_resolution d
       = (if includes
               (or_str (Worker.get u "layer")
                  "MODIS_Terra_CorrectedReflectance_TrueColor") "MODIS"
          then 250 else 375)
    /\ (Worker.get u "layer" = None -> sat_resolution d = 250)
    /\ (sat_coverage d, sat_cloudCover d)
       = Answers.satellite_numbers Answers.exact
           (random w (Worker.rand_next st))
           (random w (1 + Worker.rand_next st)%nat)
    /\ forall fl, Answers.rounding fl ->
         let '(coverage, cloudCover) :=
           Answers.satellite_numbers fl
             (random w (Worker.rand_next st))
             (random w (1 + Worker.rand_next st)%nat) in
         (85 <= coverage <= 95)%Q /\ (0 <= cloudCover <= 30)%Q.
Proof.
  intros Hr Hlat Hlng. unfold Worker.handleSatelliteData.
  rewrite Hlat, Hlng. cbn [orb].
  unfold mbind, SE_bind, Worker.Math_random, mret, SE_ret.
  cbv beta iota zeta. cbn [Worker.cache Worker.calls Worker.rand_next].
  eexists. eexists. split; [reflexivity|].
  cbn [Worker.cache Worker.calls Worker.rand_next sat_coverage sat_cloudCover
       sat_resolution].
  split; [reflexivity|]. split; [reflexivity|]. split; [reflexivity|].
  assert (Hall : forall fl, Answers.rounding fl ->
            let '(coverage, cloudCover) :=
              Answers.satellite_numbers fl
                (random w (Worker.rand_next st))
                (random w (1 + Worker.rand_next st)%nat) in
            (85 <= coverage <= 95)%Q /\ (0 <= cloudCover <= 30)%Q)
    by (intros fl Hfl; apply satellite_numbers_bounds; auto).
  pose proof (Hall Answers.exact rounding_exact) as Hex.
  unfold Answers.satellite_numbers in Hex. destruct Hex as (B1 & B2).
  split; [exact B1|]. split; [exact B2|].
  split; [reflexivity|]. split; [intros ->; reflexivity|].
  split; [reflexivity|exact Hall].
Qed.

(** An instance of [handleSatelliteData_answer]. *)
Lemma handleSatelliteData_answer_witness :
  exists d st',
    Worker.handleSatelliteData (Examples.offline 0) Scenarios.mock_url
      Worker.empty_state
    = (Ret (Worker.json_ok (Worker.DSatellite d) "nasa-gibs" None), st')
    /\ Worker.rand_next st' = (2 + Worker.rand_next Worker.empty_state)%nat
    /\ Worker.cache st' = Worker.cache Worker.empty_state
    /\ Worker.calls st' = Worker.calls Worker.empty_state
    /\ (85 <= sat_coverage d <= 95)%Q
    /\ (0 <= sat_cloudCover d <= 30)%Q
    /\ sat_resolution d
       = (if includes
               (or_str (Worker.get Scenarios.mock_url "layer")
                  "MODIS_Terra_CorrectedReflectance_TrueColor") "MODIS"
          then 250 else 375)
    /\ (Worker.get Scenarios.mock_url "layer" = None -> sat_resolution d = 250)
    /\ (sat_coverage d, sat_cloudCover d)
       = Answers.satellite_numbers Answers.exact 0.5 0.5
    /\ forall fl, Answers.rounding fl ->
         let '(coverage, cloudCover) :=
           Answers.satellite_numbers fl 0.5 0.5 in
         (85 <= coverage <= 95)%Q /\ (0 <= cloudCover <= 30)%Q.
Proof.
  apply (handleSatelliteData_answer (Examples.offline 0) Scenarios.mock_url
           Worker.empty_state).
  - intros n. split; vm_compute; congruence.
  - reflexivity.
  - reflexivity.
Defined.

(** ** Sorting of alerts *)

Import Services.

Lemma insert_sorted_perm w x l : insert_sorted w x l ≡ₚ x :: l.
Proof.
  induction l as [|y r IH]; cbn; [reflexivity|].
  destruct (comes_after w y x); [reflexivity|].
  rewrite IH. apply Permutation_swap.
Qed.

Lemma fold_insert_perm w l : forall acc,
  fold_left (fun acc x => insert_sorted w x acc) l acc ≡ₚ (l ++ acc)%list.
Proof.
  induction l as [|x l IH]; intros acc; cbn; [reflexivity|].
  rewrite IH, insert_sorted_perm. now rewrite Permutation_middle.
Qed.

Lemma insert_sorted_sorted w x l :
  is_Some (getTime w (a_timestamp x)) ->
  Forall (fun a => is_Some (getTime w (a_timestamp a))) l ->
  StronglySorted (fun a b => comes_after w a b = false) l ->
  StronglySorted (fun a b => comes_after w a b = false) (insert_sorted w x l).
Proof.
  intros [tx Hx] Hall Hs. induction Hs as [|y r Hs IH Hy]; cbn.
  - repeat constructor.
  - apply Forall_cons in Hall as [[ty Hty] Hall].
    destruct (comes_after w y x) eqn:Hyx.
    + constructor; [now constructor|].
      unfold comes_after in Hyx. rewrite Hty, Hx in Hyx.
      apply Z.ltb_lt in Hyx.
      constructor.
      * unfold comes_after. rewrite Hx, Hty. apply Z.ltb_ge. lia.
      * eapply Forall_impl; [eapply Forall_and; split; [exact Hy|exact Hall]|].
        intros a [Ha [ta Hta]]. cbn in Ha, Hta.
        unfold comes_after in *. rewrite Hty, Hta in Ha. rewrite Hx, Hta.
        apply Z.ltb_ge in Ha. apply Z.ltb_ge. lia.
    + constructor; [now apply IH|].
      rewrite insert_sorted_perm. constructor; assumption.
Qed.

Lemma StronglySorted_weaken {A} (R R' : A -> A -> Prop) l :
  (forall a b, R a b -> R' a b) -> StronglySorted R l -> StronglySorted R' l.
Proof.
  intros HR Hs. induction Hs as [|x l Hs IH Hx]; constructor; [exact IH|].
  eapply Forall_impl; [exact Hx|]. intros b. apply HR.
Qed.

(** X18. [sort_alerts], the comparator sort of the alert lists: its result
    is a permutation of the list it is given - nothing is lost or
    duplicated - and when every timestamp can be read as a date the result
    is ordered newest first: no alert is older than one that follows
    it. *)
Theorem sort_alerts_newest_first w l :
  sort_alerts w l ≡ₚ l
  /\ length (sort_alerts w l) = length l
  /\ (Forall (fun a => is_Some (getTime w (a_timestamp a))) l ->
      StronglySorted
        (fun a b =>
           forall ta tb,
             getTime w (a_timestamp a) = Some ta ->
             getTime w (a_timestamp b) = Some tb -> tb <= ta)
        (sort_alerts w l)).
Proof.
  assert (Hp : sort_alerts w l ≡ₚ l).
  { unfold sort_alerts. rewrite fold_insert_perm. now rewrite app_nil_r. }
  split; [exact Hp|]. split; [now rewrite Hp|].
  intros Hall.
  assert (Hs : forall l' acc,
             Forall (fun a => is_Some (getTime w (a_timestamp a))) l' ->
             Forall (fun a => is_Some (getTime w (a_timestamp a))) acc ->
             StronglySorted (fun a b => comes_after w a b = false) acc ->
             StronglySorted (fun a b => comes_after w a b = false)
               (fold_left (fun acc x => insert_sorted w x acc) l' acc)).
  { induction l' as [|x l' IH]; intros acc Hl Hacc Hsorted; [exact Hsorted|].
    apply Forall_cons in Hl as [Hx Hl]. cbn. apply IH; [exact Hl| |].
    - rewrite insert_sorted_perm. now constructor.
    - now apply insert_sorted_sorted. }
  specialize (Hs l [] Hall (Forall_nil_2 _) (SSorted_nil _)).
  fold (sort_alerts w l) in Hs.
  eapply StronglySorted_weaken; [|exact Hs].
  intros a b Hab ta tb Ha Hb. unfold comes_after in Hab.
  rewrite Ha, Hb in Hab. apply Z.ltb_ge in Hab. exact Hab.
Qed.

(** ** The facade and its caches *)

Section FacadeRules.

Import Facade.

Variable G : list ForestAlert -> Prop.

Lemma triple_ret {A} t (a : A) (Q : A -> Prop) :
  Q a -> triple G t (mret a : C A) Q.
Proof. intros HQ st Hst. cbn. auto. Qed.

Lemma triple_throw {A} e (Q : A -> Prop) : triple G true (throw e : C A) Q.
Proof. intros st Hst. cbn. auto. Qed.

Lemma triple_bind {A B} t (m : C A) (f : A -> C B) (P : A -> Prop)
      (Q : B -> Prop) :
  triple G t m P -> (forall a, P a -> triple G t (f a) Q) ->
  triple G t (m ≫= f) Q.
Proof.
  intros Hm Hf st Hst. specialize (Hm st Hst).
  unfold mbind, SE_bind. destruct (m st) as [[a | e |] st1].
  - destruct Hm as [H1 HP]. exact (Hf a HP st1 H1).
  - exact Hm.
  - exact Hm.
Qed.

Lemma triple_try {A} t (m : C A) (h : string -> C A) (Q : A -> Prop) :
  triple G true m Q -> (forall e, triple G t (h e) Q) ->
  triple G t (try_catch m h) Q.
Proof.
  intros Hm Hh st Hst. specialize (Hm st Hst).
  unfold try_catch. destruct (m st) as [[a | e |] st1].
  - exact Hm.
  - destruct Hm as [_ H1]. exact (Hh e st1 H1).
  - exact Hm.
Qed.

Lemma triple_weaken {A} t (m : C A) (P Q : A -> Prop) :
  triple G t m P -> (forall a, P a -> Q a) -> triple G t m Q.
Proof.
  intros Hm HPQ st Hst. specialize (Hm st Hst).
  destruct (m st) as [[a | e |] st1]; [|exact Hm..].
  destruct Hm. auto.
Qed.

Lemma triple_forget {A} t (m : C A) (P : A -> Prop) :
  triple G t m P -> triple G t m (fun _ => True).
Proof. intros Hm. eapply triple_weaken; [exact Hm|]. auto. Qed.

Lemma triple_seq {A B} t (m : C A) (f : A -> C B) (Q : B -> Prop) :
  triple G t m (fun _ => True) -> (forall a, triple G t (f a) Q) ->
  triple G t (m ≫= f) Q.
Proof. intros Hm Hf. eapply triple_bind; [exact Hm|]. auto. Qed.

Lemma triple_done {A} t (a : A) : triple G t (mret a : C A) (fun _ => True).
Proof. now apply triple_ret. Qed.

Lemma triple_may_throw {A} (m : C A) (Q : A -> Prop) :
  triple G false m Q -> triple G true m Q.
Proof.
  intros Hm st Hst. specialize (Hm st Hst).
  destruct (m st) as [[a | e |] st1]; [exact Hm| |exact Hm].
  destruct Hm. discriminate.
Qed.

Lemma triple_if {A} t (b : bool) (m1 m2 : C A) (Q : A -> Prop) :
  (b = true -> triple G t m1 Q) -> (b = false -> triple G t m2 Q) ->
  triple G t (if b then m1 else m2) Q.
Proof. destruct b; auto. Qed.

Lemma triple_log t e : triple G t (log e) (fun _ => True).
Proof. intros st Hst. cbn. auto. Qed.

Lemma triple_random t c : triple G t (Math_random c) (fun _ => True).
Proof. intros st Hst. cbn. auto. Qed.

Lemma triple_mock {A} t g (l : A) (Q : A -> Prop) :
  Q l -> triple G t (mock g l) Q.
Proof.
  intros HQ st Hst. unfold mock, log, mbind, SE_bind. cbn.
  split; [exact Hst|exact HQ].
Qed.

Lemma triple_do_fetch {A} e (r : FetchResult A) :
  triple G true (do_fetch e r) (fun _ => True).
Proof.
  intros st Hst. unfold do_fetch, log, mbind, SE_bind.
  destruct r; cbn; (split; [auto|exact Hst]) || (split; [exact Hst|auto]).
Qed.

Lemma triple_json {A} (b : option A) : triple G true (json b) (fun _ => True).
Proof. intros st Hst. destruct b; cbn; auto. Qed.

Lemma triple_settle {A} t (m : C A) (Q : A -> Prop) :
  triple G true m Q -> triple G t (settle m) (fun _ => True).
Proof.
  intros Hm. unfold settle. apply triple_try.
  - apply triple_seq; [eapply triple_forget, Hm|]. intros a.
    apply triple_done.
  - intros e. apply triple_done.
Qed.

Lemma getCachedData_good {A} (P : A -> Prop) cache now key d x :
  good_at P cache key ->
  ServiceCache.getCachedData cache now key d = Some x -> P x.
Proof.
  unfold ServiceCache.getCachedData. intros Hg.
  destruct (cache !! key) as [e|] eqn:E; [|discriminate].
  destruct (_ <? _); [|discriminate]. intros [= <-]. now apply Hg.
Qed.

Lemma good_at_set {A} (P : A -> Prop) cache now key key' x d :
  good_at P cache key ->
  (key' = key -> P x) ->
  good_at P (ServiceCache.setCachedData cache now key' x d) key.
Proof.
  unfold ServiceCache.setCachedData, good_at. intros Hg Hl e.
  destruct (decide (key' = key)) as [-> | Hne].
  - rewrite lookup_insert_eq. intros [= <-]. now apply Hl.
  - rewrite lookup_insert_ne by exact Hne. apply Hg.
Qed.

Lemma if_cached_Some {A} `{Truthy A} (cached : option A) x :
  if_cached cached = Some x -> cached = Some x.
Proof.
  unfold if_cached. destruct cached as [y|]; [|discriminate].
  destruct (is_truthy y); [congruence | discriminate].
Qed.

Lemma triple_server_get t c key d :
  triple G t (ServerSide.getCachedData alert_entries c key d)
    (fun o => key = SERVER_KEY -> forall x, o = Some x -> good G x).
Proof.
  intros st Hst. cbn. split; [exact Hst|].
  intros -> x. apply getCachedData_good, Hst.
Qed.

Lemma triple_server_set t c key x d :
  (key = SERVER_KEY -> good G x) ->
  triple G t (ServerSide.setCachedData alert_entries c key x d)
    (fun _ => True).
Proof.
  intros Hl st [H1 H2]. cbn. split; [|exact I]. split; [|exact H2].
  cbn. now apply good_at_set.
Qed.

Lemma triple_spread {A} (x : Payload A) :
  triple G true (spread x) (fun _ => True).
Proof. destruct x; [apply triple_done | apply triple_throw]. Qed.

Lemma triple_enhanced_get t c key d :
  triple G t (Enhanced.getCachedData c key d)
    (fun o => key = COMBINED_KEY -> forall l, o = Some l -> G l).
Proof.
  intros st Hst. cbn. split; [exact Hst|].
  intros -> l. apply getCachedData_good, Hst.
Qed.

Lemma triple_enhanced_set t c key l d :
  (key = COMBINED_KEY -> G l) ->
  triple G t (Enhanced.setCachedData c key l d) (fun _ => True).
Proof.
  intros Hl st [H1 H2]. cbn. split; [|exact I]. split; [exact H1|].
  cbn. now apply good_at_set.
Qed.

Lemma triple_or_random t c x k m :
  triple G t (Enhanced.or_random c x k m) (fun _ => True).
Proof.
  unfold Enhanced.or_random. destruct (Worker.or_opt_num x None).
  - apply triple_done.
  - apply triple_seq; [apply triple_random|]. intros r. apply triple_done.
Qed.

Lemma triple_parseGladItems t c items : forall i,
  triple G t (Enhanced.parseGladItems c i items) (fun _ => True).
Proof.
  induction items as [|a rest IH]; intros i; cbn [Enhanced.parseGladItems].
  - apply triple_done.
  - unfold Enhanced.parseGladAlert.
    apply triple_seq.
    { apply triple_seq; [apply triple_or_random|]. intros lat.
      apply triple_seq; [apply triple_or_random|]. intros lng.
      apply triple_done. }
    intros x. apply triple_seq; [apply IH|]. intros l. apply triple_done.
Qed.

Lemma triple_parseForestLossEntries c entries : forall i,
  triple G true (Enhanced.parseForestLossEntries c i entries) (fun _ => True).
Proof.
  induction entries as [|[year loss] rest IH]; intros i;
    cbn [Enhanced.parseForestLossEntries].
  - apply triple_done.
  - apply triple_seq.
    { unfold Enhanced.parseForestLossEntry.
      destruct (_ && _); [|apply triple_done].
      destruct (parseDate _ _); [|apply triple_throw].
      apply triple_seq; [apply triple_random|]. intros r1.
      apply triple_seq; [apply triple_random|]. intros r2.
      apply triple_done. }
    intros x. apply triple_seq; [apply IH|]. intros l. apply triple_done.
Qed.

Lemma triple_call_worker c ep q :
  triple G true (ServerSide.call_worker c ep q) (fun _ => True).
Proof.
  unfold ServerSide.call_worker.
  apply triple_seq; [apply triple_do_fetch|]. intros [s b].
  apply triple_json.
Qed.

Lemma triple_liveFireLoop c key y datasets :
  triple G true (Enhanced.liveFireLoop c key y datasets) (fun _ => True).
Proof.
  induction datasets as [|d rest IH]; cbn [Enhanced.liveFireLoop].
  - apply triple_throw.
  - apply triple_seq; [apply triple_do_fetch|]. intros [s csv].
    destruct (negb (http_ok s)); [exact IH|]. apply triple_done.
Qed.

Lemma triple_getLiveFireAlerts c :
  triple G true (Enhanced.getLiveFireAlerts c) (fun _ => True).
Proof.
  unfold Enhanced.getLiveFireAlerts.
  destruct (_ || _); [apply triple_throw|apply triple_liveFireLoop].
Qed.

Lemma triple_getLiveDeforestationAlerts c :
  triple G true (Enhanced.getLiveDeforestationAlerts c) (fun _ => True).
Proof.
  unfold Enhanced.getLiveDeforestationAlerts.
  destruct (isBrowser c); [apply triple_throw|].
  apply triple_seq; [apply triple_do_fetch|]. intros [s j].
  destruct (negb (http_ok s)).
  - destruct (s =? 400).
    + apply triple_seq; [apply triple_do_fetch|]. intros [s2 j2].
      destruct (http_ok s2); [|apply triple_throw].
      apply triple_seq; [apply triple_json|]. intros alt.
      unfold Enhanced.parseForestLossData.
      destruct alt; [apply triple_parseForestLossEntries|].
      apply triple_done.
    + destruct (s =? 404); [apply triple_throw|].
      destruct (s =? 403); apply triple_throw.
  - apply triple_seq; [apply triple_json|]. intros d.
    destruct d; [|apply triple_done].
    apply triple_parseGladItems.
Qed.

Lemma triple_server_getDeforestationAlerts c region days limit :
  triple G true (ServerSide.getDeforestationAlerts c region days limit)
    (fun _ => True).
Proof.
  unfold ServerSide.getDeforestationAlerts.
  apply triple_seq; [eapply triple_forget, triple_server_get|]. intros cached.
  destruct (if_cached cached); [apply triple_done|].
  apply triple_try.
  - apply triple_seq; [apply triple_call_worker|]. intros [|r];
      [apply triple_throw|].
    destruct (negb (success r)); [apply triple_throw|].
    apply triple_seq.
    { unfold ServerSide.data_length.
      destruct (data r); [apply triple_done | apply triple_throw]. }
    intros d.
    apply triple_seq; [apply triple_server_set; discriminate|].
    intros _. apply triple_done.
  - intros e. destruct (isNoMockEnabled (config c)); [apply triple_throw|].
    apply triple_seq; [now apply triple_mock|]. intros l. apply triple_done.
Qed.

Lemma triple_add_settled alerts r :
  triple G true (ServerSide.add_settled alerts r) (fun _ => True).
Proof.
  unfold ServerSide.add_settled.
  destruct r as [e | [| v]]; [apply triple_done | apply triple_throw |].
  destruct (falsy_str (error v)); [|apply triple_done].
  destruct (success v); [|apply triple_done].
  destruct (if_cached (data v)) as [d|]; [|apply triple_done].
  apply triple_seq; [apply triple_spread|]. intros l. apply triple_done.
Qed.

(** A computation that throws only if [t] allows it may be said to
    throw. *)
Lemma triple_allow {A} t (m : C A) (Q : A -> Prop) :
  triple G t m Q -> triple G true m Q.
Proof.
  intros Hm st Hst. specialize (Hm st Hst).
  destruct (m st) as [[a | e |] st1]; [exact Hm| |exact Hm].
  destruct Hm. auto.
Qed.

End FacadeRules.

Lemma sort_alerts_length w l : length (sort_alerts w l) = length l.
Proof.
  unfold sort_alerts. rewrite fold_insert_perm. now rewrite app_nil_r.
Qed.

Section FacadeInvariant.

Import Facade.

Variable c : Client.
Variable G : list ForestAlert -> Prop.

Hypothesis G_sorted : forall l,
  (noMock (config c) = false -> (0 < length l)%nat) ->
  G (take 25 (sort_alerts (world c) l)).
Hypothesis G_nil : noMock (config c) = true -> G [].
Hypothesis G_server_mock :
  noMock (config c) = false -> G (ServerSide.getMockForestAlerts (world c)).
Hypothesis G_last_resort :
  noMock (config c) = false -> G (MockDataService.getForestAlerts (world c)).

(** The proxy client's [getForestAlerts] throws in live-only mode only. *)
Lemma triple_server_getForestAlerts :
  triple G (noMock (config c)) (ServerSide.getForestAlerts c) (good G).
Proof.
  unfold ServerSide.getForestAlerts, isNoMockEnabled.
  eapply triple_bind; [apply triple_server_get|]. intros cached Hc.
  destruct (if_cached cached) as [x|] eqn:Hx;
    [apply triple_ret; apply Hc; [reflexivity|];
     now apply if_cached_Some|].
  apply triple_try.
  - apply triple_seq; [eapply triple_settle, triple_call_worker|].
    intros fireResult.
    apply triple_seq; [eapply triple_settle, triple_call_worker|].
    intros deforestationResult.
    apply triple_seq; [apply triple_add_settled|]. intros alerts0.
    apply triple_seq; [apply triple_add_settled|]. intros alerts.
    destruct (length alerts =? 0)%nat eqn:Hlen.
    + destruct (noMock (config c)) eqn:Hnm.
      * apply triple_ret. cbn. auto.
      * eapply triple_bind; [apply triple_mock with (Q := G); auto|].
        intros l0 Hl. now apply triple_ret.
    + apply Nat.eqb_neq in Hlen.
      eapply triple_bind with
        (P := fun l => noMock (config c) = false -> (0 < length l)%nat).
      { destruct (noMock (config c)); cbn [negb].
        - apply triple_ret. discriminate.
        - apply triple_seq; [now apply triple_mock|]. intros b.
          apply triple_ret. intros _. rewrite length_app. lia. }
      intros alerts' Hne.
      apply triple_seq; [apply triple_server_set; cbn; auto|].
      intros _. apply triple_ret. cbn. auto.
  - intros e. destruct (noMock (config c)) eqn:Hnm; [apply triple_throw|].
    eapply triple_bind; [apply triple_mock with (Q := G); auto|].
    intros l0 Hl. now apply triple_ret.
Qed.

Lemma triple_enhanced_getForestAlerts :
  triple G false (Enhanced.getForestAlerts c) (good G).
Proof.
  unfold Enhanced.getForestAlerts, isNoMockEnabled. cbv zeta.
  eapply triple_bind with (P := fun o => forall x, o = Some x -> good G x).
  { destruct (negb (hasApiKey (nasa_firms (config c))));
      [|apply triple_ret; discriminate].
    apply triple_try; [|intros e; apply triple_ret; discriminate].
    apply triple_seq.
    { unfold ServerSide.checkServerHealth.
      apply triple_seq; [apply triple_log|]. intros _. apply triple_done. }
    intros healthy. destruct healthy; [|apply triple_ret; discriminate].
    eapply triple_bind;
      [eapply triple_allow, triple_server_getForestAlerts|].
    intros x Hx. apply triple_ret. now intros ? [= <-]. }
  intros fromServer HP.
  destruct fromServer as [x|]; [apply triple_ret; auto|].
  eapply triple_bind; [apply triple_enhanced_get|]. intros cached Hc.
  destruct cached as [l|]; [apply triple_ret; cbn; now apply Hc|].
  apply triple_try.
  - apply triple_seq.
    { destruct (hasApiKey (nasa_firms (config c))).
      - apply triple_try; [apply triple_getLiveFireAlerts|].
        intros e. destruct (noMock (config c)); [apply triple_throw|].
        now apply triple_mock.
      - destruct (noMock (config c)); [apply triple_done|].
        now apply triple_mock. }
    intros fireAlerts.
    apply triple_seq.
    { apply triple_try.
      - destruct (isBrowser c).
        + apply triple_seq; [apply triple_server_getDeforestationAlerts|].
          intros x. apply triple_spread.
        + apply triple_getLiveDeforestationAlerts.
      - intros e. destruct (noMock (config c)); [apply triple_throw|].
        now apply triple_mock. }
    intros deforestationAlerts.
    eapply triple_bind with
      (P := fun l => noMock (config c) = false -> (0 < length l)%nat).
    { destruct (noMock (config c)); cbn [negb andb].
      - apply triple_ret. discriminate.
      - destruct (length (fireAlerts ++ deforestationAlerts) =? 0)%nat
          eqn:Hlen.
        + eapply triple_bind with
            (P := fun b => b = Enhanced.getMockBiodiversityAlerts (world c));
            [now apply triple_mock|].
          intros b ->. apply triple_ret. intros _.
          rewrite length_app. cbn. lia.
        + apply triple_ret. intros _. apply Nat.eqb_neq in Hlen. lia. }
    intros alerts' Hne.
    apply triple_seq; [apply triple_enhanced_set; auto|].
    intros _. apply triple_ret. cbn. auto.
  - intros e. destruct (noMock (config c)) eqn:Hnm.
    + apply triple_ret. cbn. auto.
    + eapply triple_bind; [apply triple_mock with (Q := G); auto|].
      intros l0 Hl. now apply triple_ret.
Qed.

End FacadeInvariant.

Lemma filled_sorted w l :
  (0 < length l)%nat -> Facade.filled (take 25 (sort_alerts w l)).
Proof.
  intros H. unfold Facade.filled.
  rewrite length_take, sort_alerts_length. lia.
Qed.

Lemma bounded_sorted w l : Facade.bounded (take 25 (sort_alerts w l)).
Proof. unfold Facade.bounded. rewrite length_take. lia. Qed.

(** X19. The alert facade with mocks allowed: started with caches whose
    alert-list entries hold between 1 and 25 alerts, [getForestAlerts]
    ends without an exception, whatever the proxy and the upstreams do; it
    returns between 1 and 25 alerts and leaves the caches in such a state
    again. The same holds of the proxy client's [getForestAlerts]. *)
Theorem getForestAlerts_with_mocks_filled c st :
  noMock (config c) = false ->
  Facade.caches_ok Facade.filled st ->
  (exists l st',
      Enhanced.getForestAlerts c st = (Ret (Arr l), st')
      /\ (0 < length l <= 25)%nat
      /\ Facade.caches_ok Facade.filled st')
  /\ (exists l st',
         ServerSide.getForestAlerts c st = (Ret (Arr l), st')
         /\ (0 < length l <= 25)%nat
         /\ Facade.caches_ok Facade.filled st').
Proof.
  intros Hnm Hst.
  assert (H1 : forall l, (noMock (config c) = false -> (0 < length l)%nat) ->
                         Facade.filled (take 25 (sort_alerts (world c) l))).
  { intros l Hl. apply filled_sorted. auto. }
  assert (H2 : noMock (config c) = true -> Facade.filled []) by congruence.
  assert (H3 : noMock (config c) = false ->
               Facade.filled (ServerSide.getMockForestAlerts (world c))).
  { intros _. unfold Facade.filled. cbn. lia. }
  assert (H4 : noMock (config c) = false ->
               Facade.filled (MockDataService.getForestAlerts (world c))).
  { intros _. unfold Facade.filled. cbn. lia. }
  split.
  - pose proof (triple_enhanced_getForestAlerts c Facade.filled H1 H2 H3 H4
                  st Hst) as H.
    destruct (Enhanced.getForestAlerts c st) as [[[l|] | e |] st'].
    + destruct H. eauto.
    + destruct H as [_ []].
    + destruct H. discriminate.
    + destruct H.
  - pose proof (triple_server_getForestAlerts c Facade.filled H1 H2 H3 H4
                  st Hst) as H.
    destruct (ServerSide.getForestAlerts c st) as [[[l|] | e |] st'].
    + destruct H. eauto.
    + destruct H as [_ []].
    + destruct H. congruence.
    + destruct H.
Qed.

Lemma caches_ok_empty G : Facade.caches_ok G empty_state.
Proof. split; intros e H; cbn in H; now rewrite lookup_empty in H. Qed.

(** An instance of [getForestAlerts_with_mocks_filled]: a browser without
    a key whose proxy fails the health check. *)
Lemma getForestAlerts_with_mocks_filled_witness :
  (exists l st',
      Enhanced.getForestAlerts (Examples.browser 0 None) empty_state
      = (Ret (Arr l), st')
      /\ (0 < length l <= 25)%nat
      /\ Facade.caches_ok Facade.filled st')
  /\ (exists l st',
         ServerSide.getForestAlerts (Examples.browser 0 None) empty_state
         = (Ret (Arr l), st')
         /\ (0 < length l <= 25)%nat
         /\ Facade.caches_ok Facade.filled st').
Proof.
  apply (getForestAlerts_with_mocks_filled (Examples.browser 0 None)
           empty_state).
  - reflexivity.
  - apply caches_ok_empty.
Defined.

(** X20. The alert facade in every mode: started with caches whose
    alert-list entries hold at most 25 alerts, [getForestAlerts] of the
    browser service ends without an exception - in live-only mode too,
    where a failure yields the empty list - returns at most 25 alerts
    and leaves the caches in such a state again. The proxy client's
    [getForestAlerts] does the same or, in live-only mode only, throws:
    its handler rethrows what its [try] block threw, which includes the
    [TypeError] of an answer that is [null] or whose data is no array. *)
Theorem getForestAlerts_bounded c st :
  Facade.caches_ok Facade.bounded st ->
  (exists l st',
      Enhanced.getForestAlerts c st = (Ret (Arr l), st')
      /\ (length l <= 25)%nat
      /\ Facade.caches_ok Facade.bounded st')
  /\ match ServerSide.getForestAlerts c st with
     | (Ret x, st') =>
         exists l, x = Arr l /\ (length l <= 25)%nat
                   /\ Facade.caches_ok Facade.bounded st'
     | (Throw _, st') =>
         noMock (config c) = true /\ Facade.caches_ok Facade.bounded st'
     | (Diverge, _) => False
     end.
Proof.
  intros Hst.
  assert (H1 : forall l, (noMock (config c) = false -> (0 < length l)%nat) ->
                         Facade.bounded (take 25 (sort_alerts (world c) l))).
  { intros l _. apply bounded_sorted. }
  assert (H2 : noMock (config c) = true -> Facade.bounded []).
  { intros _. unfold Facade.bounded. cbn. lia. }
  assert (H3 : noMock (config c) = false ->
               Facade.bounded (ServerSide.getMockForestAlerts (world c))).
  { intros _. unfold Facade.bounded. cbn. lia. }
  assert (H4 : noMock (config c) = false ->
               Facade.bounded (MockDataService.getForestAlerts (world c))).
  { intros _. unfold Facade.bounded. cbn. lia. }
  split.
  - pose proof (triple_enhanced_getForestAlerts c Facade.bounded H1 H2 H3 H4
                  st Hst) as H.
    destruct (Enhanced.getForestAlerts c st) as [[[l|] | e |] st'].
    + destruct H. eauto.
    + destruct H as [_ []].
    + destruct H. discriminate.
    + destruct H.
  - pose proof (triple_server_getForestAlerts c Facade.bounded H1 H2 H3 H4
                  st Hst) as H.
    destruct (ServerSide.getForestAlerts c st) as [[[l|] | e |] st'].
    + destruct H. eauto.
    + destruct H as [_ []].
    + exact H.
    + exact H.
Qed.

(** An instance of [getForestAlerts_bounded]: live-only mode, the proxy
    answers [null]; the facade returns, the proxy client throws. *)
Lemma getForestAlerts_bounded_witness :
  (exists l st',
      Enhanced.getForestAlerts Scenarios.null_proxy_client empty_state
      = (Ret (Arr l), st')
      /\ (length l <= 25)%nat
      /\ Facade.caches_ok Facade.bounded st')
  /\ exists st',
       ServerSide.getForestAlerts Scenarios.null_proxy_client empty_state
       = (Throw (null_read "error"), st')
       /\ noMock (config Scenarios.null_proxy_client) = true
       /\ Facade.caches_ok Facade.bounded st'.
Proof.
  destruct (getForestAlerts_bounded Scenarios.null_proxy_client empty_state
              (caches_ok_empty Facade.bounded)) as [H1 H2].
  split; [exact H1|].
  assert (E : (ServerSide.getForestAlerts Scenarios.null_proxy_client
                 empty_state).1 = Throw (null_read "error"))
    by (vm_compute; reflexivity).
  destruct (ServerSide.getForestAlerts Scenarios.null_proxy_client
              empty_state) as [o st'].
  cbn in E. subst o. exists st'. split; [reflexivity|]. exact H2.
Defined.

(** ** Answers that carry an error *)

(** X21. The two proxy clients treat an answer of the worker that carries
    both data and an error message - the worker's [mock-fallback] - in
    opposite ways. [getForestAlerts] discards its data: with such answers
    to both of its requests it ends up with no alert, returns its own mock
    list (the empty list in live-only mode) and stores nothing.
    [getDeforestationAlerts] never looks at the error field, nor at the
    HTTP status: it returns the data as it would live data and stores it
    under its key. *)
Theorem proxy_clients_disagree_on_errors c st s r d region days limit :
  (forall ep q, worker c ep q = Http s (Some (JObject r))) ->
  success r = true ->
  data r = Some d ->
  falsy_str (error r) = false ->
  ServiceCache.getCachedData (server_cache st) (now (world c))
    Facade.SERVER_KEY ApiConfig.CACHE_DURATIONS.FIRE_DATA = None ->
  ServiceCache.getCachedData (server_cache st) (now (world c))
    (Facade.deforestation_key region days limit)
    ApiConfig.CACHE_DURATIONS.FIRE_DATA = None ->
  (exists st1,
      ServerSide.getForestAlerts c st
      = (Ret (Arr (if noMock (config c) then []
                   else ServerSide.getMockForestAlerts (world c))), st1)
      /\ server_cache st1 = server_cache st)
  /\ (exists st2,
         ServerSide.getDeforestationAlerts c region days limit st
         = (Ret d, st2)
         /\ server_cache st2
            = <[Facade.deforestation_key region days limit :=
                  {| ServiceCache.data := d;
                     ServiceCache.timestamp := now (world c) |}]>
                (server_cache st)).
Proof.
  intros Hw Hs Hd He Hm1 Hm2. split.
  - unfold ServerSide.getForestAlerts, ServerSide.getCachedData.
    unfold mbind at 1, SE_bind at 1. cbn [entries alert_entries].
    change "forest_alerts_server" with Facade.SERVER_KEY. rewrite Hm1.
    cbn [if_cached].
    unfold try_catch, settle, try_catch, ServerSide.call_worker, do_fetch,
      log, json.
    rewrite !Hw.
    unfold mbind, SE_bind, mret, SE_ret. cbv beta iota.
    unfold ServerSide.add_settled. rewrite He. unfold mret, SE_ret.
    cbv beta iota. cbn [length Nat.eqb].
    unfold isNoMockEnabled. destruct (noMock (config c)).
    + eexists. split; reflexivity.
    + unfold mock, log, mbind, SE_bind, mret, SE_ret. cbv beta iota.
      eexists. split; reflexivity.
  - unfold ServerSide.getDeforestationAlerts, ServerSide.getCachedData.
    unfold mbind at 1, SE_bind at 1. cbn [entries alert_entries].
    fold (Facade.deforestation_key region days limit). rewrite Hm2.
    cbn [if_cached].
    unfold try_catch, ServerSide.call_worker, do_fetch, log, json.
    rewrite Hw.
    unfold mbind, SE_bind, mret, SE_ret, ServerSide.data_length. cbv beta iota.
    rewrite Hs, Hd. cbn [negb]. unfold mret, SE_ret.
    unfold ServerSide.setCachedData, ServiceCache.setCachedData.
    eexists. split; reflexivity.
Qed.

(** An instance of [proxy_clients_disagree_on_errors]: the proxy answers
    with the deforestation fallback of the worker. *)
Lemma proxy_clients_disagree_on_errors_witness :
  (exists st1,
      ServerSide.getForestAlerts Scenarios.fallback_client empty_state
      = (Ret (Arr (ServerSide.getMockForestAlerts (Examples.offline 0))), st1)
      /\ server_cache st1 = server_cache empty_state)
  /\ (exists st2,
         ServerSide.getDeforestationAlerts Scenarios.fallback_client
           "BRA" 90 50 empty_state
         = (Ret (Arr (Worker.generateMockDeforestationAlerts
                        (Examples.offline 0))),
            st2)
         /\ server_cache st2
            = <[Facade.deforestation_key "BRA" 90 50 :=
                  {| ServiceCache.data :=
                       Arr (Worker.generateMockDeforestationAlerts
                              (Examples.offline 0));
                     ServiceCache.timestamp := 0 |}]>
                (server_cache empty_state)).
Proof.
  apply (proxy_clients_disagree_on_errors Scenarios.fallback_client
           empty_state 200
           {| success := true;
              data := Some (Arr (Worker.generateMockDeforestationAlerts
                                   (Examples.offline 0)));
              error := Some "GFW API error: 500";
              source := Some "mock-fallback" |}).
  - reflexivity.
  - reflexivity.
  - reflexivity.
  - reflexivity.
  - reflexivity.
  - reflexivity.
Defined.

(** ** Live-only mode of the facade *)

Lemma mock_free_spec S ls :
  Facade.mock_free S = true -> ls ∈ S ->
  Forall (fun l : Chains.label => l.1 <> Mock) ls.
Proof.
  unfold Facade.mock_free. intros H Hin.
  rewrite forallb_forall in H. apply list_elem_of_In in Hin.
  specialize (H ls Hin). rewrite forallb_forall in H.
  apply Forall_forall. intros l Hl. apply list_elem_of_In in Hl.
  specialize (H l Hl). apply negb_true_iff in H.
  now apply bool_decide_eq_false in H.
Qed.

(** X22. Live-only mode of the alert facade: with the no-mock flag set, a
    run of [getForestAlerts] calls no mock generator, whatever the
    configuration, the caches and the answers of the proxy and the
    upstreams - every event it adds to the trace is a live request, direct
    or through the proxy. *)
Theorem live_only_never_mocks c st :
  noMock (config c) = true ->
  Forall (fun e => route_of e <> Mock)
    (Chains.events (Enhanced.getForestAlerts c) st).
Proof.
  intros Hnm.
  destruct (getForestAlerts_live_only_lang c Hnm) as (S & Hemits & Hfree).
  destruct (Hemits st) as (l & E & Hl).
  unfold Chains.events. rewrite E, drop_app_length.
  pose proof (mock_free_spec S _ Hfree Hl) as H.
  rewrite Forall_fmap in H. eapply Forall_impl; [exact H|].
  intros e He. exact He.
Qed.

(** An instance of [live_only_never_mocks]: nothing is reachable. *)
Lemma live_only_never_mocks_witness :
  Forall (fun e => route_of e <> Mock)
    (Chains.events (Enhanced.getForestAlerts Scenarios.live_only_client)
       empty_state).
Proof.
  apply (live_only_never_mocks Scenarios.live_only_client empty_state).
  reflexivity.
Defined.

(** ** The two FIRMS dataset loops *)

Lemma liveFireLoop_skips c key y ds1 : forall rest st,
  Forall (fun x => exists s csv,
              firms (world c) key x "world" "1" y = Http s csv
              /\ http_ok s = false) ds1 ->
  exists st1,
    trace st1 = (trace st ++ (EvFirms <$> ds1))%list
    /\ enhanced_cache st1 = enhanced_cache st
    /\ server_cache st1 = server_cache st
    /\ Enhanced.liveFireLoop c key y (ds1 ++ rest) st
       = Enhanced.liveFireLoop c key y rest st1.
Proof.
  induction ds1 as [|x ds1 IH]; intros rest st Hall.
  - exists st. cbn. rewrite app_nil_r. auto.
  - apply Forall_cons in Hall as [(s & csv & Hx & Hs) Hall].
    cbn [app Enhanced.liveFireLoop].
    unfold do_fetch, log. unfold mbind at 1 2, SE_bind at 1 2.
    rewrite Hx. cbn [mret SE_ret]. unfold mret, SE_ret. cbv beta iota.
    rewrite Hs. cbn [negb].
    destruct (IH rest
                {| enhanced_cache := enhanced_cache st;
                   server_cache := server_cache st;
                   regions_cache := regions_cache st;
                   species_cache := species_cache st;
                   weather_cache := weather_cache st;
                   trace := (trace st ++ [EvFirms x])%list;
                   rand_next := rand_next st |} Hall)
      as (st1 & Ht & Hc1 & Hc2 & E).
    exists st1. rewrite E. cbn in Ht, Hc1, Hc2.
    rewrite Ht, <- app_assoc. auto.
Qed.

Lemma tryDatasets_skips w key region days date cacheKey ds : forall rest last st,
  Forall (fun x => Answers.no_data (firms w key x region days date)) ds ->
  exists last' st1,
    Worker.cache st1 = Worker.cache st
    /\ Worker.calls st1
       = (Worker.calls st
          ++ ((fun x => CallFirms key x region days date) <$> ds))%list
    /\ Worker.tryDatasets w key region days date cacheKey (ds ++ rest) last st
       = Worker.tryDatasets w key region days date cacheKey rest last' st1.
Proof.
  induction ds as [|x ds IH]; intros rest last st Hall.
  - exists last, st. cbn. rewrite app_nil_r. auto.
  - apply Forall_cons in Hall as [Hx Hall].
    cbn [app Worker.tryDatasets]. unfold try_catch, Worker.do_fetch.
    unfold mbind at 1, SE_bind at 1.
    set (st0 := {| Worker.cache := Worker.cache st;
                   Worker.calls :=
                     (Worker.calls st
                      ++ [CallFirms key x region days date])%list;
                   Worker.rand_next := Worker.rand_next st |}).
    unfold Answers.no_data in Hx.
    destruct (firms w key x region days date) as [msg | s csv].
    + destruct (IH rest (Some msg) st0 Hall) as (last' & st1 & Hc & Hl & E).
      exists last', st1. split; [exact Hc|]. split; [|exact E].
      rewrite Hl. cbn. now rewrite <- app_assoc.
    + cbv beta iota. rewrite Hx. cbn [negb]. unfold throw.
      destruct (IH rest (Some ("NASA FIRMS API error: " +:+ pretty s)) st0 Hall)
        as (last' & st1 & Hc & Hl & E).
      exists last', st1. split; [exact Hc|]. split; [|exact E].
      rewrite Hl. cbn. now rewrite <- app_assoc.
Qed.

(** The worker's loop returns the first dataset that answers with an ok
    status, and requests none after it. *)
Lemma tryDatasets_first w key region days date cacheKey ds x rest s csv last st :
  Forall (fun z => Answers.no_data (firms w key z region days date)) ds ->
  firms w key x region days date = Http s csv ->
  http_ok s = true ->
  exists st',
    Worker.tryDatasets w key region days date cacheKey (ds ++ x :: rest) last st
    = (Ret (Worker.json_ok (Worker.DAlerts (Worker.parseFireCsvData w csv))
              ("nasa-firms:" +:+ toLowerCase x) None), st')
    /\ Worker.calls st'
       = (Worker.calls st
          ++ ((fun z => CallFirms key z region days date)
              <$> (ds ++ [x])))%list
    /\ Worker.cache st'
       = <[cacheKey :=
             Worker.json_ok (Worker.DAlerts (Worker.parseFireCsvData w csv))
               ("nasa-firms:" +:+ toLowerCase x) None]> (Worker.cache st).
Proof.
  intros Hall Hx Hs.
  destruct (tryDatasets_skips w key region days date cacheKey ds (x :: rest)
              last st Hall) as (last' & st1 & Hc & Hl & E).
  rewrite E. cbn [Worker.tryDatasets]. unfold try_catch, Worker.do_fetch.
  unfold mbind at 1, SE_bind at 1. rewrite Hx. cbv beta iota.
  rewrite Hs. cbn [negb].
  unfold mbind, SE_bind, Worker.cache_put, mret, SE_ret. cbv beta iota.
  eexists. split; [reflexivity|].
  cbn [Worker.cache Worker.calls]. rewrite Hl, Hc, fmap_app, <- app_assoc.
  auto.
Qed.

(** X23. The two loops over the FIRMS datasets differ on a network
    failure. Both are run on the same list and the same answers: datasets
    answered with an error status, then a dataset whose request fails,
    then datasets that give no data either, then a dataset answered with
    an ok status. In the browser service the failed request ends the loop:
    its failure is thrown to the caller and no later dataset is requested.
    In the worker every failure moves on to the next dataset: the loop
    returns the alerts parsed from the CSV of the first dataset answered
    with an ok status, tagged with that dataset, stores them, and requests
    no dataset after it. *)
Theorem dataset_loops_differ c key y cacheKey ds1 d ds2 x ds3 msg s csv last
        st wst :
  Forall (fun z => exists s' csv',
              firms (world c) key z "world" "1" y = Http s' csv'
              /\ http_ok s' = false) ds1 ->
  firms (world c) key d "world" "1" y = NetFail msg ->
  Forall (fun z => Answers.no_data (firms (world c) key z "world" "1" y)) ds2 ->
  firms (world c) key x "world" "1" y = Http s csv ->
  http_ok s = true ->
  let datasets := (ds1 ++ d :: ds2 ++ x :: ds3)%list in
  let answer :=
    Worker.json_ok (Worker.DAlerts (Worker.parseFireCsvData (world c) csv))
      ("nasa-firms:" +:+ toLowerCase x) None in
  (exists st',
      Enhanced.liveFireLoop c key y datasets st = (Throw msg, st')
      /\ trace st' = (trace st ++ (EvFirms <$> (ds1 ++ [d])))%list)
  /\ (exists wst',
         Worker.tryDatasets (world c) key "world" "1" y cacheKey datasets last
           wst
         = (Ret answer, wst')
         /\ Worker.calls wst'
            = (Worker.calls wst
               ++ ((fun z => CallFirms key z "world" "1" y)
                   <$> (ds1 ++ d :: ds2 ++ [x])))%list
         /\ Worker.cache wst' = <[cacheKey := answer]> (Worker.cache wst)).
Proof.
  intros Hall Hd Hall2 Hx Hs datasets answer. subst datasets answer. split.
  - destruct (liveFireLoop_skips c key y ds1 (d :: ds2 ++ x :: ds3) st Hall)
      as (st1 & Ht & _ & _ & E).
    rewrite E. cbn [Enhanced.liveFireLoop].
    unfold do_fetch, log. unfold mbind at 1 2, SE_bind at 1 2.
    rewrite Hd. cbn [throw]. unfold throw. cbv beta iota.
    eexists. split; [reflexivity|].
    cbn [trace]. rewrite Ht, fmap_app, app_assoc. reflexivity.
  - assert (Hno : Forall (fun z => Answers.no_data
                                     (firms (world c) key z "world" "1" y))
                    (ds1 ++ d :: ds2)).
    { apply Forall_app. split.
      - eapply Forall_impl; [exact Hall|].
        intros z (s' & csv' & -> & Hs'). exact Hs'.
      - constructor; [now rewrite Hd | exact Hall2]. }
    destruct (tryDatasets_first (world c) key "world" "1" y cacheKey
                (ds1 ++ d :: ds2) x ds3 s csv last wst Hno Hx Hs)
      as (wst' & E & Hl & Hc).
    exists wst'.
    replace (ds1 ++ d :: ds2 ++ x :: ds3)%list
      with ((ds1 ++ d :: ds2) ++ x :: ds3)%list
      by (now rewrite <- app_assoc).
    replace (ds1 ++ d :: ds2 ++ [x])%list
      with ((ds1 ++ d :: ds2) ++ [x])%list
      by (now rewrite <- app_assoc).
    auto.
Qed.

(** An instance of [dataset_loops_differ]: the first dataset is
    unreachable, the second answers with one detection. *)
Lemma dataset_loops_differ_witness :
  let datasets := ["MODIS_NRT"; "VIIRS_SNPP_NRT"; "VIIRS_NOAA20_NRT"] in
  let answer :=
    Worker.json_ok
      (Worker.DAlerts
         (Worker.parseFireCsvData Scenarios.flaky_firms Examples.firms_csv))
      "nasa-firms:viirs_snpp_nrt" None in
  (exists st',
      Enhanced.liveFireLoop Scenarios.flaky_client "firms-key" "2024-01-01"
        datasets empty_state
      = (Throw "network down", st')
      /\ trace st' = [EvFirms "MODIS_NRT"])
  /\ (exists wst',
         Worker.tryDatasets Scenarios.flaky_firms "firms-key" "world" "1"
           "2024-01-01" "https://cache.fire-alerts/world/1" datasets None
           Worker.empty_state
         = (Ret answer, wst')
         /\ Worker.calls wst'
            = [CallFirms "firms-key" "MODIS_NRT" "world" "1" "2024-01-01";
               CallFirms "firms-key" "VIIRS_SNPP_NRT" "world" "1" "2024-01-01"]
         /\ Worker.cache wst'
            = <["https://cache.fire-alerts/world/1" := answer]>
                (Worker.cache Worker.empty_state)).
Proof.
  apply (dataset_loops_differ Scenarios.flaky_client "firms-key" "2024-01-01"
           "https://cache.fire-alerts/world/1" [] "MODIS_NRT" []
           "VIIRS_SNPP_NRT" ["VIIRS_NOAA20_NRT"] "network down" 200
           Examples.firms_csv None empty_state Worker.empty_state).
  - constructor.
  - reflexivity.
  - constructor.
  - reflexivity.
  - reflexivity.
Defined.

(** ** The two FIRMS parsers *)

Lemma getLocationName_client_vs_worker lat lng :
  Enhanced.getLocationName lat lng = Worker.getLocationName lat lng
  \/ Worker.getLocationName lat lng = LocName "Southeast Asian Rainforest".
Proof.
  unfold Enhanced.getLocationName, Worker.getLocationName.
  destruct (lt lat (of_Z (-3)) && gt lat (of_Z (-5)) && lt lng (of_Z (-60))
            && gt lng (of_Z (-65))); [now left|].
  destruct (lt lat (of_Z 2) && gt lat (of_Z (-2)) && gt lng (of_Z 14)
            && lt lng (of_Z 17)); [now left|].
  destruct (gt lat (of_Z 60) && lt lng (of_Z (-150))); [now left|].
  destruct (gt lat (of_Z 0) && lt lat (of_Z 5) && gt lng (of_Z 100)
            && lt lng (of_Z 110)); [now right|now left].
Qed.

Lemma parseFireLine_client_vs_worker w raw :
  match Enhanced.parseFireLine w raw, Worker.parseFireLine w raw with
  | Some a, Some b => Facade.same_detection a b
  | None, None => True
  | _, _ => False
  end.
Proof.
  unfold Enhanced.parseFireLine, Worker.parseFireLine.
  destruct (String.eqb (trim raw) ""); [exact I|].
  destruct (13 <=? length (split "," (trim raw)))%nat; [|exact I].
  cbv zeta. unfold Facade.same_detection. cbn.
  repeat (split; [reflexivity|]).
  apply getLocationName_client_vs_worker.
Qed.

Lemma omap_client_vs_worker w rows :
  Forall2 Facade.same_detection
    (omap (Enhanced.parseFireLine w) rows)
    (omap (Worker.parseFireLine w) rows).
Proof.
  induction rows as [|raw rows IH]; cbn; [constructor|].
  pose proof (parseFireLine_client_vs_worker w raw) as H.
  destruct (Enhanced.parseFireLine w raw), (Worker.parseFireLine w raw);
    try contradiction; [now constructor|exact IH].
Qed.

(** X24. The browser service and the worker parse a FIRMS answer alike:
    the alerts of the browser service, made from the first 20 rows, match
    one by one a prefix of the worker's, made from the first 50 - same
    id, time, severity, confidence, description and coordinates; the
    location names agree except where the worker names the Southeast
    Asian rainforest, a region the browser service does not know; the
    browser service never yields more than 20 alerts. *)
Theorem parseFireCsvData_client_vs_worker w csv :
  (length (Enhanced.parseFireCsvData w csv) <= 20)%nat
  /\ exists front rest,
       Worker.parseFireCsvData w csv = (front ++ rest)%list
       /\ Forall2 Facade.same_detection (Enhanced.parseFireCsvData w csv)
            front.
Proof.
  unfold Enhanced.parseFireCsvData, Worker.parseFireCsvData.
  set (rows := drop 1 (split Worker.newline csv)). split.
  - etransitivity; [apply length_omap_le|]. rewrite length_take. lia.
  - exists (omap (Worker.parseFireLine w) (take 20 rows)),
           (omap (Worker.parseFireLine w) (drop 20 (take 50 rows))).
    split; [|apply omap_client_vs_worker].
    rewrite <- omap_app. f_equal.
    rewrite <- (take_drop 20 (take 50 rows)) at 1.
    f_equal. rewrite take_take. f_equal.
Qed.

(** ** The two GLAD parsers *)

Lemma or_opt_num_None x n : Worker.or_opt_num x None = Some n -> x = Some n.
Proof.
  unfold Worker.or_opt_num. destruct x as [m|]; [|discriminate].
  destruct (truthy m); [congruence|discriminate].
Qed.

Lemma worker_parseGladAlert_shape w k al st :
  exists a st',
    Worker.parseGladAlert w k al st = (Ret a, st')
    /\ Facade.glad_alert_of (now w) k al a
    /\ Worker.cache st' = Worker.cache st
    /\ Worker.calls st' = Worker.calls st
    /\ Worker.rand_next st'
       = (Worker.rand_next st + (Facade.missing (g_lat al)
                                 + Facade.missing (g_lng al)))%nat.
Proof.
  unfold Worker.parseGladAlert, Worker.or_random, Facade.glad_alert_of,
    Facade.missing.
  destruct (Worker.or_opt_num (g_lat al) None) as [lat|] eqn:E1,
    (Worker.or_opt_num (g_lng al) None) as [lng|] eqn:E2;
    unfold mbind, SE_bind, mret, SE_ret, Worker.Math_random;
    cbv beta iota;
    do 2 eexists; (split; [reflexivity|]);
    cbn [a_id a_type a_metadata a_coordinates fst snd Worker.cache
         Worker.calls Worker.rand_next];
    repeat split; try discriminate; try lia;
    intros _; symmetry; now apply or_opt_num_None.
Qed.

Lemma worker_parseGladItems_shape w items : forall k st,
  exists out st',
    Worker.parseGladItems w k items st = (Ret out, st')
    /\ Forall2 (fun '(i, al) a => Facade.glad_alert_of (now w) i al a)
         (zip (seq k (length items)) items) out
    /\ Worker.cache st' = Worker.cache st
    /\ Worker.calls st' = Worker.calls st
    /\ Worker.rand_next st'
       = (Worker.rand_next st + Facade.draws items)%nat.
Proof.
  induction items as [|al rest IH]; intros k st.
  - exists [], st. cbn. repeat split; [constructor|lia].
  - destruct (worker_parseGladAlert_shape w k al st)
      as (a & st1 & E1 & Ha & Hc1 & Hl1 & Hr1).
    destruct (IH (S k) st1) as (out & st2 & E2 & Hout & Hc2 & Hl2 & Hr2).
    exists (a :: out), st2. cbn [Worker.parseGladItems].
    unfold mbind, SE_bind. rewrite E1. cbv beta iota. rewrite E2.
    split; [reflexivity|].
    split; [cbn; constructor; assumption|].
    split; [congruence|]. split; [congruence|].
    unfold Facade.draws in *. cbn. lia.
Qed.

Lemma client_parseGladAlert_shape c k al st :
  exists a st',
    Enhanced.parseGladAlert c k al st = (Ret a, st')
    /\ Facade.glad_alert_of (now (world c)) k al a
    /\ enhanced_cache st' = enhanced_cache st
    /\ server_cache st' = server_cache st
    /\ trace st' = trace st
    /\ rand_next st'
       = (rand_next st + (Facade.missing (g_lat al)
                          + Facade.missing (g_lng al)))%nat.
Proof.
  unfold Enhanced.parseGladAlert, Enhanced.or_random, Facade.glad_alert_of,
    Facade.missing.
  destruct (Worker.or_opt_num (g_lat al) None) as [lat|] eqn:E1,
    (Worker.or_opt_num (g_lng al) None) as [lng|] eqn:E2;
    unfold mbind, SE_bind, mret, SE_ret, Math_random;
    cbv beta iota zeta;
    do 2 eexists; (split; [reflexivity|]);
    cbn [a_id a_type a_metadata a_coordinates fst snd enhanced_cache
         server_cache trace rand_next];
    repeat split; try discriminate; try lia;
    intros _; symmetry; now apply or_opt_num_None.
Qed.

Lemma client_parseGladItems_shape c items : forall k st,
  exists out st',
    Enhanced.parseGladItems c k items st = (Ret out, st')
    /\ Forall2 (fun '(i, al) a => Facade.glad_alert_of (now (world c)) i al a)
         (zip (seq k (length items)) items) out
    /\ enhanced_cache st' = enhanced_cache st
    /\ server_cache st' = server_cache st
    /\ trace st' = trace st
    /\ rand_next st' = (rand_next st + Facade.draws items)%nat.
Proof.
  induction items as [|al rest IH]; intros k st.
  - exists [], st. cbn. repeat split; [constructor|lia].
  - destruct (client_parseGladAlert_shape c k al st)
      as (a & st1 & E1 & Ha & Hc1 & Hs1 & Ht1 & Hr1).
    destruct (IH (S k) st1)
      as (out & st2 & E2 & Hout & Hc2 & Hs2 & Ht2 & Hr2).
    exists (a :: out), st2. cbn [Enhanced.parseGladItems].
    unfold mbind, SE_bind. rewrite E1. cbv beta iota. rewrite E2.
    split; [reflexivity|].
    split; [cbn; constructor; assumption|].
    split; [congruence|]. split; [congruence|]. split; [congruence|].
    unfold Facade.draws in *. cbn. lia.
Qed.

Lemma zip_seq_take {A} (items : list A) : forall n k,
  zip (seq k (length (take n items))) (take n items)
  = zip (seq k (length (take n items))) items.
Proof.
  induction items as [|x r IH]; intros n k.
  - now rewrite take_nil.
  - destruct n as [|n]; [reflexivity|]. cbn. f_equal. apply IH.
Qed.

(** X25. The two parsers of GLAD answers. The worker turns the first 25
    items into alerts, the browser service the first 10, one alert per item
    and in order: the alert of the item at position [k] has the id
    [deforest_k], the type deforestation, the item as metadata and the
    item's coordinates where they are given; a random number is drawn only
    for a latitude or longitude that is absent, zero or [NaN]; neither
    parser fails, requests anything or touches a cache. *)
Theorem parseGladAlertsData_shape w c items wst st :
  (exists out wst',
      Worker.parseGladAlertsData w (Some items) wst = (Ret out, wst')
      /\ length out = Nat.min 25 (length items)
      /\ Forall2 (fun '(i, al) a => Facade.glad_alert_of (now w) i al a)
           (zip (seq 0 (length out)) items) out
      /\ Worker.cache wst' = Worker.cache wst
      /\ Worker.calls wst' = Worker.calls wst
      /\ Worker.rand_next wst'
         = (Worker.rand_next wst + Facade.draws (take 25 items))%nat)
  /\ (exists out st',
         Enhanced.parseGladAlertsData c items st = (Ret out, st')
         /\ length out = Nat.min 10 (length items)
         /\ Forall2
              (fun '(i, al) a =>
                 Facade.glad_alert_of (now (world c)) i al a)
              (zip (seq 0 (length out)) items) out
         /\ enhanced_cache st' = enhanced_cache st
         /\ server_cache st' = server_cache st
         /\ trace st' = trace st
         /\ rand_next st' = (rand_next st + Facade.draws (take 10 items))%nat).
Proof.
  split.
  - destruct (worker_parseGladItems_shape w (take 25 items) 0%nat wst)
      as (out & wst' & E & Hout & Hc & Hl & Hr).
    exists out, wst'. split; [exact E|].
    assert (Hlen : length out = length (take 25 items)).
    { apply Forall2_length in Hout. rewrite length_zip_with, length_seq in Hout.
      lia. }
    split; [rewrite Hlen; apply length_take|].
    split; [|auto]. rewrite Hlen, <- zip_seq_take. exact Hout.
  - destruct (client_parseGladItems_shape c (take 10 items) 0%nat st)
      as (out & st' & E & Hout & Hc & Hs & Ht & Hr).
    exists out, st'. split; [exact E|].
    assert (Hlen : length out = length (take 10 items)).
    { apply Forall2_length in Hout. rewrite length_zip_with, length_seq in Hout.
      lia. }
    split; [rewrite Hlen; apply length_take|].
    split; [|auto]. rewrite Hlen, <- zip_seq_take. exact Hout.
Qed.

(** ** The configuration manager *)

(** X26. The no-mock flag of the configuration manager: [setNoMock(b)]
    makes [isNoMockEnabled()] answer [b], and a refresh keeps that answer
    whether or not the store can be used; a manager created afresh on the
    store that [setNoMock] left behind answers [b] exactly when the store
    can be used, and [false] otherwise. A flag is read as set only from
    the stored texts [1] and [true]. *)
Theorem no_mock_flag_round_trip o b ls m :
  let '(m1, ls1) := ApiConfigManager.setNoMock o b ls m in
  ApiConfigManager.isNoMockEnabled m1 = b
  /\ ApiConfigManager.isNoMockEnabled
       (ApiConfigManager.refreshApiKeys o ls1 m1) = b
  /\ ApiConfigManager.isNoMockEnabled (ApiConfigManager.create o ls1)
     = ApiConfigManager.accessible o && b
  /\ (ApiConfigManager.isNoMockEnabled (ApiConfigManager.create o ls) = true
      <-> ApiConfigManager.accessible o = true
          /\ (ls !! ApiConfigManager.NO_MOCK_ITEM = Some "1"
              \/ ls !! ApiConfigManager.NO_MOCK_ITEM = Some "true")).
Proof.
  unfold ApiConfigManager.setNoMock, ApiConfigManager.refreshApiKeys,
    ApiConfigManager.create, ApiConfigManager.loadNoMockFlag,
    ApiConfigManager.loadApiKeys, ApiConfigManager.isNoMockEnabled.
  destruct (ApiConfigManager.accessible o) eqn:Ha.
  - cbn [ApiConfigManager.noMock andb]. rewrite lookup_insert_eq.
    split; [reflexivity|]. split; [|split].
    + destruct b; reflexivity.
    + destruct b; reflexivity.
    + rewrite orb_true_iff, !bool_decide_eq_true. tauto.
  - cbn [ApiConfigManager.noMock andb].
    split; [reflexivity|]. split; [reflexivity|]. split; [reflexivity|].
    split; [discriminate|]. now intros [? _].
Qed.

Lemma some_key_spec keys :
  ApiConfigManager.some_key keys = true
  <-> exists s, ApiConfigManager.present (keys s) = true.
Proof.
  unfold ApiConfigManager.some_key. rewrite existsb_exists. split.
  - intros (s & _ & H). eauto.
  - intros (s & H). exists s. split; [|exact H].
    destruct s; cbn; auto 10.
Qed.

(** X27. Keys and live data in the configuration manager. A service is
    listed by [getConfiguredApis()] exactly when [hasApiKey] holds of it;
    [shouldUseLiveData()] requires a key, so [setUseLiveData(true)] turns
    live data on exactly when some service has a key; and after a load
    that could read the store, a saved value that is not empty wins over
    the key of the build environment, which is used otherwise. *)
Theorem configured_keys o ls m s :
  (s ∈ ApiConfigManager.getConfiguredApis m
   <-> ApiConfigManager.hasApiKey m s = true)
  /\ (ApiConfigManager.shouldUseLiveData
        (ApiConfigManager.setUseLiveData true m) = true
      <-> exists s', ApiConfigManager.hasApiKey m s' = true)
  /\ ApiConfigManager.shouldUseLiveData
       (ApiConfigManager.setUseLiveData false m) = false
  /\ (forall p,
         ApiConfigManager.accessible o = true ->
         ApiConfigManager.parse o (or_str (ls !! ApiConfigManager.KEYS_ITEM) "")
         = Some p ->
         falsy_str (ls !! ApiConfigManager.KEYS_ITEM) = false ->
         let m' := ApiConfigManager.loadApiKeys o ls m in
         ApiConfigManager.getApiKey m' ApiConfigManager.nasa_firms
         = (if falsy_str (ApiConfigManager.p_nasa_firms p)
            then ApiConfigManager.env_keys o ApiConfigManager.nasa_firms
            else ApiConfigManager.p_nasa_firms p)
         /\ ApiConfigManager.shouldUseLiveData m'
            = ApiConfigManager.some_key (ApiConfigManager.apiKeys m')
         /\ ApiConfigManager.isNoMockEnabled m'
            = ApiConfigManager.isNoMockEnabled m).
Proof.
  split; [|split; [|split]].
  - unfold ApiConfigManager.getConfiguredApis, ApiConfigManager.hasApiKey.
    rewrite list_elem_of_In, filter_In. split; [tauto|].
    intros H. split; [|exact H]. destruct s; cbn; auto 10.
  - unfold ApiConfigManager.shouldUseLiveData, ApiConfigManager.setUseLiveData.
    cbn [ApiConfigManager.useLiveData ApiConfigManager.apiKeys andb].
    apply some_key_spec.
  - reflexivity.
  - intros p Ha Hp Hs m'. subst m'. unfold ApiConfigManager.loadApiKeys.
    rewrite Ha, Hs, Hp. cbv zeta.
    unfold ApiConfigManager.getApiKey, ApiConfigManager.shouldUseLiveData,
      ApiConfigManager.isNoMockEnabled.
    cbn [ApiConfigManager.apiKeys ApiConfigManager.useLiveData
         ApiConfigManager.noMock].
    split; [reflexivity|]. split; [apply andb_diag|reflexivity].
Qed.

(** ** Routing *)

Lemma string_of_list_ascii_append (a b : list ascii) :
  string_of_list_ascii (a ++ b)%list
  = string_of_list_ascii a +:+ string_of_list_ascii b.
Proof. induction a as [|c a IH]; simpl; [reflexivity|now rewrite IH]. Qed.

Lemma drop_trailing_slash_append p s :
  s <> "" ->
  drop_trailing_slash (p +:+ s) = p +:+ drop_trailing_slash s.
Proof.
  intros Hs. unfold drop_trailing_slash.
  rewrite list_ascii_of_string_append, rev_app_distr.
  destruct (rev (list_ascii_of_string s)) as [|c r] eqn:E.
  { exfalso. apply Hs. apply (f_equal (@rev ascii)) in E.
    rewrite rev_involutive in E. cbn in E.
    rewrite <- (string_of_list_ascii_of_string s), E. reflexivity. }
  cbn [app].
  destruct (Ascii.eqb c "/") eqn:Hc.
  - apply Ascii.eqb_eq in Hc. subst c.
    rewrite rev_app_distr, rev_involutive, string_of_list_ascii_append.
    now rewrite string_of_list_ascii_of_string.
  - apply Ascii.eqb_neq in Hc.
    destruct c as [[] [] [] [] [] [] [] []]; try reflexivity.
    now destruct Hc.
Qed.

Lemma route_path_api_prefix s q :
  startsWith s "/" = true -> s <> "/" ->
  Worker.route_path
    {| Worker.pathname := "/api" +:+ s; Worker.searchParams := q |}
  = drop_trailing_slash s.
Proof.
  intros Hs Hne. unfold Worker.route_path. cbn [Worker.pathname].
  destruct s as [|c s']; [discriminate|].
  unfold startsWith in Hs. cbn [starts_with list_ascii_of_string] in Hs.
  rewrite andb_true_r in Hs. apply Ascii.eqb_eq in Hs. subst c.
  assert (Hs' : s' <> "") by (intros ->; now apply Hne).
  rewrite drop_trailing_slash_append by discriminate.
  change (String "/" s') with ("/" +:+ s').
  rewrite (drop_trailing_slash_append "/" s' Hs').
  generalize (drop_trailing_slash s'). intros t.
  unfold startsWith, str_slice_from. simpl.
  now rewrite string_of_list_ascii_of_string.
Qed.

(** X28. The [/api] prefix is dropped once and changes no answer: for a
    path that starts with a slash, is not the bare slash and does not
    itself route through the prefix, the request to [/api] followed by
    that path is answered as the request to the path itself - same
    outcome, same state - for every method, query, environment and
    state. *)
Theorem fetch_api_prefix fuel w env st method auth q s :
  startsWith s "/" = true ->
  s <> "/" ->
  Worker.route_path {| Worker.pathname := s; Worker.searchParams := q |}
  = drop_trailing_slash s ->
  Worker.fetch fuel w
    {| Worker.method := method;
       Worker.url := {| Worker.pathname := "/api" +:+ s;
                        Worker.searchParams := q |};
       Worker.authorization := auth |} env st
  = Worker.fetch fuel w
      {| Worker.method := method;
         Worker.url := {| Worker.pathname := s; Worker.searchParams := q |};
         Worker.authorization := auth |} env st.
Proof.
  intros Hs Hne Hown. unfold Worker.fetch.
  cbn [Worker.method Worker.url]. cbv zeta.
  rewrite (route_path_api_prefix s q Hs Hne), Hown.
  destruct (String.eqb method "OPTIONS"); [reflexivity|].
  repeat (destruct (String.eqb (drop_trailing_slash s) _); [reflexivity|]).
  reflexivity.
Qed.

(** An instance of [fetch_api_prefix]: [/api/weather/] and [/weather/]. *)
Lemma fetch_api_prefix_witness :
  Worker.fetch 0 (Examples.offline 0)
    {| Worker.method := "GET";
       Worker.url := {| Worker.pathname := "/api" +:+ "/weather/";
                        Worker.searchParams := [("lat", "1"); ("lng", "2")] |};
       Worker.authorization := None |} Examples.no_keys Worker.empty_state
  = Worker.fetch 0 (Examples.offline 0)
      {| Worker.method := "GET";
         Worker.url := {| Worker.pathname := "/weather/";
                          Worker.searchParams := [("lat", "1"); ("lng", "2")] |};
         Worker.authorization := None |} Examples.no_keys Worker.empty_state.
Proof.
  apply (fetch_api_prefix 0 (Examples.offline 0) Examples.no_keys
           Worker.empty_state "GET" None [("lat", "1"); ("lng", "2")]
           "/weather/").
  - reflexivity.
  - discriminate.
  - reflexivity.
Defined.

(** ** Region scores *)

Lemma base_score_range weather : 50 <= RegionScores.base_score weather <= 80.
Proof.
  unfold RegionScores.base_score. cbv zeta.
  destruct (gt _ _), (lt _ _), (gt _ _); lia.
Qed.

(** X29. The health score of a region under the contract of
    [Math.random]: the score starts at 80, loses 15, 10 and 5 for a high
    fire-weather index, low precipitation and high temperature, and gets
    a random term between -5 and 5; it therefore lies in [45, 85], and the
    clamp to [30, 100] that the code applies never changes it. The
    interval is closed: under every rounding of the operations the sum
    stays within the same bounds, and the clamp leaves it as it is. The
    computation makes one draw and touches neither cache nor trace. *)
Theorem calculateHealthScore_range c weather st :
  Answers.unit_random (world c) ->
  exists q st',
    RegionScores.calculateHealthScore c weather st = (Ret (Num q), st')
    /\ (q == Answers.centred Answers.exact
               (inject_Z (RegionScores.base_score weather))
               (random (world c) (rand_next st)) 10)%Q
    /\ (45 <= q <= 85)%Q
    /\ (forall fl, Answers.rounding fl ->
          let sum :=
            Answers.centred fl (inject_Z (RegionScores.base_score weather))
              (random (world c) (rand_next st)) 10 in
          (45 <= sum <= 85)%Q /\ (Qmax 30 (Qmin 100 sum) == sum)%Q)
    /\ rand_next st' = S (rand_next st)
    /\ trace st' = trace st
    /\ enhanced_cache st' = enhanced_cache st
    /\ server_cache st' = server_cache st.
Proof.
  intros Hr.
  assert (Hall : forall fl, Answers.rounding fl ->
            let sum :=
              Answers.centred fl (inject_Z (RegionScores.base_score weather))
                (random (world c) (rand_next st)) 10 in
            (45 <= sum <= 85)%Q /\ (Qmax 30 (Qmin 100 sum) == sum)%Q).
  { intros fl Hfl sum. subst sum.
    pose proof (base_score_range weather) as Hb.
    destruct (Hr (rand_next st)) as [H0 H1].
    pose proof (centred_bounds fl (RegionScores.base_score weather) 5
                  (random (world c) (rand_next st)) Hfl H0 H1) as Hc.
    change (inject_Z (2 * 5)) with 10%Q in Hc.
    generalize dependent (RegionScores.base_score weather). intros b Hb Hc.
    specialize (Hc ltac:(change (2 ^ 51) with 2251799813685248; lia)
                   ltac:(vm_compute; split; discriminate)).
    generalize dependent
      (Answers.centred fl (inject_Z b) (random (world c) (rand_next st)) 10).
    intros x [Hx1 Hx2].
    assert (Hx : (45 <= x <= 85)%Q).
    { split.
      - eapply Qle_trans; [|exact Hx1].
        unfold Qle, inject_Z. cbn [Qnum Qden]. lia.
      - eapply Qle_trans; [exact Hx2|].
        unfold Qle, inject_Z. cbn [Qnum Qden]. lia. }
    split; [exact Hx|].
    rewrite (Q.min_r 100 x).
    - apply Q.max_r. eapply Qle_trans; [|apply Hx]. discriminate.
    - eapply Qle_trans; [apply Hx|]. discriminate. }
  unfold RegionScores.calculateHealthScore.
  unfold mbind, SE_bind, Math_random, mret, SE_ret. cbv beta iota.
  pose proof (Hall Answers.exact rounding_exact) as Hex. cbv zeta in Hex.
  change (Answers.centred Answers.exact
            (inject_Z (RegionScores.base_score weather))
            (random (world c) (rand_next st)) 10)
    with (inject_Z (RegionScores.base_score weather)
          + (random (world c) (rand_next st) - 0.5) * 10)%Q in *.
  set (x := (inject_Z (RegionScores.base_score weather)
             + (random (world c) (rand_next st) - 0.5) * 10)%Q) in *.
  unfold of_Z.
  destruct (Math_min_num (inject_Z 100) x) as (m & -> & Hm).
  destruct (Math_max_num (inject_Z 30) m) as (q & -> & Hq).
  destruct Hex as [Hx Hclamp].
  assert (Hqx : (q == x)%Q).
  { rewrite Hq, Hm. exact Hclamp. }
  exists q. eexists. split; [reflexivity|].
  split; [exact Hqx|]. split; [rewrite Hqx; exact Hx|].
  split; [exact Hall|]. cbn. auto.
Qed.

(** An instance of [calculateHealthScore_range]: every draw is 1/2. *)
Lemma calculateHealthScore_range_witness :
  exists q st',
    RegionScores.calculateHealthScore (Examples.browser 0 None)
      (Worker.parseOpenWeatherData Scenarios.hot_and_dry) empty_state
    = (Ret (Num q), st')
    /\ (q == Answers.centred Answers.exact
               (inject_Z
                  (RegionScores.base_score
                     (Worker.parseOpenWeatherData Scenarios.hot_and_dry)))
               (random (world (Examples.browser 0 None))
                  (rand_next empty_state)) 10)%Q
    /\ (45 <= q <= 85)%Q
    /\ (forall fl, Answers.rounding fl ->
          let sum :=
            Answers.centred fl
              (inject_Z
                 (RegionScores.base_score
                    (Worker.parseOpenWeatherData Scenarios.hot_and_dry)))
              (random (world (Examples.browser 0 None))
                 (rand_next empty_state)) 10 in
          (45 <= sum <= 85)%Q /\ (Qmax 30 (Qmin 100 sum) == sum)%Q)
    /\ rand_next st' = S (rand_next empty_state)
    /\ trace st' = trace empty_state
    /\ enhanced_cache st' = enhanced_cache empty_state
    /\ server_cache st' = server_cache empty_state.
Proof.
  apply (calculateHealthScore_range (Examples.browser 0 None)
           (Worker.parseOpenWeatherData Scenarios.hot_and_dry) empty_state).
  intros n. split; vm_compute; congruence.
Defined.

Ltac to_above :=
  repeat match goal with
         | H : gt _ (of_Z _) = true |- _ => apply gt_above in H
         | H : gt _ (of_Z _) = false |- _ => apply gt_not_above in H
         end.

Lemma fire_points_spec weather :
  let p := RegionScores.fire_points weather in
  0 <= p <= 3
  /\ (1 <= p <-> above (w_fireWeatherIndex weather) 40)
  /\ (2 <= p <-> above (w_fireWeatherIndex weather) 60)
  /\ (3 <= p <-> above (w_fireWeatherIndex weather) 80).
Proof.
  unfold RegionScores.fire_points. cbv zeta.
  pose proof (above_mono (w_fireWeatherIndex weather) 80 60 ltac:(lia)).
  pose proof (above_mono (w_fireWeatherIndex weather) 60 40 ltac:(lia)).
  destruct (gt (w_fireWeatherIndex weather) (of_Z 80)) eqn:E1,
    (gt (w_fireWeatherIndex weather) (of_Z 60)) eqn:E2,
    (gt (w_fireWeatherIndex weather) (of_Z 40)) eqn:E3;
    to_above; (split; [lia|]); repeat split; intros; try lia; tauto.
Qed.

Lemma loss_points_spec x :
  let p := RegionScores.loss_points x in
  0 <= p <= 3
  /\ (1 <= p <-> above x 1)
  /\ (2 <= p <-> above x 2)
  /\ (3 <= p <-> above x 3).
Proof.
  unfold RegionScores.loss_points. cbv zeta.
  pose proof (above_mono x 3 2 ltac:(lia)).
  pose proof (above_mono x 2 1 ltac:(lia)).
  destruct (gt x (of_Z 3)) eqn:E1, (gt x (of_Z 2)) eqn:E2,
    (gt x (of_Z 1)) eqn:E3;
    to_above; (split; [lia|]); repeat split; intros; try lia; tauto.
Qed.

(** X30. The alert level of a region, by its two factors, the
    fire-weather index and the forest loss of 2023 (absent counts as 0):
    the level is low exactly when the index is not above 40 and the loss
    not above 1; it is critical only when the index is above 60 and the
    loss above 2; and with a loss not above 1 the level is never critical
    and is high exactly when the index is above 80. An index that is not
    a number counts as no fire risk. *)
Theorem calculateAlertLevel_factors weather forestLoss2023 :
  let level := RegionScores.calculateAlertLevel weather forestLoss2023 in
  let fwi := w_fireWeatherIndex weather in
  let loss := or_num forestLoss2023 (of_Z 0) in
  (level = low <-> ~ above fwi 40 /\ ~ above loss 1)
  /\ (level = critical -> above fwi 60 /\ above loss 2)
  /\ (above fwi 80 /\ above loss 2 -> level = critical)
  /\ (~ above loss 1 -> level <> critical /\ (level = high <-> above fwi 80))
  /\ (fwi = NaN -> level = RegionScores.calculateAlertLevel
                            {| w_temperature := w_temperature weather;
                               w_humidity := w_humidity weather;
                               w_precipitation := w_precipitation weather;
                               w_windSpeed := w_windSpeed weather;
                               w_pressure := w_pressure weather;
                               w_cloudCover := w_cloudCover weather;
                               w_uvIndex := w_uvIndex weather;
                               w_fireWeatherIndex := of_Z 0;
                               w_location := w_location weather;
                               w_country := w_country weather;
                               w_description := w_description weather |}
                            forestLoss2023).
Proof.
  intros level fwi loss. subst level fwi loss.
  unfold RegionScores.calculateAlertLevel. cbv zeta.
  pose proof (fire_points_spec weather) as Hf.
  pose proof (loss_points_spec (or_num forestLoss2023 (of_Z 0))) as Hl.
  cbv zeta in Hf, Hl.
  destruct Hf as (Hf0 & Hf1 & Hf2 & Hf3), Hl as (Hl0 & Hl1 & Hl2 & Hl3).
  split; [|split; [|split; [|split]]].
  5: { intros Hnan. unfold RegionScores.fire_points.
       cbn [w_fireWeatherIndex]. rewrite Hnan. reflexivity. }
  all: generalize dependent (RegionScores.fire_points weather); intros f;
    generalize dependent (RegionScores.loss_points
                            (or_num forestLoss2023 (of_Z 0))); intros l;
    intros;
    assert (Hf : f = 0 \/ f = 1 \/ f = 2 \/ f = 3) by lia;
    assert (Hl : l = 0 \/ l = 1 \/ l = 2 \/ l = 3) by lia;
    destruct Hf as [-> | [-> | [-> | ->]]];
    destruct Hl as [-> | [-> | [-> | ->]]];
    repeat match goal with
           | |- context [?a <=? ?b] =>
               let v := eval vm_compute in (a <=? b) in
               change (a <=? b) with v
           end;
    cbv iota;
    repeat match goal with
           | H : _ <-> ?P |- _ =>
               first [ assert P by (apply H; lia)
                     | assert (~ P) by (intros HP; apply H in HP; lia) ];
               clear H
           end;
    intuition (try discriminate; try lia).
Qed.

(** ** Confidence and percentages of the records *)

Lemma nonneg_max0 x : x <> NaN -> nonneg (Math_max (of_Z 0) x).
Proof.
  destruct x as [|q|[]]; [congruence| |intros _; apply Qle_refl|reflexivity].
  intros _. unfold of_Z.
  destruct (Math_max_num (inject_Z 0) q) as (m & -> & Hm).
  cbn. rewrite Hm. apply Q.le_max_l.
Qed.

Lemma nonneg_add a b : nonneg a -> nonneg b -> nonneg (add a b).
Proof.
  destruct a as [|x|[]], b as [|y|[]]; cbn; try tauto; try discriminate.
  intros Hx Hy. apply Qle_trans with (0 + 0)%Q; [discriminate|].
  now apply Qplus_le_compat.
Qed.

Lemma nonneg_third a : nonneg a -> nonneg (div_const a 3).
Proof.
  destruct a as [|x|[]]; cbn; try tauto. intros Hx.
  apply Qle_shift_div_l; [reflexivity|]. now rewrite Qmult_0_l.
Qed.

Lemma percent_min100 a : nonneg a -> in_percent_range (Math_min (of_Z 100) a).
Proof.
  destruct a as [|x|[]]; [intros [] | | discriminate |].
  - intros Hx. unfold of_Z. cbn [nonneg] in Hx.
    destruct (Math_min_num (inject_Z 100) x) as (m & -> & Hm).
    cbn. rewrite Hm. split; [|apply Q.le_min_l].
    apply Q.min_glb; [discriminate | exact Hx].
  - intros _. cbn. split; discriminate.
Qed.

Lemma sub_num_l a b : b <> NaN -> sub (Num a) b <> NaN.
Proof. destruct b as [|y|[]]; cbn; congruence. Qed.

Lemma sub_num_r a b : a <> NaN -> sub a (Num b) <> NaN.
Proof. destruct a as [|x|[]]; cbn; congruence. Qed.

Lemma add_num_r a b : a <> NaN -> add a (Num b) <> NaN.
Proof. destruct a as [|x|[]]; cbn; congruence. Qed.

(** The fire-weather index of three numbers, finite or not, lies in
    [0, 100]. *)
Lemma fwi_in_range t h p :
  t <> NaN -> h <> NaN -> p <> NaN ->
  in_percent_range (Worker.calculateFireWeatherIndex t h p).
Proof.
  intros Ht Hh Hp. unfold Worker.calculateFireWeatherIndex. cbv zeta.
  apply percent_min100, nonneg_third.
  repeat apply nonneg_add; apply nonneg_max0.
  - now apply sub_num_l.
  - now apply sub_num_r.
  - now apply sub_num_l.
Qed.

Lemma unit_humidity r :
  (0 <= r)%Q -> (r < 1)%Q -> in_percent_range (Num (60 + r * 30)).
Proof. intros H0 H1. cbn. q_arith. Qed.

Lemma unit_cloudCover r :
  (0 <= r)%Q -> (r < 1)%Q -> in_percent_range (Num (r * 100)).
Proof. intros H0 H1. cbn. q_arith. Qed.

Lemma unit_confidence r :
  (0 <= r)%Q -> (r < 1)%Q -> percent (85 + r * 10).
Proof. intros H0 H1. unfold percent. q_arith. Qed.

Lemma unit_threatLevel r :
  (0 <= r)%Q -> (r < 1)%Q -> percent (inject_Z (Qfloor (r * 100))).
Proof.
  intros H0 H1. unfold percent.
  assert (H : 0 <= Qfloor (r * 100) <= 100).
  { apply Qfloor_between. q_arith. }
  unfold Qle, inject_Z. cbn [Qnum Qden]. lia.
Qed.

Lemma lat_temperature lat x :
  lat <> NaN ->
  add (sub (of_Z 30) (mul_const (Math_abs lat) 0.6)) (Num x) <> NaN.
Proof. destruct lat as [|q|[]]; cbn; congruence. Qed.

Lemma worker_mockWeather_in_range w lat lng st :
  Answers.unit_random w ->
  exists d st',
    Worker.mockWeather w lat lng st = (Ret d, st')
    /\ in_percent_range (w_humidity d)
    /\ in_percent_range (w_cloudCover d)
    /\ (lat <> NaN -> in_percent_range (w_fireWeatherIndex d)).
Proof.
  intros Hr.
  destruct (mockWeather_returns w lat lng st)
    as (d & E & Hh & _ & _ & Hc & Hf & _ & Ht & Hp).
  exists d. eexists. split; [exact E|].
  split; [rewrite Hh; apply unit_humidity; apply Hr|].
  split; [rewrite Hc; apply unit_cloudCover; apply Hr|].
  intros Hlat. rewrite Hf. apply fwi_in_range.
  - rewrite Ht. now apply lat_temperature.
  - rewrite Hh. discriminate.
  - rewrite Hp. apply add_num_r.
    assert (H : nonneg (Math_max (of_Z 0)
                          (sub (of_Z 20) (mul_const (Math_abs lat) 0.2)))).
    { apply nonneg_max0. destruct lat as [|q|[]]; cbn; congruence. }
    intros E0. rewrite E0 in H. exact H.
Qed.

Lemma server_generateMockWeatherData_in_range c lat lng st :
  Answers.unit_random (Services.world c) ->
  exists d st',
    Services.ServerSide.generateMockWeatherData c lat lng st = (Ret d, st')
    /\ in_percent_range (w_humidity d)
    /\ in_percent_range (w_cloudCover d)
    /\ (lat <> NaN -> in_percent_range (w_fireWeatherIndex d)).
Proof.
  intros Hr.
  unfold Services.ServerSide.generateMockWeatherData,
    Services.ServerSide.getRegionalTemperature,
    Services.ServerSide.getRegionalPrecipitation.
  destruct (lt (Math_abs lat) (of_Z 10)); [|destruct (lt (Math_abs lat) (of_Z 30))];
    unfold mbind, SE_bind, Services.Math_random, mret, SE_ret;
    cbv beta iota zeta; cbn [Services.rand_next];
    (do 2 eexists; split; [reflexivity|]);
    cbn [w_humidity w_cloudCover w_fireWeatherIndex];
    (split; [apply unit_humidity; apply Hr|]);
    (split; [apply unit_cloudCover; apply Hr|]);
    intros Hlat;
    (apply fwi_in_range; [now apply lat_temperature | discriminate..]).
Qed.

Lemma enhanced_generateMockWeatherData_in_range c lat lng st :
  Answers.unit_random (Services.world c) ->
  exists d st',
    Services.Enhanced.generateMockWeatherData c lat lng st = (Ret d, st')
    /\ in_percent_range (Services.Enhanced.humidity d)
    /\ in_percent_range (Services.Enhanced.cloudCover d)
    /\ (lat <> NaN -> in_percent_range (Services.Enhanced.fireWeatherIndex d)).
Proof.
  intros Hr.
  unfold Services.Enhanced.generateMockWeatherData,
    Services.Enhanced.getRegionalTemperature,
    Services.Enhanced.getRegionalPrecipitation.
  destruct (lt (Math_abs lat) (of_Z 10)); [|destruct (lt (Math_abs lat) (of_Z 30))];
    unfold mbind, SE_bind, Services.Math_random, mret, SE_ret;
    cbv beta iota zeta; cbn [Services.rand_next];
    (do 2 eexists; split; [reflexivity|]);
    cbn [Services.Enhanced.humidity Services.Enhanced.cloudCover
         Services.Enhanced.fireWeatherIndex];
    (split; [apply unit_humidity; apply Hr|]);
    (split; [apply unit_cloudCover; apply Hr|]);
    intros Hlat;
    (apply fwi_in_range; [now apply lat_temperature | discriminate..]).
Qed.

Lemma worker_parseGBIFSpeciesData_in_range w g st :
  Answers.unit_random w ->
  exists s st',
    Worker.parseGBIFSpeciesData w g st = (Ret s, st') /\ species_in_range s.
Proof.
  intros Hr. unfold Worker.parseGBIFSpeciesData.
  unfold mbind, SE_bind, Worker.Math_random, mret, SE_ret.
  cbv beta iota zeta. do 2 eexists. split; [reflexivity|].
  split; cbn [s_confidence s_threatLevel].
  - apply unit_confidence; apply Hr.
  - apply unit_threatLevel; apply Hr.
Qed.

Lemma enhanced_parseGBIFSpeciesData_in_range c g st :
  Answers.unit_random (Services.world c) ->
  exists s st',
    Services.Enhanced.parseGBIFSpeciesData c g st = (Ret s, st')
    /\ species_in_range s.
Proof.
  intros Hr. unfold Services.Enhanced.parseGBIFSpeciesData.
  unfold mbind, SE_bind, Services.Math_random, mret, SE_ret.
  cbv beta iota zeta. do 2 eexists. split; [reflexivity|].
  split; cbn [s_confidence s_threatLevel].
  - apply unit_confidence; apply Hr.
  - apply unit_threatLevel; apply Hr.
Qed.

Lemma enhanced_parseFireCsvData_confidence w csvData a :
  a ∈ Services.Enhanced.parseFireCsvData w csvData ->
  exists raw, raw ∈ split Worker.newline csvData
              /\ a_confidence a = parseFloat (nth 8 (split "," (trim raw)) "").
Proof.
  unfold Services.Enhanced.parseFireCsvData. intros Ha.
  apply list_elem_of_omap in Ha. destruct Ha as (raw & Hraw & Hp).
  exists raw. split.
  - eapply subseteq_drop, subseteq_take, Hraw.
  - revert Hp. unfold Services.Enhanced.parseFireLine.
    destruct (String.eqb (trim raw) ""); [discriminate|].
    destruct (13 <=? length (split "," (trim raw)))%nat; [|discriminate].
    now intros [= <-].
Qed.

Lemma enhanced_parseGladItems_confidence c items : forall i st,
  exists out st',
    Services.Enhanced.parseGladItems c i items st = (Ret out, st')
    /\ Forall2 (fun alert a =>
                  a_confidence a = or_num (g_confidence alert) (of_Z 85))
         items out.
Proof.
  induction items as [|alert rest IH]; intros i st.
  - exists [], st. cbn. auto.
  - cbn [Services.Enhanced.parseGladItems].
    assert (E1 : exists a st1,
               Services.Enhanced.parseGladAlert c i alert st = (Ret a, st1)
               /\ a_confidence a = or_num (g_confidence alert) (of_Z 85)).
    { unfold Services.Enhanced.parseGladAlert, Services.Enhanced.or_random.
      destruct (Worker.or_opt_num (g_lat alert) None),
        (Worker.or_opt_num (g_lng alert) None);
        cbn; do 2 eexists; (split; [reflexivity|]); reflexivity. }
    destruct E1 as (a & st1 & E1 & Ha).
    destruct (IH (S i) st1) as (out & st2 & E2 & Hout).
    exists (a :: out), st2. unfold mbind, SE_bind.
    rewrite E1. cbn. unfold mbind, SE_bind. rewrite E2. cbn.
    split; [reflexivity|]. now constructor.
Qed.

Lemma enhanced_parseForestLossEntries_confidence c entries : forall i st out st',
  Services.Enhanced.parseForestLossEntries c i entries st = (Ret out, st') ->
  Forall (fun a => a_confidence a = of_Z 90) out.
Proof.
  induction entries as [|[year loss] rest IH]; intros i st out st'.
  - cbn. intros [= <- <-]. constructor.
  - cbn [Services.Enhanced.parseForestLossEntries].
    unfold mbind at 1, SE_bind at 1.
    destruct (Services.Enhanced.parseForestLossEntry c i (year, loss) st)
      as [[a | e |] st1] eqn:E1; [|discriminate..].
    unfold mbind, SE_bind.
    destruct (Services.Enhanced.parseForestLossEntries c (S i) rest st1)
      as [[l | e |] st2] eqn:E2; [|discriminate..].
    cbn. intros [= <- <-]. apply Forall_app. split; [|eapply IH, E2].
    revert E1. unfold Services.Enhanced.parseForestLossEntry.
    destruct (_ && _); [|cbn; intros [= <- <-]; constructor].
    destruct (parseDate _ _); [|discriminate].
    unfold mbind, SE_bind, Services.Math_random, mret, SE_ret.
    cbv beta iota. intros [= <- <-]. repeat constructor.
Qed.

Ltac in_range_list :=
  repeat constructor; cbv [percent]; cbn; unfold Qle; cbn; lia.

(** C9 (as the code has it). The alerts, regions, species and weather
    records of every mock generator of the worker, the proxy client, the
    browser facade and [mockDataService], and those of the mock lists of
    [forestDataService], have their confidence and their
    percentage-valued fields within [0, 100]: alerts their confidence;
    regions their health score, deforestation rate, biodiversity index,
    forest cover and fire risk; species their confidence and threat level;
    mock weather its humidity and cloud cover, and its fire-weather index
    whenever the latitude is a number. The fields the parse functions
    compute are in range as well: the confidence and threat level of a
    species parsed from GBIF, the confidence 90 of an alert parsed from
    forest-loss data, the fire-weather index of parsed weather whose
    temperature and humidity are numbers. The fields the parse functions
    copy are not clamped: a parsed fire alert carries the number read
    from the ninth field of its CSV row, a parsed deforestation alert the
    upstream confidence, or 85 when that is absent or zero, parsed weather
    the upstream humidity and cloud cover. The trend of a species is a
    signed rate: the mock species of the worker have negative trends. *)
Theorem C9_percent_fields :
  (forall w,
      Forall alert_in_range
        (Worker.generateMockFireAlerts w
         ++ Worker.generateMockDeforestationAlerts w
         ++ Services.ServerSide.getMockForestAlerts w
         ++ Services.ServerSide.getMockBiodiversityAlerts w
         ++ Services.ServerSide.getMockDeforestationAlerts w
         ++ Services.Enhanced.getMockFireAlerts w
         ++ Services.Enhanced.getMockDeforestationAlerts w
         ++ Services.Enhanced.getMockBiodiversityAlerts w
         ++ Services.MockDataService.getForestAlerts w
         ++ Services.ForestDataService.getMockDeforestationAlerts w
         ++ Services.ForestDataService.getMockAlerts w)
      /\ Forall region_in_range
           (Worker.generateEnhancedForestRegions w
            ++ Services.ServerSide.getMockForestRegions w
            ++ Services.MockDataService.getForestRegions w
            ++ Services.ForestDataService.getMockForestRegions w)
      /\ Forall species_in_range
           (Worker.generateMockBiodiversityData w
            ++ Services.ServerSide.getMockBiodiversityData w
            ++ Services.MockDataService.getBiodiversityData w
            ++ Services.ForestDataService.getMockBiodiversityData w)
      /\ Forall (fun s => (s_trend s < 0)%Q)
           (Worker.generateMockBiodiversityData w))
  /\ (forall c lat lng wst st,
         Answers.unit_random (Services.world c) ->
         (exists d wst',
             Worker.mockWeather (Services.world c) lat lng wst = (Ret d, wst')
             /\ in_percent_range (w_humidity d)
             /\ in_percent_range (w_cloudCover d)
             /\ (lat <> NaN -> in_percent_range (w_fireWeatherIndex d)))
         /\ (exists d st',
                Services.ServerSide.generateMockWeatherData c lat lng st
                = (Ret d, st')
                /\ in_percent_range (w_humidity d)
                /\ in_percent_range (w_cloudCover d)
                /\ (lat <> NaN -> in_percent_range (w_fireWeatherIndex d)))
         /\ (exists d st',
                Services.Enhanced.generateMockWeatherData c lat lng st
                = (Ret d, st')
                /\ in_percent_range (Services.Enhanced.humidity d)
                /\ in_percent_range (Services.Enhanced.cloudCover d)
                /\ (lat <> NaN ->
                    in_percent_range (Services.Enhanced.fireWeatherIndex d))))
  /\ (forall c g wst st,
         Answers.unit_random (Services.world c) ->
         (exists s wst',
             Worker.parseGBIFSpeciesData (Services.world c) g wst
             = (Ret s, wst')
             /\ species_in_range s)
         /\ (exists s st',
                Services.Enhanced.parseGBIFSpeciesData c g st = (Ret s, st')
                /\ species_in_range s))
  /\ (forall c lossData st out st',
         Services.Enhanced.parseForestLossData c lossData st = (Ret out, st') ->
         Forall (fun a => a_confidence a = of_Z 90) out)
  /\ (forall d,
         w_humidity (Worker.parseOpenWeatherData d) = ow_humidity d
         /\ w_cloudCover (Worker.parseOpenWeatherData d) = ow_clouds_all d
         /\ Services.Enhanced.humidity (Services.Enhanced.parseOpenWeatherData d)
            = ow_humidity d
         /\ Services.Enhanced.cloudCover
              (Services.Enhanced.parseOpenWeatherData d)
            = ow_clouds_all d
         /\ (ow_temp d <> NaN -> ow_humidity d <> NaN ->
             in_percent_range
               (w_fireWeatherIndex (Worker.parseOpenWeatherData d))
             /\ in_percent_range
                  (Services.Enhanced.fireWeatherIndex
                     (Services.Enhanced.parseOpenWeatherData d))))
  /\ (forall w csvData a,
         a ∈ Worker.parseFireCsvData w csvData
         \/ a ∈ Services.Enhanced.parseFireCsvData w csvData ->
         exists raw,
           raw ∈ split Worker.newline csvData
           /\ a_confidence a = parseFloat (nth 8 (split "," (trim raw)) ""))
  /\ (forall c items wst st,
         (exists out wst',
             Worker.parseGladAlertsData (Services.world c) (Some items) wst
             = (Ret out, wst')
             /\ Forall2 (fun alert a =>
                           a_confidence a
                           = or_num (g_confidence alert) (of_Z 85))
                  (take 25 items) out)
         /\ (exists out st',
                Services.Enhanced.parseGladAlertsData c items st
                = (Ret out, st')
                /\ Forall2 (fun alert a =>
                              a_confidence a
                              = or_num (g_confidence alert) (of_Z 85))
                     (take 10 items) out)).
Proof.
  split; [|split; [|split; [|split; [|split; [|split]]]]].
  - intros w. split; [|split; [|split]].
    + in_range_list.
    + in_range_list.
    + in_range_list.
    + repeat constructor.
  - intros c lat lng wst st Hr. split; [|split].
    + now apply worker_mockWeather_in_range.
    + now apply server_generateMockWeatherData_in_range.
    + now apply enhanced_generateMockWeatherData_in_range.
  - intros c g wst st Hr. split.
    + now apply worker_parseGBIFSpeciesData_in_range.
    + now apply enhanced_parseGBIFSpeciesData_in_range.
  - intros c lossData st out st'. unfold Services.Enhanced.parseForestLossData.
    destruct lossData as [entries|].
    + apply enhanced_parseForestLossEntries_confidence.
    + intros [= <- <-]. constructor.
  - intros d. repeat (split; [reflexivity|]).
    intros Ht Hh.
    assert (Hp : or_num (ow_rain_1h d) (of_Z 0) <> NaN).
    { unfold or_num. destruct (ow_rain_1h d) as [[|q|b]|]; cbn;
        try discriminate.
      destruct (Qeq_bool q 0); discriminate. }
    split; apply fwi_in_range; assumption.
  - intros w csvData a [Ha | Ha].
    + now apply parseFireCsvData_confidence in Ha.
    + now apply enhanced_parseFireCsvData_confidence in Ha.
  - intros c items wst st. split.
    + unfold Worker.parseGladAlertsData.
      destruct (parseGladItems_confidence (Services.world c) (take 25 items)
                  0%nat wst) as (out & wst' & E & H & _).
      eauto.
    + unfold Services.Enhanced.parseGladAlertsData.
      apply enhanced_parseGladItems_confidence.
Qed.

(** An instance of [C9_percent_fields]: a weather record mocked by the
    proxy client for the latitude -3.5, every draw being 1/2; and the
    alert parsed from [Examples.firms_csv], whose confidence 150 is read
    from a row of it. *)
Lemma C9_percent_fields_witness :
  (exists d st',
      Services.ServerSide.generateMockWeatherData (Examples.browser 0 None)
        (Num (-3.5)) (Num (-62.1)) Services.empty_state = (Ret d, st')
      /\ in_percent_range (w_humidity d)
      /\ in_percent_range (w_cloudCover d)
      /\ in_percent_range (w_fireWeatherIndex d))
  /\ exists raw,
       raw ∈ split Worker.newline Examples.firms_csv
       /\ Num 150 = parseFloat (nth 8 (split "," (trim raw)) "").
Proof.
  destruct C9_percent_fields as (_ & Hw & _ & _ & _ & Hf & _).
  split.
  - destruct (Hw (Examples.browser 0 None) (Num (-3.5)) (Num (-62.1))
                Worker.empty_state Services.empty_state)
      as (_ & (d & st' & E & H1 & H2 & H3) & _).
    { intros n. split; vm_compute; congruence. }
    exists d, st'. split; [exact E|]. split; [exact H1|].
    split; [exact H2|]. apply H3. discriminate.
  - lazymatch eval vm_compute in
      (Worker.parseFireCsvData (Examples.offline 0) Examples.firms_csv) with
    | [?a] =>
        destruct (Hf (Examples.offline 0) Examples.firms_csv a)
          as (raw & Hraw & Hc);
        [ left; vm_compute; apply list_elem_of_here
        | exists raw; split; [exact Hraw | exact Hc] ]
    end.
Defined.

(** C9, the clamping refuted: the alert parsed from a FIRMS row whose
    confidence column reads 150 has confidence 150, outside [0, 100]. *)
Lemma C9_counterexample :
  exists a,
    a ∈ Worker.parseFireCsvData (Examples.offline 0) Examples.firms_csv
    /\ a_confidence a = Num 150
    /\ ~ in_percent_range (a_confidence a).
Proof.
  eexists. split; [vm_compute; apply list_elem_of_here|].
  split; [reflexivity|].
  cbn. unfold Qle. cbn. lia.
Qed.
